(** * ataix_lab08: order-lifecycle automation, shallow embedding

    Source: [src/lab8/ataix_lab08.py].

    Modelling conventions.
    - A Python [float] is an exact rational ([Q]): comparisons, [min],
      truncation by [int], and the decimal rounding performed by
      [float(f"{x:.nf}")] are modelled exactly; binary64 rounding error,
      infinities and NaN are outside the model.
    - Values decoded from JSON keep Python's dynamic typing: [json] is the
      tagged union of what [json.load] produces, and every operation that
      raises on a wrong shape raises here too.
    - Effects (HTTP, console, the store file) are threaded through a state
      and exception monad whose state survives a raised exception, as the
      effects of a Python [try] body do. *)

From Stdlib Require Import ZArith QArith Qround Lia Lqa List String Ascii Bool.
From Stdlib Require DecimalString.
Import ListNotations.
Set Warnings "-register-all".
Open Scope string_scope.
Open Scope Q_scope.

(** ** Numbers *)

Definition Qltb (x y : Q) : bool := negb (Qle_bool y x).

(** [int(x)] on a float truncates toward zero. *)
Definition py_trunc (x : Q) : Z := Z.quot (Qnum x) (Zpos (Qden x)).

(** [min(a, b)]: the first argument unless the second is strictly smaller. *)
Definition py_min (a b : Q) : Q := if Qltb b a then b else a.

Definition pow10 (n : nat) : Z := Z.pow 10 (Z.of_nat n).

(** Nearest integer, ties to even: the rounding of [format(x, ".nf")]. *)
Definition round_half_even (x : Q) : Z :=
  let f := Qfloor x in
  let r := x - inject_Z f in
  if Qltb r (1 # 2) then f
  else if Qltb (1 # 2) r then (f + 1)%Z
  else if Z.even f then f else (f + 1)%Z.

(** [float(f"{x:.{n}f}")] for a precision [n >= 0]. *)
Definition fmt_round (n : nat) (x : Q) : Q :=
  Qred (inject_Z (round_half_even (x * inject_Z (pow10 n))) / inject_Z (pow10 n)).

(** ** JSON values, with Python's dynamic operations *)

Inductive json : Type :=
| JNull
| JBool (b : bool)
| JInt (z : Z)
| JFloat (q : Q)
| JStr (s : string)
| JList (l : list json)
| JDict (d : list (string * json)).

Inductive exn : Type :=
| PermissionError | RuntimeError | ValueError | TypeError | KeyError
| AttributeError | ZeroDivisionError.

Inductive res (A : Type) : Type :=
| Ok (a : A)
| Raise (e : exn).
Arguments Ok {A} a.
Arguments Raise {A} e.

Definition rbind {A B} (r : res A) (k : A -> res B) : res B :=
  match r with Ok a => k a | Raise e => Raise e end.

(** [except: <default>] around a pure computation. *)
Definition or_else {A} (r : res A) (d : A) : A :=
  match r with Ok a => a | Raise _ => d end.

Definition is_ok {A} (r : res A) : bool :=
  match r with Ok _ => true | Raise _ => false end.

(** Truth value of a JSON value ([if v], [v or w], [not v]). *)
Definition truthy (v : json) : bool :=
  match v with
  | JNull => false
  | JBool b => b
  | JInt z => negb (Z.eqb z 0)
  | JFloat q => negb (Qeq_bool q 0)
  | JStr s => negb (String.eqb s EmptyString)
  | JList l => match l with [] => false | _ => true end
  | JDict d => match d with [] => false | _ => true end
  end.

(** [a or b] *)
Definition py_or (a b : json) : json := if truthy a then a else b.

Definition is_none (v : json) : bool :=
  match v with JNull => true | _ => false end.

Definition is_dict (v : json) : bool :=
  match v with JDict _ => true | _ => false end.

Fixpoint lookup (k : string) (d : list (string * json)) : option json :=
  match d with
  | [] => None
  | (k', v) :: d' => if String.eqb k k' then Some v else lookup k d'
  end.

(** [d[k] = v] on a dict: replaces in place or appends. *)
Fixpoint assign (k : string) (v : json) (d : list (string * json))
  : list (string * json) :=
  match d with
  | [] => [(k, v)]
  | (k', v') :: d' =>
      if String.eqb k k' then (k, v) :: d' else (k', v') :: assign k v d'
  end.

(** [v.get(k, dflt)]; only dicts have [get]. *)
Definition get_default (v : json) (k : string) (dflt : json) : res json :=
  match v with
  | JDict d => Ok (match lookup k d with Some x => x | None => dflt end)
  | _ => Raise AttributeError
  end.

(** [v.get(k)] *)
Definition get (v : json) (k : string) : res json := get_default v k JNull.

(** [v[k]] for a string key. *)
Definition getitem (v : json) (k : string) : res json :=
  match v with
  | JDict d => match lookup k d with Some x => Ok x | None => Raise KeyError end
  | _ => Raise TypeError
  end.

(** [v[k] = x] for a string key. *)
Definition setitem (v : json) (k : string) (x : json) : res json :=
  match v with
  | JDict d => Ok (JDict (assign k x d))
  | _ => Raise TypeError
  end.

Definition is_str (s : string) (v : json) : bool :=
  match v with JStr s' => String.eqb s s' | _ => false end.

(** Whether [sub] occurs in [s] (the [in] operator on two strings). *)
Definition occurs (sub s : string) : bool :=
  match String.index 0 sub s with Some _ => true | None => false end.

(** [k in v] for a string key [k]. *)
Definition contains (k : string) (v : json) : res bool :=
  match v with
  | JDict d => Ok (match lookup k d with Some _ => true | None => false end)
  | JList l => Ok (existsb (is_str k) l)
  | JStr s => Ok (occurs k s)
  | _ => Raise TypeError
  end.

(** ASCII case mapping of [str.lower] and [str.upper]. *)
Definition lower_ascii (c : ascii) : ascii :=
  let n := nat_of_ascii c in
  if andb (Nat.leb 65 n) (Nat.leb n 90) then ascii_of_nat (n + 32) else c.

Definition upper_ascii (c : ascii) : ascii :=
  let n := nat_of_ascii c in
  if andb (Nat.leb 97 n) (Nat.leb n 122) then ascii_of_nat (n - 32) else c.

Fixpoint map_string (f : ascii -> ascii) (s : string) : string :=
  match s with
  | EmptyString => EmptyString
  | String c s' => String (f c) (map_string f s')
  end.

Definition lower := map_string lower_ascii.
Definition upper := map_string upper_ascii.

Definition str_in (s : string) (l : list string) : bool :=
  existsb (String.eqb s) l.

(** ** The outside world: HTTP, console, store file *)

Inductive method : Type := GET | POST | DELETE.

(** The header variants of [try_request], in the order they are tried. *)
Inductive auth : Type :=
| XApiKey (key : string)
| Bearer (key : string)
| ApiKeyLower (key : string)
| ApiKeyDash (key : string)
| NoAuth.

(** JSON body of [POST /api/orders]; [b_price] and [b_quantity] are the
    numbers whose [str()] is sent. *)
Record order_body : Type := {
  b_symbol : string;
  b_side : string;
  b_type : string;
  b_price : Q;
  b_quantity : Q
}.

Record request : Type := {
  rq_method : method;
  rq_path : string;
  rq_auth : auth;
  rq_body : option order_body
}.

(** [body_json = None] when [resp.json()] raises. *)
Record response : Type := {
  status_code : Z;
  text : string;
  body_json : option json
}.

(** [resp.ok]: no 4xx or 5xx status. *)
Definition resp_ok (r : response) : bool :=
  negb (andb (Z.leb 400 (status_code r)) (Z.ltb (status_code r) 600)).

Definition denied (r : response) : bool :=
  orb (Z.eqb (status_code r) 401) (Z.eqb (status_code r) 403).

Definition resp_json (r : response) : res json :=
  match body_json r with Some j => Ok j | None => Raise ValueError end.

(** [resp.json()] with the [except: return {"raw_text": resp.text}] fallback. *)
Definition json_or_raw (r : response) : json :=
  or_else (resp_json r) (JDict [("raw_text", JStr (text r))]).

(** What opening and [json.load]-ing a path does. *)
Inductive file : Type :=
| Missing                (* FileNotFoundError *)
| Broken                 (* any other failure to open or to parse *)
| Holds (j : json).      (* parses to [j] *)

(** Console lines, by the tag the source prints. *)
Inductive line : Type :=
| INFO (what : string)
| WARN_network (m : method) (path : string)
| WARN_balance_fallback
| ERROR_load (filename : string)
| INFO_single_order
| SKIP_small (price qty : Q)
| OK_buy (order_id : json)
| ERROR_buy (e : exn)
| WARN_no_order_id
| INFO_status (oid status : json)
| OK_sell (order_id : json)
| ERROR_sell (e : exn)
| ERROR_status (e : exn)
| DONE.

(** ** The client, over an arbitrary exchange *)

(** What the client runs against. The exchange and the network in front
    of it: one HTTP exchange either fails at transport level ([None], a
    [requests.RequestException]) or yields a response, and moves the world
    on. [now] is [int(time.time())]. The last three are the built-ins
    [float(s)] and [int(s)] on a string and [str(v)] on a value that is
    not a string. *)
Class Exchange : Type := {
  World : Type;
  http : World -> request -> option response * World;
  now : World -> Z;
  float_of_str : string -> option Q;
  int_of_str : string -> option Z;
  repr : json -> string
}.

Section Client.

Context {X : Exchange}.

Record St : Type := {
  net : World;
  sent : list request;        (* every HTTP request issued, oldest first *)
  out : list line;            (* console, oldest first *)
  files : string -> file
}.

Definition M (A : Type) : Type := St -> res A * St.

Definition ret {A} (a : A) : M A := fun s => (Ok a, s).
Definition raise {A} (e : exn) : M A := fun s => (Raise e, s).
Definition bind {A B} (m : M A) (k : A -> M B) : M B :=
  fun s => match m s with
           | (Ok a, s') => k a s'
           | (Raise e, s') => (Raise e, s')
           end.
Definition lift {A} (r : res A) : M A := fun s => (r, s).

Notation "x <- m ;; k" := (bind m (fun x => k))
  (at level 100, m at next level, right associativity).
Notation "m ;;; k" := (bind m (fun _ => k))
  (at level 100, right associativity).

(** [try: m  except PermissionError: raise  except Exception as e: h e] *)
Definition try_reraising_denied {A} (m : M A) (h : exn -> M A) : M A :=
  fun s => match m s with
           | (Raise PermissionError, s') => (Raise PermissionError, s')
           | (Raise e, s') => h e s'
           | r => r
           end.

(** [try: m  except Exception as e: h e] *)
Definition try_except {A} (m : M A) (h : exn -> M A) : M A :=
  fun s => match m s with
           | (Raise e, s') => h e s'
           | r => r
           end.

Definition print (l : line) : M unit :=
  fun s => (Ok tt, {| net := net s; sent := sent s; out := out s ++ [l];
                      files := files s |}).

Definition clock : M Z := fun s => (Ok (now (net s)), s).

(** One [requests.get/post/delete] call. *)
Definition send (rq : request) (s : St) : option response * St :=
  let (r, w) := http (net s) rq in
  (r, {| net := w; sent := sent s ++ [rq]; out := out s; files := files s |}).

Definition float_of (v : json) : res Q :=
  match v with
  | JInt z => Ok (inject_Z z)
  | JFloat q => Ok q
  | JBool b => Ok (if b then 1 else 0)
  | JStr s => match float_of_str s with Some q => Ok q | None => Raise ValueError end
  | _ => Raise TypeError
  end.

Definition int_of (v : json) : res Z :=
  match v with
  | JInt z => Ok z
  | JFloat q => Ok (py_trunc q)
  | JBool b => Ok (if b then 1 else 0)%Z
  | JStr s => match int_of_str s with Some z => Ok z | None => Raise ValueError end
  | _ => Raise TypeError
  end.

Definition py_str (v : json) : string :=
  match v with JStr s => s | _ => repr v end.

(** *** HTTP helper (lines 36-68) *)

Definition headers_variants (api_key : option string) : list auth :=
  match api_key with
  | Some k => if String.eqb k EmptyString then [NoAuth]
              else [XApiKey k; Bearer k; ApiKeyLower k; ApiKeyDash k; NoAuth]
  | None => [NoAuth]
  end.

Fixpoint try_variants (m : method) (path : string) (body : option order_body)
    (hs : list auth) (s : St) : option response * St :=
  match hs with
  | [] => (None, s)
  | h :: hs' =>
      match send {| rq_method := m; rq_path := path; rq_auth := h;
                    rq_body := body |} s with
      | (Some resp, s') => (Some resp, s')
      | (None, s') =>
          try_variants m path body hs'
            {| net := net s'; sent := sent s';
               out := out s' ++ [WARN_network m path]; files := files s' |}
      end
  end.

Definition try_request (m : method) (path : string) (api_key : option string)
    (body : option order_body) : M (option response) :=
  fun s => let (r, s') := try_variants m path body (headers_variants api_key) s in
           (Ok r, s').

(** *** Store file (lines 70-82) *)

Definition empty_store : json := JDict [("orders", JList [])].

Definition load_saved (filename : string) : M json :=
  fun s => match files s filename with
           | Holds j => (Ok j, s)
           | Missing => (Ok empty_store, s)
           | Broken => (print (ERROR_load filename) ;;; ret empty_store) s
           end.

Definition save_saved (filename : string) (data : json) : M unit :=
  fun s => (Ok tt, {| net := net s; sent := sent s; out := out s;
                      files := fun f => if String.eqb f filename then Holds data
                                        else files s f |}).

(** *** API wrappers (lines 85-195) *)

Definition get_balance (api_key : option string) (currency : string) : M json :=
  r <- try_request GET ("/api/user/balances/" ++ currency) api_key None ;;
  match r with
  | None => raise RuntimeError
  | Some resp =>
      if denied resp then raise PermissionError
      else if negb (resp_ok resp) then raise RuntimeError
      else lift (resp_json resp)
  end.

(** The three guarded reads of [extract_available_usdt]: [available], then
    [free], then [total]; a key that is present but does not convert is
    passed over. *)
Fixpoint first_float (r : json) (keys : list string) : res (option Q) :=
  match keys with
  | [] => Ok None
  | k :: ks =>
      rbind (contains k r) (fun present =>
        if present then
          match rbind (getitem r k) float_of with
          | Ok q => Ok (Some q)
          | Raise _ => first_float r ks
          end
        else first_float r ks)
  end.

Definition extract_available_usdt (balance_json : json) (fallback : Q) : M Q :=
  found <- lift (if is_dict balance_json
                 then rbind (get balance_json "result") (fun r =>
                        first_float (py_or r (JDict [])) ["available"; "free"; "total"])
                 else Ok None) ;;
  match found with
  | Some q => ret q
  | None => print WARN_balance_fallback ;;; ret fallback
  end.

Definition get_symbols (api_key : option string) : M json :=
  r <- try_request GET "/api/symbols" api_key None ;;
  match r with
  | None => raise RuntimeError
  | Some resp =>
      if negb (resp_ok resp) then raise RuntimeError
      else lift (resp_json resp)
  end.

Fixpoint find_entry (entries : list json) (pair : string) : res json :=
  match entries with
  | [] => Raise RuntimeError
  | e :: es =>
      if andb (is_dict e) (is_str pair (or_else (get e "symbol") JNull))
      then Ok e else find_entry es pair
  end.

Definition find_symbol_record (symbols_json : json) (pair : string) : res json :=
  match (if is_dict symbols_json then or_else (get symbols_json "result") JNull
         else JNull) with
  | JList entries => find_entry entries pair
  | _ => Raise RuntimeError
  end.

Record limits : Type := { lotSize : Q; minQty : Q; minNotional : Q }.

Definition get_symbol_limits (srec : json) : res limits :=
  rbind (rbind (get_default srec "lotSize" (JFloat (1 # 1000000))) float_of)
    (fun lot_size =>
  rbind (rbind (get_default srec "minQty" (JFloat lot_size)) float_of)
    (fun min_qty =>
  rbind (rbind (get_default srec "minNotional" (JFloat (1 # 2))) float_of)
    (fun min_notional =>
  Ok {| lotSize := lot_size; minQty := min_qty; minNotional := min_notional |}))).

(** [bids[0]] for a truthy [bids]. *)
Definition first_item (v : json) : res json :=
  match v with
  | JList (x :: _) => Ok x
  | JStr (String c _) => Ok (JStr (String c EmptyString))
  | JDict _ => Raise KeyError
  | _ => Raise TypeError
  end.

(** The price in the top bid, lines 173-177. *)
Definition bid_price (top : json) : res Q :=
  match top with
  | JList (x :: _) => float_of x
  | JDict d => match lookup "price" d with
               | Some x => float_of x
               | None => Raise RuntimeError
               end
  | _ => Raise RuntimeError
  end.

Definition get_public_best_bid (pair : string) : M Q :=
  r <- try_request GET ("/api/cmc/v1/orderbook/" ++ pair) None None ;;
  match r with
  | None => raise RuntimeError
  | Some resp =>
      if negb (resp_ok resp) then raise RuntimeError
      else
        data <- lift (resp_json resp) ;;
        result <- lift (get_default data "result" (JDict [])) ;;
        b <- lift (get result "bids") ;;
        let bids := py_or b (JList []) in
        if negb (truthy bids) then raise RuntimeError
        else top <- lift (first_item bids) ;; lift (bid_price top)
  end.

Definition price_keys : list string := ["bid"; "bestBid"; "last"; "price"].

(** The loop of lines 186-194: [Some p] is the [return price]. *)
Fixpoint first_positive (srec : json) (keys : list string) : res (option Q) :=
  match keys with
  | [] => Ok None
  | k :: ks =>
      rbind (get srec k) (fun v =>
        if is_none v then first_positive srec ks
        else match float_of v with
             | Ok price => if Qltb 0 price then Ok (Some price)
                           else first_positive srec ks
             | Raise _ => first_positive srec ks
             end)
  end.

Definition find_best_bid_price (api_key : option string) (pair : string) : M Q :=
  symbols <- get_symbols api_key ;;
  srec <- lift (find_symbol_record symbols pair) ;;
  found <- lift (first_positive srec price_keys) ;;
  match found with
  | Some price => ret price
  | None => get_public_best_bid pair
  end.

(** *** Orders (lines 197-274) *)

Definition id_keys : list string :=
  ["orderID"; "orderId"; "id"; "clientOrderId"; "dataId"].

(** [key in d and d[key]] over the identifier keys, first hit wins. *)
Fixpoint first_truthy (d : list (string * json)) (keys : list string) : option json :=
  match keys with
  | [] => None
  | k :: ks =>
      match lookup k d with
      | Some v => if truthy v then Some v else first_truthy d ks
      | None => first_truthy d ks
      end
  end.

(** The result is [None] or a string; it is returned here as the JSON
    value that ends up in the record. *)
Definition extract_order_id (resp_json : json) : json :=
  match resp_json with
  | JDict d =>
      match first_truthy d id_keys with
      | Some v => JStr (py_str v)
      | None =>
          match lookup "result" d with
          | Some (JDict r) =>
              match first_truthy r id_keys with
              | Some v => JStr (py_str v)
              | None => JNull
              end
          | _ => JNull
          end
      end
  | _ => JNull
  end.

(** [steps * lot_size] with [steps = int(quantity / lot_size)], then the
    eight-decimal clean-up (lines 229-231). *)
Definition floor_to_lot (quantity lot_size : Q) : res Q :=
  if Qeq_bool lot_size 0 then Raise ZeroDivisionError
  else
    let steps := py_trunc (quantity / lot_size) in
    Ok (fmt_round 8 (inject_Z steps * lot_size)).

(** [float(f"{price:.{price_prec}f}")]; a negative precision is a format
    error. *)
Definition round_price (price : Q) (price_prec : Z) : res Q :=
  if (price_prec <? 0)%Z then Raise ValueError
  else Ok (fmt_round (Z.to_nat price_prec) price).

(** Lines 225-239: the request body. *)
Definition order_request (symbol side : string) (price quantity : Q) (srec : json)
  : res order_body :=
  rbind (rbind (get_default srec "pricePrecision" (JInt 8)) int_of) (fun price_prec =>
  rbind (rbind (get_default srec "lotSize" (JFloat (1 # 100000000))) float_of)
    (fun lot_size =>
  rbind (round_price price price_prec) (fun p =>
  rbind (floor_to_lot quantity lot_size) (fun q =>
  Ok {| b_symbol := symbol; b_side := lower side; b_type := "limit";
        b_price := p; b_quantity := q |})))).

Definition place_order (api_key : option string) (symbol side : string)
    (price quantity : Q) (srec : json) : M json :=
  body <- lift (order_request symbol side price quantity srec) ;;
  r <- try_request POST "/api/orders" api_key (Some body) ;;
  match r with
  | None => raise RuntimeError
  | Some resp =>
      if denied resp then raise PermissionError
      else if negb (resp_ok resp) then raise RuntimeError
      else ret (json_or_raw resp)
  end.

Definition status_paths (order_id : string) : list string :=
  ["/api/orders/" ++ order_id; "/api/user/orders/" ++ order_id;
   "/api/orders?id=" ++ order_id].

Fixpoint status_lookup (api_key : option string) (paths : list string) : M json :=
  match paths with
  | [] => raise RuntimeError
  | p :: ps =>
      r <- try_request GET p api_key None ;;
      match r with
      | None => status_lookup api_key ps
      | Some resp =>
          if denied resp then raise PermissionError
          else if resp_ok resp then ret (json_or_raw resp)
          else status_lookup api_key ps
      end
  end.

Definition get_order_status (api_key : option string) (order_id : string) : M json :=
  status_lookup api_key (status_paths order_id).

(** *** The run (lines 306-460) *)

(** Lines 325-331: the discount factors and the funds per order. *)
Definition tiers (use_usdt : Q) (lim : limits) : M (list Q * Q) :=
  let per_order_usdt := use_usdt / 3 in
  if Qltb per_order_usdt (minNotional lim)
  then print INFO_single_order ;;; ret ([98 # 100], use_usdt)
  else ret ([98 # 100; 95 # 100; 92 # 100], per_order_usdt).

(** Lines 334-345: the candidates [(price, qty_raw)] that pass the
    instrument minimums. *)
Fixpoint candidates (best_bid per_order_usdt : Q) (lim : limits) (deltas : list Q)
  : M (list (Q * Q)) :=
  match deltas with
  | [] => ret []
  | d :: ds =>
      let price := best_bid * d in
      if Qeq_bool price 0 then raise ZeroDivisionError
      else
        let qty_raw := per_order_usdt / price in
        if orb (Qltb qty_raw (minQty lim)) (Qltb per_order_usdt (minNotional lim))
        then print (SKIP_small price qty_raw) ;;;
             candidates best_bid per_order_usdt lim ds
        else rest <- candidates best_bid per_order_usdt lim ds ;;
             ret ((price, qty_raw) :: rest)
  end.

(** Lines 313-315. *)
Definition usable_funds (available_usdt usdt_amount : Q) : res Q :=
  let use_usdt := py_min available_usdt usdt_amount in
  if Qle_bool use_usdt 0 then Raise RuntimeError else Ok use_usdt.

(** Lines 325-345. *)
Definition size_orders (use_usdt : Q) (lim : limits) (best_bid : Q)
  : M (list (Q * Q)) :=
  t <- tiers use_usdt lim ;;
  candidates best_bid (snd t) lim (fst t).

(** [if "orders" not in saved: saved["orders"] = []] *)
Definition ensure_orders (saved : json) : res json :=
  rbind (contains "orders" saved) (fun present =>
    if present then Ok saved else setitem saved "orders" (JList [])).

(** [saved["orders"].append(entry)] *)
Definition append_order (saved entry : json) : res json :=
  rbind (getitem saved "orders") (fun orders =>
    match orders with
    | JList l => setitem saved "orders" (JList (l ++ [entry]))
    | _ => Raise AttributeError
    end).

Definition buy_entry (price qty : Q) (pair : string) (order_id resp_json : json)
    (created_at : Z) : json :=
  JDict [("side", JStr "buy");
         ("price", JFloat (fmt_round 10 price));
         ("quantity", JFloat (fmt_round 10 qty));
         ("pair", JStr pair);
         ("order_id", order_id);
         ("status", JStr "NEW");
         ("created_raw_response", resp_json);
         ("linked_sell_order", JNull);
         ("created_at", JInt created_at)].

(** Lines 355-377. *)
Fixpoint place_buys (api_key : option string) (pair out_file : string) (srec : json)
    (to_place : list (Q * Q)) (saved : json) : M json :=
  match to_place with
  | [] => ret saved
  | (price, qty) :: rest =>
      saved' <- try_reraising_denied
        (resp_json <- place_order api_key pair "buy" price qty srec ;;
         let order_id := extract_order_id resp_json in
         t <- clock ;;
         let entry := buy_entry price qty pair order_id resp_json t in
         saved1 <- lift (append_order saved entry) ;;
         save_saved out_file saved1 ;;;
         print (OK_buy order_id) ;;;
         ret saved1)
        (fun e => print (ERROR_buy e) ;;; ret saved) ;;
      place_buys api_key pair out_file srec rest saved'
  end.

(** Lines 394-404: status, average price and filled amount, as reported. *)
Definition field (d : list (string * json)) (k : string) : json :=
  match lookup k d with Some v => v | None => JNull end.

Definition read_status (st : json) : json * json * json :=
  match st with
  | JDict d =>
      let status := py_or (field d "status") (field d "orderStatus") in
      let avg_price := py_or (field d "avgPrice") (field d "averagePrice") in
      let filled_amount :=
        py_or (py_or (field d "filledAmount") (field d "filledQty")) (field d "filled") in
      match lookup "result" d with
      | Some (JDict r) =>
          (py_or (field r "status") status,
           py_or (field r "avgPrice") avg_price,
           py_or (field r "filledAmount") filled_amount)
      | _ => (status, avg_price, filled_amount)
      end
  | _ => (JNull, JNull, JNull)
  end.

(** [status.lower()], an absent or empty status counting as the empty
    string *)
Definition normalize (status : json) : res string :=
  match py_or status (JStr EmptyString) with
  | JStr s => Ok (lower s)
  | _ => Raise AttributeError
  end.

Definition filled_words : list string := ["filled"; "done"; "closed"; "executed"].
Definition open_words : list string :=
  ["new"; "open"; "partially_filled"; "partiallyfilled"].

Definition epsilon : Q := 1 # 1000000000.

(** The comparison of line 413, [None] standing for a raised exception. *)
Definition fully_filled (filled_amount entry : json) : res bool :=
  if is_none filled_amount then Ok false
  else rbind (float_of filled_amount) (fun f =>
       rbind (rbind (getitem entry "quantity") float_of) (fun q =>
       Ok (Qle_bool (q - epsilon) f))).

(** Lines 407-418. *)
Definition local_status (norm : string) (filled_amount entry : json) : string :=
  if str_in norm filled_words then "FILLED"
  else if str_in norm open_words then upper norm
  else match fully_filled filled_amount entry with
       | Ok true => "FILLED"
       | _ => "NEW"
       end.

Definition set_field (entry : json) (k : string) (v : json) : json :=
  or_else (setitem entry k v) entry.

Definition sell_entry (sell_price sell_qty : Q) (pair : string)
    (sell_id sell_resp linked_buy : json) (created_at : Z) : json :=
  JDict [("side", JStr "sell");
         ("price", JFloat (fmt_round 10 sell_price));
         ("quantity", JFloat (fmt_round 10 sell_qty));
         ("pair", JStr pair);
         ("order_id", sell_id);
         ("status", JStr "NEW");
         ("created_raw_response", sell_resp);
         ("linked_buy_order", linked_buy);
         ("created_at", JInt created_at)].

Section Pass.

Variable api_key : option string.
Variable pair out_file : string.
Variable srec : json.

(** Lines 393-423: look the order up and record its status. [whole e]
    is the store with [e] in the place of the entry under inspection. *)
Definition update_status (whole : json -> json) (entry oid : json)
  : M (json * json) :=
  st <- get_order_status api_key (py_str oid) ;;
  let '(status, avg_price, filled_amount) := read_status st in
  norm <- lift (normalize status) ;;
  let entry1 :=
    set_field (set_field entry "status" (JStr (local_status norm filled_amount entry)))
              "status_raw_response" st in
  save_saved out_file (whole entry1) ;;;
  print (INFO_status oid (or_else (get entry1 "status") JNull)) ;;;
  ret (entry1, avg_price).

(** Lines 426-452: the take-profit sell for a filled buy. [whole e sells]
    is the store with [e] in place and [sells] appended. *)
Definition make_sell (whole : json -> list json -> json) (entry avg_price : json)
  : M (json * list json) :=
  status <- lift (getitem entry "status") ;;
  linked <- lift (get entry "linked_sell_order") ;;
  if andb (is_str "FILLED" status) (negb (truthy linked)) then
    bought_price <- lift (if truthy avg_price then float_of avg_price
                          else rbind (getitem entry "price") float_of) ;;
    let sell_price := bought_price * (102 # 100) in
    sell_qty <- lift (rbind (getitem entry "quantity") float_of) ;;
    try_except
      (sell_resp <- place_order api_key pair "sell" sell_price sell_qty srec ;;
       let sell_id := extract_order_id sell_resp in
       linked_buy <- lift (get entry "order_id") ;;
       t <- clock ;;
       let sell := sell_entry sell_price sell_qty pair sell_id sell_resp linked_buy t in
       let entry2 := set_field entry "linked_sell_order" sell_id in
       save_saved out_file (whole entry2 [sell]) ;;;
       print (OK_sell sell_id) ;;;
       ret (entry2, [sell]))
      (fun e => print (ERROR_sell e) ;;; ret (entry, []))
  else ret (entry, []).

(** One iteration of the loop of line 383. The single [try] of lines
    392-457 is written as two, around the part before and the part after
    the status is stored, with the same handlers: what the handler leaves
    behind is the entry as mutated so far. *)
Definition check_entry (whole : json -> list json -> json) (entry : json)
  : M (json * list json) :=
  side <- lift (getitem entry "side") ;;
  if negb (is_str "buy" side) then ret (entry, [])
  else
    status <- lift (get entry "status") ;;
    if orb (is_str "FILLED" status) (is_str "CLOSED" status) then ret (entry, [])
    else
      oid <- lift (get entry "order_id") ;;
      if negb (truthy oid) then print WARN_no_order_id ;;; ret (entry, [])
      else
        r <- try_reraising_denied
               (r <- update_status (fun e => whole e []) entry oid ;; ret (Some r))
               (fun e => print (ERROR_status e) ;;; ret None) ;;
        match r with
        | None => ret (entry, [])
        | Some (entry1, avg_price) =>
            try_reraising_denied
              (make_sell whole entry1 avg_price)
              (fun e => print (ERROR_status e) ;;; ret (entry1, []))
        end.

(** The entries of [todo] are visited in order; [done] are the entries
    before them as the loop left them, [appended] the sell records added
    behind them so far. The list under iteration is
    [done ++ todo ++ appended]. *)
Fixpoint check_entries (store : list json -> json) (done todo appended : list json)
  : M (list json * list json) :=
  match todo with
  | [] => ret (done, appended)
  | entry :: rest =>
      r <- check_entry
             (fun e sells => store (done ++ e :: rest ++ appended ++ sells)%list) entry ;;
      check_entries store (done ++ [fst r])%list rest (appended ++ snd r)%list
  end.

(** Lines 383-457. The iterator of line 383 runs over a list that grows
    while it is traversed: after the entries present at the start it
    reaches the records appended during the pass. Those are visited by the
    second call; they are sell records, for which the loop body does
    nothing (see [appended_skipped]). *)
Definition status_pass (saved : json) : M json :=
  orders <- lift (getitem saved "orders") ;;
  match orders with
  | JList l =>
      let store := fun l' => set_field saved "orders" (JList l') in
      r <- check_entries store [] l [] ;;
      r' <- check_entries store (fst r) (snd r) [] ;;
      ret (store (fst r' ++ snd r')%list)
  | JDict [] | JStr EmptyString => ret saved
  | _ => raise TypeError
  end.

End Pass.

(** *** Cancellation (lines 277-303) *)

Fixpoint cancel_lookup (api_key : option string) (paths : list string) : M json :=
  match paths with
  | [] => raise RuntimeError
  | p :: ps =>
      r <- try_request DELETE p api_key None ;;
      match r with
      | Some resp =>
          if resp_ok resp then ret (json_or_raw resp)
          else cancel_lookup api_key ps
      | None => cancel_lookup api_key ps
      end
  end.

Definition cancel_order (api_key : option string) (order_id : string) : M json :=
  cancel_lookup api_key ["/api/orders/" ++ order_id; "/api/user/orders/" ++ order_id].

(** What a [for] loop over a decoded value visits: the elements of a
    list, the keys of an object, the characters of a string. *)
Fixpoint chars (s : string) : list json :=
  match s with
  | EmptyString => []
  | String c s' => JStr (String c EmptyString) :: chars s'
  end.

Definition iter_items (v : json) : res (list json) :=
  match v with
  | JList l => Ok l
  | JDict d => Ok (map (fun kv => JStr (fst kv)) d)
  | JStr s => Ok (chars s)
  | _ => Raise TypeError
  end.

(** The test of line 298. *)
Definition cancellable (o : json) : res bool :=
  rbind (get o "side") (fun side =>
    if negb (is_str "buy" side) then Ok false
    else rbind (get o "status") (fun status =>
      if negb (orb (is_none status) (orb (is_str "NEW" status) (is_str "OPEN" status)))
      then Ok false
      else rbind (get o "order_id") (fun oid => Ok (truthy oid)))).

(** The loop of lines 297-303; [o["order_id"]] is read where the test of
    line 298 has found it. The [CANCEL] and [WARN] lines are kept as [INFO]
    lines that carry the tag in their text. *)
Fixpoint cancel_each (api_key : option string) (orders : list json) : M unit :=
  match orders with
  | [] => ret tt
  | o :: rest =>
      go <- lift (cancellable o) ;;
      (if go then
         let oid := or_else (get o "order_id") JNull in
         try_except
           (cancel_order api_key (py_str oid) ;;;
            print (INFO ("[CANCEL] " ++ py_str oid)))
           (fun _ => print (INFO ("[WARN] not cancelled " ++ py_str oid)))
       else ret tt) ;;;
      cancel_each api_key rest
  end.

Definition cancel_all_new_buys (api_key : option string) (saved : json) : M unit :=
  orders <- lift (get_default saved "orders" (JList [])) ;;
  items <- lift (iter_items orders) ;;
  cancel_each api_key items.

(** *** The repair script [src/lab8/fix_orders.py] *)

(** How the script can end badly: the file is not there, the file cannot
    be opened or decoded, or an exception is raised while the records are
    patched. *)
Inductive failure : Type :=
| NoFile
| BadFile
| Crash (e : exn).

(** [str(n)] for a count. *)
Definition show_nat (n : nat) : string :=
  DecimalString.NilZero.string_of_uint (Nat.to_uint n).

(** Lines 12-19: the identifier found in [created_raw_response]. *)
Definition raw_order_id (cr : json) : json :=
  match cr with
  | JDict c =>
      let rid := py_or (field c "orderID") (field c "orderId") in
      match field c "result" with
      | JDict r =>
          if negb (truthy rid) then py_or (field r "orderID") (field r "orderId")
          else rid
      | _ => rid
      end
  | _ => JNull
  end.

(** Lines 10-22: one record; [true] when it was patched. *)
Definition backfill (o : json) : res (json * bool) :=
  rbind (get o "order_id") (fun oid =>
    if truthy oid then Ok (o, false)
    else rbind (get_default o "created_raw_response" (JDict [])) (fun cr =>
      let rid := raw_order_id cr in
      if truthy rid then Ok (set_field o "order_id" (JStr (py_str rid)), true)
      else Ok (o, false))).

Fixpoint backfill_all (items : list json) : res (list json * nat) :=
  match items with
  | [] => Ok ([], 0%nat)
  | o :: rest =>
      rbind (backfill o) (fun r =>
      rbind (backfill_all rest) (fun rs =>
      Ok (fst r :: fst rs, ((if snd r then 1 else 0) + snd rs)%nat)))
  end.

(** The document after the loop: the records are patched in place, so a
    list under [orders] holds the patched records; anything else the loop
    can get through is left as it was. *)
Definition patched_document (data : json) (items : list json) : json :=
  match data with
  | JDict d =>
      match lookup "orders" d with
      | Some (JList _) => JDict (assign "orders" (JList items) d)
      | _ => data
      end
  | _ => data
  end.

Definition fix_orders (path : string) (s : St) : (failure + nat) * St :=
  match files s path with
  | Missing => (inl NoFile, s)
  | Broken => (inl BadFile, s)
  | Holds data =>
      match rbind (get_default data "orders" (JList [])) (fun orders =>
            rbind (iter_items orders) backfill_all) with
      | Raise e => (inl (Crash e), s)
      | Ok (items, changed) =>
          (inr changed,
           snd ((save_saved path (patched_document data items) ;;;
                 print (INFO ("Patched orders: " ++ show_nat changed))) s))
      end
  end.

(** Lines 354-460: place the candidates, then the status pass. *)
Definition place_and_check (api_key : option string) (pair out_file : string)
    (srec : json) (to_place : list (Q * Q)) (saved : json) : M json :=
  print (INFO "placing buys") ;;;
  saved1 <- place_buys api_key pair out_file srec to_place saved ;;
  print (INFO "saving") ;;;
  print (INFO "checking statuses") ;;;
  saved2 <- status_pass api_key pair out_file srec saved1 ;;
  print DONE ;;;
  ret saved2.

(** Lines 311-460: the run once the available funds are known. *)
Definition run_with_funds (api_key : option string) (pair : string)
    (usdt_amount : Q) (out_file : string) (available_usdt : Q) : M json :=
  print (INFO "available") ;;;
  use_usdt <- lift (usable_funds available_usdt usdt_amount) ;;
  print (INFO "symbol and price") ;;;
  symbols <- get_symbols api_key ;;
  srec <- lift (find_symbol_record symbols pair) ;;
  lim <- lift (get_symbol_limits srec) ;;
  best_bid <- find_best_bid_price api_key pair ;;
  print (INFO "best bid") ;;;
  to_place <- size_orders use_usdt lim best_bid ;;
  saved0 <- load_saved out_file ;;
  saved <- lift (ensure_orders saved0) ;;
  place_and_check api_key pair out_file srec to_place saved.

Definition run_lab (api_key : option string) (pair : string) (usdt_amount : Q)
    (out_file : string) : M json :=
  print (INFO "balance") ;;;
  bal_json <- get_balance api_key "USDT" ;;
  print (INFO "balance raw") ;;;
  available_usdt <- extract_available_usdt bal_json usdt_amount ;;
  run_with_funds api_key pair usdt_amount out_file available_usdt.

End Client.

Arguments St {X}.
Arguments M {X} A.

(** ** The proof-of-work script [src/lab2.py] *)

Section ProofOfWork.

(** [hashlib.sha256(s.encode("utf-8")).hexdigest()] and [int(s)]. *)
Variable sha256_hex : string -> string.
Variable int_of_text : string -> option Z.

Inductive pow_error : Type :=
| EOFError           (* [input()] at the end of the input *)
| NotANumber.        (* [int()] of a line that is no integer *)

(** Lines 5-10: lines are read until one is a number from 1 to 5. *)
Fixpoint read_zero_max (lines : list string) : pow_error + Z :=
  match lines with
  | [] => inl EOFError
  | l :: rest =>
      match int_of_text l with
      | None => inl NotANumber
      | Some z => if andb (1 <=? z)%Z (z <=? 5)%Z then inr z else read_zero_max rest
      end
  end.

(** ["0" * k] *)
Fixpoint zeros (k : nat) : string :=
  match k with
  | O => EmptyString
  | S k' => String "0" (zeros k')
  end.

(** Line 18: the text that is hashed for a nonce. *)
Definition pow_input (hash_object : string) (number : nat) : string :=
  hash_object ++ "+" ++ show_nat number.

(** Lines 17-26: the search loop, cut off after [fuel] rounds; the result
    is [(attempts, number)] at the [break]. *)
Fixpoint search (hash_object prefix : string) (fuel number attempts : nat)
  : option (nat * nat) :=
  match fuel with
  | O => None
  | S fuel' =>
      if String.prefix prefix (sha256_hex (pow_input hash_object number))
      then Some (S attempts, number)
      else search hash_object prefix fuel' (S number) (S attempts)
  end.

(** What the script prints: [k], [attempts], [nonce]. The loop of lines
    12-15 only leaves [k] and [prefix] at their last values, those of
    [Zero_max], and the counters at zero. *)
Definition proof_of_work (stdin : list string) (fuel : nat)
  : pow_error + option (Z * nat * nat) :=
  match stdin with
  | [] => inl EOFError
  | hash_object :: rest =>
      match read_zero_max rest with
      | inl e => inl e
      | inr zero_max =>
          inr (option_map (fun r => (zero_max, fst r, snd r))
                 (search hash_object (zeros (Z.to_nat zero_max)) fuel 0 0))
      end
  end.

End ProofOfWork.


(** ** A scripted exchange, for concrete runs *)

Definition digit (c : ascii) : option Z :=
  let n := nat_of_ascii c in
  if andb (Nat.leb 48 n) (Nat.leb n 57) then Some (Z.of_nat (n - 48)) else None.

Fixpoint digits (s : string) (acc : Z) : option Z :=
  match s with
  | EmptyString => Some acc
  | String c s' =>
      match digit c with
      | Some d => digits s' (10 * acc + d)%Z
      | None => None
      end
  end.

Fixpoint split_dot (s : string) : string * option string :=
  match s with
  | EmptyString => (EmptyString, None)
  | String c s' =>
      if Ascii.eqb c "."%char then (EmptyString, Some s')
      else let (a, b) := split_dot s' in (String c a, b)
  end.

Definition unsigned_decimal (s : string) : option Q :=
  match split_dot s with
  | (i, None) =>
      if String.eqb i EmptyString then None else option_map inject_Z (digits i 0)
  | (i, Some f) =>
      if andb (String.eqb i EmptyString) (String.eqb f EmptyString) then None
      else match digits i 0, digits f 0 with
           | Some a, Some b =>
               Some (Qred (inject_Z a + inject_Z b / inject_Z (pow10 (String.length f))))
           | _, _ => None
           end
  end.

(** Plain decimal literals, on which [float(s)] is the number written. *)
Definition parse_decimal (s : string) : option Q :=
  match s with
  | String "-" s' => option_map Qopp (unsigned_decimal s')
  | String "+" s' => unsigned_decimal s'
  | _ => unsigned_decimal s
  end.

Definition parse_int (s : string) : option Z :=
  match s with
  | EmptyString => None
  | String "-" s' => if String.eqb s' EmptyString then None else option_map Z.opp (digits s' 0)
  | String "+" s' => if String.eqb s' EmptyString then None else digits s' 0
  | _ => digits s 0
  end.

(** The exchange answers the [n]-th request with the [n]-th element of a
    script and fails at transport level once the script is used up. *)
Definition scripted : Exchange := {|
  World := list (option response);
  http := fun w _ => match w with [] => (None, []) | r :: w' => (r, w') end;
  now := fun _ => 1700000000%Z;
  float_of_str := parse_decimal;
  int_of_str := parse_int;
  repr := fun _ => "<object>"
|}.

Definition no_files : string -> file := fun _ => Missing.

Definition start {X : Exchange} (w : World) (fs : string -> file) : St :=
  {| net := w; sent := []; out := []; files := fs |}.

Definition reply (code : Z) (j : json) : option response :=
  Some {| status_code := code; text := EmptyString; body_json := Some j |}.

(** ** Scenario data *)


(** Available 10, wanted 10, [minNotional] 0.5, reference price 1: three
    tiers with a third of the funds each. *)
Definition soft_limits : limits :=
  {| lotSize := 1 # 1000000; minQty := 1 # 1000000; minNotional := 1 # 2 |}.

Definition trx_record : list (string * json) :=
  [("symbol", JStr "TRX/USDT"); ("bid", JStr "0"); ("last", JStr "1.5");
   ("price", JStr "1.7")].

Definition trx_catalog : json := JDict [("result", JList [JDict trx_record])].

(** A buy of 100 at 1.00, placed and not yet filled. *)
Definition placed_buy (status : string) : list (string * json) :=
  [("side", JStr "buy"); ("price", JFloat 1); ("quantity", JFloat 100);
   ("pair", JStr "TRX/USDT"); ("order_id", JStr "B1"); ("status", JStr status);
   ("created_raw_response", JDict [("orderID", JStr "B1")]);
   ("linked_sell_order", JNull); ("created_at", JInt 1700000000)].

Definition filled_reply : json :=
  JDict [("status", JStr "FILLED"); ("avgPrice", JStr "1.05")].


(** The store around a single record. *)
Definition lone : json -> list json -> json :=
  fun e sells => JDict [("orders", JList (e :: sells))].

Definition key : option string := Some "key".


Definition orders_of (saved : json) : list json :=
  match saved with
  | JDict d => match field d "orders" with JList l => l | _ => [] end
  | _ => []
  end.

Definition summary (e : json) : json * json * json * json :=
  match e with
  | JDict d => (field d "side", field d "order_id", field d "status",
                py_or (field d "linked_sell_order") (field d "linked_buy_order"))
  | _ => (JNull, JNull, JNull, JNull)
  end.

(** A whole run: balance 10, ceiling 10, best bid 1.00; three buys are
    placed; at the status pass the first is new, the second open, the third
    filled at 0.95 and sold. *)
Definition full_script : list (option response) :=
  [reply 200 (JDict [("result", JDict [("available", JStr "10")])]);
   reply 200 (JDict [("result", JList [JDict [("symbol", JStr "TRX/USDT");
                                                ("bid", JStr "1.00")]])]);
   reply 200 (JDict [("result", JList [JDict [("symbol", JStr "TRX/USDT");
                                                ("bid", JStr "1.00")]])]);
   reply 200 (JDict [("orderID", JStr "B1")]);
   reply 200 (JDict [("result", JDict [("orderID", JStr "B2")])]);
   reply 200 (JDict [("id", JStr "B3")]);
   reply 200 (JDict [("status", JStr "NEW")]);
   reply 200 (JDict [("status", JStr "Open")]);
   reply 200 (JDict [("result", JDict [("status", JStr "FILLED");
                                        ("avgPrice", JStr "0.95")])]);
   reply 200 (JDict [("orderID", JStr "S3")])].


(** ** SHA-256, for concrete runs of the proof-of-work search

    [hashlib.sha256(s.encode("utf-8")).hexdigest()] as FIPS 180-4 defines
    it, on the bytes of the string. *)

Module Sha256.

Local Open Scope Z_scope.

Definition w32 (z : Z) : Z := Z.land z 0xffffffff.
Definition rotr (n x : Z) : Z := Z.lor (Z.shiftr x n) (w32 (Z.shiftl x (32 - n))).
Definition choose (x y z : Z) : Z := Z.lxor (Z.land x y) (Z.land (w32 (Z.lnot x)) z).
Definition majority (x y z : Z) : Z :=
  Z.lxor (Z.lxor (Z.land x y) (Z.land x z)) (Z.land y z).
Definition big_sigma0 (x : Z) : Z := Z.lxor (Z.lxor (rotr 2 x) (rotr 13 x)) (rotr 22 x).
Definition big_sigma1 (x : Z) : Z := Z.lxor (Z.lxor (rotr 6 x) (rotr 11 x)) (rotr 25 x).
Definition small_sigma0 (x : Z) : Z := Z.lxor (Z.lxor (rotr 7 x) (rotr 18 x)) (Z.shiftr x 3).
Definition small_sigma1 (x : Z) : Z := Z.lxor (Z.lxor (rotr 17 x) (rotr 19 x)) (Z.shiftr x 10).

(** The constants are what the standard says they are: the first 32 bits
    of the fractional parts of the cube roots (round constants) and of the
    square roots (initial hash) of the first primes. *)
Definition is_prime (n : nat) : bool :=
  forallb (fun d => negb (Nat.eqb (Nat.modulo n d) 0)) (seq 2 (n - 2)).

Definition primes (n : nat) : list Z :=
  map Z.of_nat (firstn n (filter is_prime (seq 2 400))).

(** The largest [r] below [2 ^ bits] with [r ^ 3 <= n], bit by bit. *)
Fixpoint cube_root (bits : nat) (n r : Z) : Z :=
  match bits with
  | O => r
  | S b =>
      let r' := r + Z.shiftl 1 (Z.of_nat b) in
      cube_root b n (if r' * r' * r' <=? n then r' else r)
  end.

Definition round_constants : list Z :=
  map (fun p => w32 (cube_root 36 (Z.shiftl p 96) 0)) (primes 64).

Definition initial_hash : list Z :=
  map (fun p => w32 (Z.sqrt (Z.shiftl p 64))) (primes 8).

Fixpoint bytes_of (s : string) : list Z :=
  match s with
  | EmptyString => []
  | String c s' => Z.of_nat (nat_of_ascii c) :: bytes_of s'
  end.

(** Big-endian bytes of [z], [n] of them. *)
Fixpoint be_bytes (n : nat) (z : Z) : list Z :=
  match n with
  | O => []
  | S n' => Z.land (Z.shiftr z (8 * Z.of_nat n')) 0xff :: be_bytes n' z
  end.

Definition padded (msg : list Z) : list Z :=
  let len := Z.of_nat (List.length msg) in
  let fill := Z.to_nat ((55 - len) mod 64) in
  (msg ++ [0x80] ++ repeat 0 fill ++ be_bytes 8 (8 * len))%list.

Fixpoint be_words (n : nat) (bs : list Z) : list Z :=
  match n, bs with
  | S n', a :: b :: c :: d :: rest =>
      (Z.shiftl a 24 + Z.shiftl b 16 + Z.shiftl c 8 + d) :: be_words n' rest
  | _, _ => []
  end.

(** The message schedule, latest word first. *)
Fixpoint schedule (n : nat) (rev_ws : list Z) : list Z :=
  match n with
  | O => rev_ws
  | S n' =>
      let w := w32 (small_sigma1 (nth 1 rev_ws 0) + nth 6 rev_ws 0
                    + small_sigma0 (nth 14 rev_ws 0) + nth 15 rev_ws 0) in
      schedule n' (w :: rev_ws)
  end.

Definition sha_round (st : list Z) (kw : Z * Z) : list Z :=
  match st with
  | [a; b; c; d; e; f; g; h] =>
      let t1 := h + big_sigma1 e + choose e f g + fst kw + snd kw in
      let t2 := big_sigma0 a + majority a b c in
      [w32 (t1 + t2); a; b; c; w32 (d + t1); e; f; g]
  | _ => st
  end.

Definition compress (h : list Z) (block : list Z) : list Z :=
  let ws := rev (schedule 48 (rev (be_words 16 block))) in
  let st := fold_left sha_round (combine round_constants ws) h in
  map (fun p => w32 (fst p + snd p)) (combine h st).

Fixpoint blocks (n : nat) (h : list Z) (bs : list Z) : list Z :=
  match n with
  | O => h
  | S n' => blocks n' (compress h (firstn 64 bs)) (skipn 64 bs)
  end.

Definition hex_digit (z : Z) : ascii :=
  ascii_of_nat (Z.to_nat (if z <? 10 then 48 + z else 87 + z)).

Fixpoint hex (n : nat) (z : Z) : string :=
  match n with
  | O => EmptyString
  | S n' => String (hex_digit (Z.land (Z.shiftr z (4 * Z.of_nat n')) 0xf)) (hex n' z)
  end.

Definition sha256_hex (s : string) : string :=
  let bs := padded (bytes_of s) in
  String.concat EmptyString (map (hex 8) (blocks (List.length bs / 64) initial_hash bs)).

End Sha256.

(** A buy stored without its order id; the response kept with it names
    the order under [result]. *)
Definition unlabelled_buy : list (string * json) :=
  [("side", JStr "buy"); ("price", JFloat 1); ("quantity", JFloat 100);
   ("pair", JStr "TRX/USDT"); ("order_id", JNull); ("status", JStr "NEW");
   ("created_raw_response", JDict [("result", JDict [("orderId", JStr "B7")])]);
   ("linked_sell_order", JNull); ("created_at", JInt 1700000000)].

(** The store file [orders.json] holding a single record. *)
Definition store_with (e : json) : string -> file :=
  fun f => if String.eqb f "orders.json" then Holds (lone e []) else Missing.

(** A status response that reports a fill at a price that is no number. *)
Definition priceless_reply : json :=
  JDict [("status", JStr "FILLED"); ("avgPrice", JStr "n/a")].


(** * Vocabulary of the properties *)

Section Vocabulary.

Context {X : Exchange}.

(** The state with one more console line. *)
Definition say (l : line) (s : St) : St :=
  {| net := net s; sent := sent s; out := (out s ++ [l])%list; files := files s |}.

(** A key of the balance result that yields no number: absent, or present
    with a value that [float] rejects. *)
Definition unreadable (r : list (string * json)) (k : string) : Prop :=
  match lookup k r with
  | None => True
  | Some v => is_ok (float_of v) = false
  end.

(** A balance response from which no amount can be read: not an object,
    or with an absent, null or empty [result], or with a [result] object
    whose [available], [free] and [total] are all unreadable. *)
Definition no_balance_figure (bal : json) : Prop :=
  match bal with
  | JDict d =>
      match field d "result" with
      | JDict r => unreadable r "available" /\ unreadable r "free"
                   /\ unreadable r "total"
      | v => truthy v = false
      end
  | _ => True
  end.

(** A tier: the limit price at discount [d] and the quantity that
    [funds] buy at that price. *)
Definition tier (P funds d : Q) : Q * Q := (P * d, funds / (P * d)).

(** A tier is kept when its quantity reaches [minQty] and its funds reach
    [minNotional]. *)
Definition kept (lim : limits) (funds : Q) (c : Q * Q) : bool :=
  andb (Qle_bool (minQty lim) (snd c)) (Qle_bool (minNotional lim) funds).

(** The record carries, under [k], a value that converts to the number
    [p] above zero. *)
Definition priced (d : list (string * json)) (k : string) (p : Q) : Prop :=
  exists v, lookup k d = Some v /\ float_of v = Ok p /\ 0 < p.

(** The order-book response [data] lists [bids] under [result]. *)
Definition has_bids (data bids : json) : Prop :=
  exists d r, data = JDict d /\ lookup "result" d = Some (JDict r)
              /\ field r "bids" = bids.

(** A top bid that is neither a non-empty list nor an object with a
    [price]. *)
Definition odd_shape (top : json) : Prop :=
  match top with
  | JList (_ :: _) => False
  | JDict t => lookup "price" t = None
  | _ => True
  end.

(** The state after [save_saved f data]. *)
Definition write (f : string) (data : json) (s : St) : St :=
  {| net := net s; sent := sent s; out := out s;
     files := fun f' => if String.eqb f' f then Holds data else files s f' |}.

(** A buy record whose status is [FILLED] or [CLOSED]. *)
Definition settled (e : json) : Prop :=
  exists d, e = JDict d /\ lookup "side" d = Some (JStr "buy")
            /\ (field d "status" = JStr "FILLED" \/ field d "status" = JStr "CLOSED").

(** A buy record that the status pass looks up: not settled, with an
    order id. *)
Definition pollable (d : list (string * json)) : Prop :=
  lookup "side" d = Some (JStr "buy")
  /\ is_str "FILLED" (field d "status") = false
  /\ is_str "CLOSED" (field d "status") = false
  /\ truthy (field d "order_id") = true.

(** The record after lines 408-420 stored [status] and the raw response. *)
Definition with_status (d : list (string * json)) (status : string) (st : json)
  : list (string * json) :=
  assign "status_raw_response" st (assign "status" (JStr status) d).

(** A sell record. *)
Definition is_sell (e : json) : Prop :=
  exists d, e = JDict d /\ lookup "side" d = Some (JStr "sell").

(** One check of a record during a status pass: the parameters of the
    run, the store around the record, and the state the run is in. *)
Record visit : Type := {
  v_key : option string;
  v_pair : string;
  v_file : string;
  v_srec : json;
  v_whole : json -> list json -> json;
  v_state : St
}.

Definition check_in (v : visit) (entry : json) : res (json * list json) * St :=
  check_entry (v_key v) (v_pair v) (v_file v) (v_srec v) (v_whole v) entry
    (v_state v).

(** The sell records made for one buy record over successive runs: each
    run checks the record once, as the previous runs left it; a run that
    ends in an exception at this record leaves it as it was. *)
Fixpoint sells_over_runs (entry : json) (visits : list visit) : list json :=
  match visits with
  | [] => []
  | v :: rest =>
      match check_in v entry with
      | (Ok (entry', sells), _) => (sells ++ sells_over_runs entry' rest)%list
      | (Raise _, _) => sells_over_runs entry rest
      end
  end.

(** A buy record as it is stored right after placement. *)
Definition new_buy (e : json) : Prop :=
  exists d, e = JDict d /\ lookup "side" d = Some (JStr "buy")
            /\ lookup "status" d = Some (JStr "NEW")
            /\ lookup "linked_sell_order" d = Some JNull.

(** The store [d] with [l] as its list of orders. *)
Definition put_orders (d : list (string * json)) (l : list json) : json :=
  JDict (assign "orders" (JList l) d).


(** The request that [try_request] sends for a header variant. *)
Definition request_with (m : method) (path : string) (body : option order_body)
    (h : auth) : request :=
  {| rq_method := m; rq_path := path; rq_auth := h; rq_body := body |}.

(** A buy record that is still open on the books: status absent, [NEW] or
    [OPEN], with an order id. *)
Definition open_buy (d : list (string * json)) : Prop :=
  lookup "side" d = Some (JStr "buy")
  /\ (field d "status" = JNull \/ field d "status" = JStr "NEW"
      \/ field d "status" = JStr "OPEN")
  /\ truthy (field d "order_id") = true.

(** The two paths on which an order is cancelled. *)
Definition cancel_paths (order_id : string) : list string :=
  ["/api/orders/" ++ order_id; "/api/user/orders/" ++ order_id].

(** A catalog entry for [pair]: an object whose [symbol] is [pair]. *)
Definition lists_pair (pair : string) (e : json) : Prop :=
  exists d, e = JDict d /\ lookup "symbol" d = Some (JStr pair).

(** The value under [k] is absent or is not truthy. *)
Definition no_id (d : list (string * json)) (k : string) : Prop :=
  truthy (field d k) = false.

(** The statuses that the status pass can store. *)
Definition stored_statuses : list string :=
  ["FILLED"; "NEW"; "OPEN"; "PARTIALLY_FILLED"; "PARTIALLYFILLED"].

(** The fields of a record that the status pass may write. *)
Definition pass_fields : list string :=
  ["status"; "status_raw_response"; "linked_sell_order"].

(** A record whose order id is the one [extract_order_id] finds in its
    own [created_raw_response], as the records written by [run_lab] are. *)
Definition own_id (o : json) : Prop :=
  exists d, o = JDict d
            /\ field d "order_id" = extract_order_id (field d "created_raw_response").

(** [str] of a truthy value is not empty. *)
Definition str_nonempty : Prop :=
  forall v, truthy v = true -> truthy (JStr (py_str v)) = true.

(** What the repair script may do to a record: nothing, or fill an order
    id that was missing. *)
Definition repaired (o o' : json) : Prop :=
  exists d d', o = JDict d /\ o' = JDict d'
    /\ (forall k, k <> "order_id" -> lookup k d' = lookup k d)
    /\ (truthy (field d "order_id") = true -> d' = d)
    /\ (d' = d \/ exists id, lookup "order_id" d' = Some (JStr id)).


(** A nonce whose digest starts with the prefix. *)
Definition hit (sha256_hex : string -> string) (hash_object prefix : string)
    (number : nat) : Prop :=
  String.prefix prefix (sha256_hex (pow_input hash_object number)) = true.

(** A line that reads as a number outside 1..5. *)
Definition out_of_range (int_of_text : string -> option Z) (l : string) : Prop :=
  exists z, int_of_text l = Some z /\ ~ (1 <= z <= 5)%Z.


End Vocabulary.

(** * Properties *)

Section Properties.

Context {X : Exchange}.

Lemma bind_ok {A B} (m : M A) (k : A -> M B) s a s' :
  m s = (Ok a, s') -> bind m k s = k a s'.
Proof. intros H. unfold bind. rewrite H. reflexivity. Qed.

Lemma bind_raise {A B} (m : M A) (k : A -> M B) s e s' :
  m s = (Raise e, s') -> bind m k s = (Raise e, s').
Proof. intros H. unfold bind. rewrite H. reflexivity. Qed.

Lemma print_say l s : print l s = (Ok tt, say l s).
Proof. reflexivity. Qed.

Lemma lift_ok {A} (r : res A) a (s : St) : r = Ok a -> lift r s = (Ok a, s).
Proof. intros ->. reflexivity. Qed.

Lemma lift_raise {A} (r : res A) e (s : St) :
  r = Raise e -> lift r s = (Raise e, s).
Proof. intros ->. reflexivity. Qed.

Lemma try_denied_ok {A} (m : M A) h s a s' :
  m s = (Ok a, s') -> try_reraising_denied m h s = (Ok a, s').
Proof. intros H. unfold try_reraising_denied. rewrite H. reflexivity. Qed.

Lemma try_denied_denied {A} (m : M A) h s s' :
  m s = (Raise PermissionError, s') ->
  try_reraising_denied m h s = (Raise PermissionError, s').
Proof. intros H. unfold try_reraising_denied. rewrite H. reflexivity. Qed.

Lemma try_denied_other {A} (m : M A) h s e s' :
  m s = (Raise e, s') -> e <> PermissionError ->
  try_reraising_denied m h s = h e s'.
Proof.
  intros H Hne. unfold try_reraising_denied. rewrite H.
  destruct e; congruence.
Qed.

(** ** Store file *)


(** ** Balance *)

Lemma try_request_total m path api_key body (s : St) :
  exists r s', try_request m path api_key body s = (Ok r, s').
Proof.
  unfold try_request.
  destruct (try_variants m path body (headers_variants api_key) s) as [r s'].
  eauto.
Qed.

Lemma first_float_unreadable r keys :
  Forall (unreadable r) keys -> first_float (JDict r) keys = Ok None.
Proof.
  induction 1 as [| k ks Hk _ IH]; [reflexivity |].
  simpl. unfold unreadable in Hk.
  destruct (lookup k r) as [v |]; simpl; [| exact IH].
  destruct (float_of v); [discriminate | exact IH].
Qed.

Lemma first_float_empty keys : first_float (JDict []) keys = Ok None.
Proof. induction keys as [| k ks IH]; [reflexivity | exact IH]. Qed.

Lemma no_figure_none d keys :
  keys = ["available"; "free"; "total"] ->
  no_balance_figure (JDict d) ->
  first_float (py_or (field d "result") (JDict [])) keys = Ok None.
Proof.
  intros Hk H. unfold no_balance_figure in H.
  destruct (field d "result") as [| b | z | q | str | l | r]; unfold py_or;
    try (rewrite H; apply first_float_empty).
  destruct r as [| p r']; [apply first_float_empty |].
  change (truthy (JDict (p :: r'))) with true. cbv iota.
  destruct H as (Ha & Hf & Ht). subst keys.
  apply first_float_unreadable. repeat constructor; assumption.
Qed.

Lemma extract_fallback bal fallback (s : St) :
  no_balance_figure bal ->
  extract_available_usdt bal fallback s
  = (Ok fallback, say WARN_balance_fallback s).
Proof.
  intros H. unfold extract_available_usdt, bind, lift.
  destruct bal as [| | | | | | d]; try reflexivity.
  change (is_dict (JDict d)) with true. cbv iota.
  change (rbind (get (JDict d) "result")
            (fun r => first_float (py_or r (JDict [])) ["available"; "free"; "total"]))
    with (first_float (py_or (field d "result") (JDict []))
            ["available"; "free"; "total"]).
  rewrite (no_figure_none d _ eq_refl H). reflexivity.
Qed.

(** C1, as amended. A balance fetch that fails aborts the run with the
    error of the fetch: a transport failure or a non-success status raises
    [RuntimeError] (401 and 403 raise [PermissionError]) and nothing of the
    run follows it. The caller's ceiling is used as the available amount,
    with a warning, when the fetch succeeds and the response carries no
    readable amount. *)
Theorem balance_failure_aborts_run api_key pair usdt_amount out_file (s : St) :
  let s0 := say (INFO "balance") s in
  (forall e s', get_balance api_key "USDT" s0 = (Raise e, s') ->
     run_lab api_key pair usdt_amount out_file s = (Raise e, s'))
  /\ (forall s', try_request GET "/api/user/balances/USDT" api_key None s0
                 = (Ok None, s') ->
      get_balance api_key "USDT" s0 = (Raise RuntimeError, s'))
  /\ (forall resp s', try_request GET "/api/user/balances/USDT" api_key None s0
                      = (Ok (Some resp), s') ->
      resp_ok resp = false ->
      get_balance api_key "USDT" s0
      = (Raise (if denied resp then PermissionError else RuntimeError), s'))
  /\ (forall bal s', get_balance api_key "USDT" s0 = (Ok bal, s') ->
      no_balance_figure bal ->
      run_lab api_key pair usdt_amount out_file s
      = run_with_funds api_key pair usdt_amount out_file usdt_amount
          (say WARN_balance_fallback (say (INFO "balance raw") s'))).
Proof.
  intros s0. repeat split.
  - intros e s' H. unfold run_lab.
    rewrite (bind_ok _ _ _ _ _ (print_say _ s)).
    exact (bind_raise _ _ _ _ _ H).
  - intros s' H. unfold get_balance.
    change ("/api/user/balances/" ++ "USDT") with "/api/user/balances/USDT".
    rewrite (bind_ok _ _ _ _ _ H). reflexivity.
  - intros resp s' H Hok. unfold get_balance.
    change ("/api/user/balances/" ++ "USDT") with "/api/user/balances/USDT".
    rewrite (bind_ok _ _ _ _ _ H).
    destruct (denied resp); [reflexivity |]. rewrite Hok. reflexivity.
  - intros bal s' H Hno. unfold run_lab.
    rewrite (bind_ok _ _ _ _ _ (print_say _ s)).
    rewrite (bind_ok _ _ _ _ _ H).
    rewrite (bind_ok _ _ _ _ _ (print_say _ s')).
    rewrite (bind_ok _ _ _ _ _ (extract_fallback _ _ _ Hno)).
    reflexivity.
Qed.

(** ** Sizing *)

Lemma Qltb_lt x y : Qltb x y = true <-> x < y.
Proof.
  unfold Qltb. rewrite negb_true_iff, <- not_true_iff_false, Qle_bool_iff.
  split; [apply Qnot_le_lt | apply Qlt_not_le].
Qed.

Lemma Qltb_ge x y : Qltb x y = false <-> y <= x.
Proof. unfold Qltb. rewrite negb_false_iff. apply Qle_bool_iff. Qed.

Lemma Qeq_bool_false x y : ~ x == y -> Qeq_bool x y = false.
Proof.
  intros H. apply not_true_iff_false. rewrite Qeq_bool_iff. exact H.
Qed.


Lemma candidates_filter P funds lim deltas (s : St) :
  0 < P -> Forall (fun d => 0 < d) deltas ->
  fst (candidates P funds lim deltas s)
  = Ok (filter (kept lim funds) (map (tier P funds) deltas)).
Proof.
  intros HP Hd. revert s.
  induction Hd as [| d ds Hpos _ IH]; intros s; [reflexivity |].
  cbn [candidates map filter].
  assert (Hprice : 0 < P * d) by (apply Qmult_lt_0_compat; assumption).
  assert (Hz : Qeq_bool (P * d) 0 = false).
  { apply Qeq_bool_false. intros Hz. rewrite Hz in Hprice.
    exact (Qlt_irrefl 0 Hprice). }
  rewrite Hz.
  unfold kept at 1. cbn [tier snd]. unfold Qltb at 1 2.
  rewrite <- negb_andb.
  destruct (andb (Qle_bool (minQty lim) (funds / (P * d)))
                 (Qle_bool (minNotional lim) funds)); cbn [negb].
  - unfold bind at 1. specialize (IH s).
    destruct (candidates P funds lim ds s) as [[l | e] s']; cbn in IH |- *;
      [injection IH as -> | discriminate IH]; reflexivity.
  - unfold bind at 1. rewrite print_say. apply IH.
Qed.


(** ** Placement: normalisation of price and quantity *)

Lemma py_trunc_floor x : 0 <= x -> py_trunc x = Qfloor x.
Proof.
  destruct x as [n d]. unfold Qle, py_trunc, Qfloor. cbn. intros H.
  apply Z.quot_div_nonneg; lia.
Qed.

Lemma round_half_even_Z (z : Z) x : x == inject_Z z -> round_half_even x = z.
Proof.
  intros H. unfold round_half_even.
  assert (Hf : Qfloor x = z) by (rewrite H; apply Qfloor_Z).
  rewrite Hf.
  assert (Hr : Qltb (x - inject_Z z) (1 # 2) = true) by (apply Qltb_lt; lra).
  rewrite Hr. reflexivity.
Qed.

Lemma pow10_pos n : (0 < pow10 n)%Z.
Proof. unfold pow10. apply Z.pow_pos_nonneg; lia. Qed.

Lemma inject_pow10_pos n : 0 < inject_Z (pow10 n).
Proof.
  pose proof (pow10_pos n) as H. unfold Qlt. cbn. lia.
Qed.

(** [fmt_round n] leaves a multiple of [10^-n] as it is. *)
Lemma fmt_round_exact n (k : Z) x :
  x == inject_Z k / inject_Z (pow10 n) -> fmt_round n x == x.
Proof.
  intros H. unfold fmt_round. rewrite Qred_correct.
  pose proof (inject_pow10_pos n) as Hp.
  rewrite (round_half_even_Z k).
  - symmetry. exact H.
  - rewrite H. field. lra.
Qed.

Lemma fmt_round_zero n x : x == 0 -> fmt_round n x = 0.
Proof.
  intros H. unfold fmt_round.
  rewrite (round_half_even_Z 0) by (rewrite H; reflexivity).
  transitivity (Qred 0); [apply Qred_complete | reflexivity].
  pose proof (inject_pow10_pos n) as Hp. field. lra.
Qed.

(** A raw quantity below one lot floors to nothing. *)
Lemma floor_below_lot q L : 0 <= q -> q < L -> floor_to_lot q L = Ok 0.
Proof.
  intros Hq HL. unfold floor_to_lot.
  rewrite Qeq_bool_false by lra.
  assert (H0 : 0 <= q / L) by (apply Qle_shift_div_l; lra).
  assert (H1 : q / L < 1) by (apply Qlt_shift_div_r; lra).
  assert (Ht : py_trunc (q / L) = 0%Z).
  { rewrite py_trunc_floor by exact H0.
    pose proof (Qfloor_le (q / L)) as Hlo.
    pose proof (Qlt_floor (q / L)) as Hhi.
    assert (Hz : (0 <= Qfloor (q / L) < 1)%Z).
    { split.
      - rewrite <- (Qfloor_Z 0). apply Qfloor_resp_le. exact H0.
      - rewrite Zlt_Qlt. change (inject_Z 1) with 1. lra. }
    lia. }
  rewrite Ht. rewrite fmt_round_zero; [reflexivity | ring].
Qed.


(** C5. The quantity [0.123456789] with lot size [10^-9] is already a
    multiple of the lot size, yet [0.12345679] is sent, which is more than
    was requested: the eight-decimal rounding that follows the flooring
    rounds to nearest. The price is rounded to [pricePrecision] decimals. *)
Theorem quantity_exceeds_request_on_fine_lot :
  let q := 123456789 # 1000000000 in
  let L := 1 # 1000000000 in
  let srec := JDict [("lotSize", JFloat L); ("pricePrecision", JInt 2)] in
  inject_Z 123456789 * L == q
  /\ floor_to_lot q L = Ok (12345679 # 100000000)
  /\ q < 12345679 # 100000000
  /\ option_map b_quantity
       (match order_request "TRX/USDT" "buy" (1071 # 1000) q srec with
        | Ok body => Some body
        | Raise _ => None
        end) = Some (12345679 # 100000000)
  /\ forall price n, round_price price (Z.of_nat n) = Ok (fmt_round n price).
Proof.
  cbv zeta. repeat split.
  intros price n. unfold round_price.
  destruct (Z.ltb_spec (Z.of_nat n) 0) as [H | H]; [lia |].
  rewrite Nat2Z.id. reflexivity.
Qed.

(** ** What is sent *)

(** The requests made by one [try_request]: all for the given method,
    path and body, at least one of them, and nothing written to disk. *)
Lemma try_variants_sent m path body hs (s : St) :
  exists reqs,
    sent (snd (try_variants m path body hs s)) = (sent s ++ reqs)%list
    /\ Forall (fun rq => rq_method rq = m /\ rq_path rq = path
                         /\ rq_body rq = body) reqs
    /\ (hs <> [] -> reqs <> [])
    /\ files (snd (try_variants m path body hs s)) = files s.
Proof.
  revert s. induction hs as [| h hs IH]; intros s.
  - exists []. cbn. rewrite app_nil_r. repeat split; [constructor | congruence].
  - cbn [try_variants]. unfold send.
    destruct (http (net s) _) as [[resp |] w] eqn:E.
    + eexists [_]. cbn. repeat split; [| discriminate].
      constructor; [cbn; auto | constructor].
    + match goal with |- context [try_variants _ _ _ hs ?s1] =>
        destruct (IH s1) as (reqs & Hs & Hall & _ & Hf) end.
      eexists (_ :: reqs). rewrite Hs, Hf. cbn [sent files].
      rewrite <- app_assoc. repeat split; [| discriminate].
      constructor; [cbn; auto | exact Hall].
Qed.

Lemma headers_variants_nonempty api_key : headers_variants api_key <> [].
Proof.
  destruct api_key as [k |]; cbn; [destruct (String.eqb k EmptyString) |]; discriminate.
Qed.

(** C9. Quantities that pass the sizing filters can be floored, at
    placement, to less than [minQty]: with lot size 10 and [minQty] 5 the
    three tiers bought for 21 at reference price 1 all pass and are all
    sent with quantity 0. In general a non-negative raw quantity below the
    lot size is floored to exactly zero, and whatever the floored quantity
    is, the order request carrying it is sent. *)
Theorem floored_quantity_below_minimum :
  (let srec := JDict [("lotSize", JInt 10); ("minQty", JInt 5)] in
   let lim := {| lotSize := 10; minQty := 5; minNotional := 1 # 2 |} in
   get_symbol_limits srec = Ok lim
   /\ forall s : St, exists l,
        fst (size_orders 21 lim 1 s) = Ok l
        /\ List.length l = 3%nat
        /\ Forall (fun c => minQty lim <= snd c
                   /\ exists body,
                        order_request "TRX/USDT" "buy" (fst c) (snd c) srec = Ok body
                        /\ b_quantity body == 0
                        /\ b_quantity body < minQty lim) l)
  /\ (forall q L, 0 <= q -> q < L -> floor_to_lot q L = Ok 0)
  /\ (forall api_key symbol side price qty srec body (s : St),
        order_request symbol side price qty srec = Ok body ->
        exists rq rest,
          sent (snd (place_order api_key symbol side price qty srec s))
          = (sent s ++ rq :: rest)%list
          /\ rq_method rq = POST /\ rq_path rq = "/api/orders"
          /\ rq_body rq = Some body).
Proof.
  split; [| split].
  - cbv zeta. split; [reflexivity |]. intros s.
    eexists. split; [| split].
    + unfold size_orders, tiers.
      change (Qltb (21 / 3) (minNotional _)) with false. cbv iota.
      unfold bind at 1. unfold ret at 1. cbn [fst snd].
      apply candidates_filter; [reflexivity | repeat constructor].
    + reflexivity.
    + repeat constructor; try (cbv; discriminate);
        (eexists; split; [reflexivity | split; reflexivity]).
  - exact floor_below_lot.
  - intros api_key symbol side price qty srec body s Hb.
    unfold place_order. rewrite Hb. unfold lift at 1. unfold bind at 1.
    unfold try_request. unfold bind.
    destruct (try_variants_sent POST "/api/orders" (Some body)
                (headers_variants api_key) s) as (reqs & Hs & Hall & Hne & _).
    destruct (try_variants POST "/api/orders" (Some body)
                (headers_variants api_key) s) as [r s'].
    cbn [snd] in Hs.
    destruct reqs as [| rq rest]; [exfalso; apply Hne;
      [apply headers_variants_nonempty | reflexivity] |].
    exists rq, rest. inversion Hall as [| ? ? (Hm & Hp & Hbd) _]; subst.
    assert (Hsent : forall (x : res json * St), snd x = s' ->
              sent (snd x) = (sent s ++ rq :: rest)%list)
      by (intros x ->; exact Hs).
    repeat split; try assumption; try reflexivity.
    apply Hsent.
    destruct r as [resp |]; [| reflexivity].
    destruct (denied resp); [reflexivity |].
    destruct (negb (resp_ok resp)); reflexivity.
Qed.

(** ** Reference price *)

Lemma first_positive_none d keys :
  (forall k p, In k keys -> ~ priced d k p) ->
  first_positive (JDict d) keys = Ok None.
Proof.
  induction keys as [| k ks IH]; intros Hno; [reflexivity |].
  assert (IH' : first_positive (JDict d) ks = Ok None)
    by (apply IH; intros k' p Hin; apply Hno; now right).
  cbn [first_positive get get_default rbind].
  destruct (lookup k d) as [v |] eqn:Ev; [| exact IH'].
  destruct (is_none v); [exact IH' |].
  destruct (float_of v) as [price | e] eqn:Ef; [| exact IH'].
  destruct (Qltb 0 price) eqn:Ep; [| exact IH'].
  exfalso. apply (Hno k price); [now left |].
  exists v. repeat split; try assumption. now apply Qltb_lt.
Qed.

Lemma first_positive_hit d before k after p :
  priced d k p ->
  (forall k' p', In k' before -> ~ priced d k' p') ->
  first_positive (JDict d) (before ++ k :: after) = Ok (Some p).
Proof.
  intros (v & Ev & Ef & Hp) Hno.
  induction before as [| b bs IH].
  - cbn [app first_positive get get_default rbind]. rewrite Ev.
    destruct v; try discriminate Ef; cbn [is_none]; rewrite Ef;
      apply Qltb_lt in Hp; rewrite Hp; reflexivity.
  - assert (IH' : first_positive (JDict d) (bs ++ k :: after) = Ok (Some p))
      by (apply IH; intros k' p' Hin; apply Hno; now right).
    change ((b :: bs) ++ k :: after)%list with (b :: (bs ++ k :: after))%list.
    cbn [first_positive get get_default rbind].
    destruct (lookup b d) as [w |] eqn:Ew; [| exact IH'].
    destruct (is_none w); [exact IH' |].
    destruct (float_of w) as [price | e] eqn:Ewf; [| exact IH'].
    destruct (Qltb 0 price) eqn:Ep; [| exact IH'].
    exfalso. apply (Hno b price); [now left |].
    exists w. repeat split; try assumption. now apply Qltb_lt.
Qed.

Lemma best_bid_from_book pair resp data bids (s1 s2 : St) :
  try_request GET ("/api/cmc/v1/orderbook/" ++ pair) None None s1
  = (Ok (Some resp), s2) ->
  resp_ok resp = true -> body_json resp = Some data -> has_bids data bids ->
  get_public_best_bid pair s1
  = (if truthy bids then rbind (first_item bids) bid_price else Raise RuntimeError,
     s2).
Proof.
  intros Hreq Hok Hbody (d & r & -> & Hres & Hb).
  unfold get_public_best_bid. rewrite (bind_ok _ _ _ _ _ Hreq).
  rewrite Hok. cbn [negb]. unfold resp_json. rewrite Hbody.
  unfold bind, lift. cbn [get_default]. rewrite Hres.
  cbn [get get_default]. fold (field r "bids"). rewrite Hb.
  assert (Hor : truthy (py_or bids (JList [])) = truthy bids)
    by (unfold py_or; destruct (truthy bids) eqn:E; [exact E | reflexivity]).
  rewrite Hor. destruct (truthy bids) eqn:E; cbn [negb]; [| reflexivity].
  unfold py_or. rewrite E. unfold raise, rbind.
  destruct (first_item bids); reflexivity.
Qed.

(** C7. The reference price is looked for under [bid], [bestBid], [last],
    [price], in this order, and is the first value that converts to a
    number above zero. When no key has one, the price comes from the
    public order book: the first element of a list-shaped top bid, or the
    [price] of an object-shaped one, converted to a number; an order book
    without bids, or a top bid of another shape, is an error. *)
Theorem reference_price_resolution api_key pair symbols d (s s1 : St) :
  get_symbols api_key s = (Ok symbols, s1) ->
  find_symbol_record symbols pair = Ok (JDict d) ->
  price_keys = ["bid"; "bestBid"; "last"; "price"]
  /\ (forall before k after p,
        price_keys = (before ++ k :: after)%list ->
        priced d k p ->
        (forall k' p', In k' before -> ~ priced d k' p') ->
        find_best_bid_price api_key pair s = (Ok p, s1))
  /\ ((forall k p, In k price_keys -> ~ priced d k p) ->
      find_best_bid_price api_key pair s = get_public_best_bid pair s1)
  /\ (forall resp data bids s2,
        try_request GET ("/api/cmc/v1/orderbook/" ++ pair) None None s1
        = (Ok (Some resp), s2) ->
        resp_ok resp = true -> body_json resp = Some data -> has_bids data bids ->
        (forall x xs rest, bids = JList (JList (x :: xs) :: rest) ->
           get_public_best_bid pair s1 = (float_of x, s2))
        /\ (forall t x rest, bids = JList (JDict t :: rest) ->
            lookup "price" t = Some x ->
            get_public_best_bid pair s1 = (float_of x, s2))
        /\ (truthy bids = false ->
            get_public_best_bid pair s1 = (Raise RuntimeError, s2))
        /\ (forall top rest, bids = JList (top :: rest) -> odd_shape top ->
            get_public_best_bid pair s1 = (Raise RuntimeError, s2))).
Proof.
  intros Hsym Hrec. split; [reflexivity |].
  assert (Hstart : forall found,
            first_positive (JDict d) price_keys = Ok found ->
            find_best_bid_price api_key pair s
            = match found with
              | Some price => (Ok price, s1)
              | None => get_public_best_bid pair s1
              end).
  { intros found Hf. unfold find_best_bid_price.
    rewrite (bind_ok _ _ _ _ _ Hsym). rewrite Hrec.
    unfold lift at 1. unfold bind at 1. rewrite Hf.
    unfold lift at 1. unfold bind at 1. destruct found; reflexivity. }
  split; [| split].
  - intros before k after p Hkeys Hp Hno.
    apply (Hstart (Some p)). rewrite Hkeys.
    now apply first_positive_hit.
  - intros Hno. apply (Hstart None). now apply first_positive_none.
  - intros resp data bids s2 Hreq Hok Hbody Hbids.
    rewrite (best_bid_from_book _ _ _ _ _ _ Hreq Hok Hbody Hbids).
    repeat split.
    + intros x xs rest ->. reflexivity.
    + intros t x rest -> Hx. cbn. rewrite Hx. reflexivity.
    + intros ->. reflexivity.
    + intros top rest -> Hodd. cbn.
      destruct top as [| | | | | [| ? ?] | t]; cbn in Hodd |- *;
        try reflexivity; [contradiction | rewrite Hodd; reflexivity].
Qed.

(** ** The status pass, one record *)

Lemma lookup_assign_same k v d : lookup k (assign k v d) = Some v.
Proof.
  induction d as [| [k' v'] d IH]; cbn.
  - now rewrite String.eqb_refl.
  - destruct (String.eqb k k') eqn:E; cbn; rewrite ?String.eqb_refl, ?E; auto.
Qed.

Lemma lookup_assign_other k k' v d :
  k <> k' -> lookup k (assign k' v d) = lookup k d.
Proof.
  intros Hne. induction d as [| [k'' v''] d IH]; cbn.
  - apply String.eqb_neq in Hne. now rewrite Hne.
  - destruct (String.eqb k' k'') eqn:E; cbn.
    + apply String.eqb_eq in E. subst k''.
      apply String.eqb_neq in Hne. now rewrite Hne.
    + now rewrite IH.
Qed.

Lemma is_str_true k v : is_str k v = true -> v = JStr k.
Proof.
  destruct v; try discriminate. cbn [is_str]. intros H.
  apply String.eqb_eq in H. now subst.
Qed.

Lemma save_write f data (s : St) : save_saved f data s = (Ok tt, write f data s).
Proof. reflexivity. Qed.

Lemma with_status_status d status st :
  lookup "status" (with_status d status st) = Some (JStr status).
Proof.
  unfold with_status. rewrite lookup_assign_other by discriminate.
  apply lookup_assign_same.
Qed.

Lemma with_status_other d status st k :
  k <> "status" -> k <> "status_raw_response" ->
  lookup k (with_status d status st) = lookup k d.
Proof.
  intros H1 H2. unfold with_status.
  now rewrite !lookup_assign_other by assumption.
Qed.

Lemma float_of_not_denied v : float_of v <> Raise PermissionError.
Proof.
  destruct v; cbn; try discriminate.
  destruct (float_of_str s); discriminate.
Qed.

Lemma getitem_not_denied e k : getitem e k <> Raise PermissionError.
Proof.
  destruct e; cbn; try discriminate.
  destruct (lookup k d); discriminate.
Qed.

Lemma getitem_float_not_denied e k :
  rbind (getitem e k) float_of <> Raise PermissionError.
Proof.
  destruct e; cbn; try discriminate.
  destruct (lookup k d); cbn; [apply float_of_not_denied | discriminate].
Qed.

Lemma try_request_files m path key body (s : St) :
  files (snd (try_request m path key body s)) = files s.
Proof.
  unfold try_request.
  destruct (try_variants_sent m path body (headers_variants key) s)
    as (_ & _ & _ & _ & Hf).
  destruct (try_variants m path body (headers_variants key) s). exact Hf.
Qed.

Lemma status_lookup_files api_key paths :
  forall s : St, files (snd (status_lookup api_key paths s)) = files s.
Proof.
  induction paths as [| p ps IH]; intros s; [reflexivity |].
  cbn [status_lookup]. unfold bind.
  pose proof (try_request_files GET p api_key None s) as Hf.
  destruct (try_request_total GET p api_key None s) as (r & s1 & E).
  rewrite E in Hf |- *. cbn [snd] in Hf.
  destruct r as [resp |]; [| now rewrite IH].
  destruct (denied resp); [exact Hf |].
  destruct (resp_ok resp); [exact Hf | now rewrite IH].
Qed.

Section OneRecord.

Variable api_key : option string.
Variable pair out_file : string.
Variable srec : json.
Variable whole : json -> list json -> json.

Local Abbreviation check := (check_entry api_key pair out_file srec whole).
Local Abbreviation sell_for := (make_sell api_key pair out_file srec whole).

(** A record that is not a buy, or is settled, or has no order id, is
    left alone, and nothing is sent or written for it. *)
Lemma check_skips d (s : St) :
  (exists side, lookup "side" d = Some side /\ is_str "buy" side = false)
  \/ settled (JDict d) ->
  check (JDict d) s = (Ok (JDict d, []), s).
Proof.
  intros [(side & Hs & Hb) | (d' & Hd & Hs & Hst)]; unfold check_entry.
  - cbn [getitem]. rewrite Hs. unfold lift at 1. unfold bind at 1.
    rewrite Hb. reflexivity.
  - injection Hd as <-. cbn [getitem get get_default]. rewrite Hs.
    unfold lift at 1. unfold bind at 1.
    change (is_str "buy" (JStr "buy")) with true. cbv iota. cbn [negb].
    unfold lift at 1. unfold bind at 1. fold (field d "status").
    destruct Hst as [-> | ->]; reflexivity.
Qed.

Lemma update_status_ok w d st status avg_price filled_amount norm (s s1 : St) :
  get_order_status api_key (py_str (field d "order_id")) s = (Ok st, s1) ->
  read_status st = (status, avg_price, filled_amount) ->
  normalize status = Ok norm ->
  let new := local_status norm filled_amount (JDict d) in
  let e1 := JDict (with_status d new st) in
  update_status api_key out_file w (JDict d) (field d "order_id") s
  = (Ok (e1, avg_price),
     say (INFO_status (field d "order_id") (JStr new)) (write out_file (w e1) s1)).
Proof.
  intros Hget Hread Hnorm new e1. unfold update_status.
  rewrite (bind_ok _ _ _ _ _ Hget). rewrite Hread.
  rewrite (bind_ok _ _ _ _ _ (lift_ok _ _ _ Hnorm)).
  rewrite (bind_ok _ _ _ _ _ (save_write _ _ _)).
  rewrite (bind_ok _ _ _ _ _ (print_say _ _)).
  fold new. change (set_field (set_field (JDict d) "status" (JStr new))
                      "status_raw_response" st) with e1.
  unfold e1 at 2. cbn [get get_default or_else]. rewrite with_status_status.
  reflexivity.
Qed.

(** Once the order has been looked up and the reported status is a
    string, the record is updated and stored, and the sell step follows. *)
Lemma check_updates d st status avg_price filled_amount norm (s s1 : St) :
  pollable d ->
  get_order_status api_key (py_str (field d "order_id")) s = (Ok st, s1) ->
  read_status st = (status, avg_price, filled_amount) ->
  normalize status = Ok norm ->
  let new := local_status norm filled_amount (JDict d) in
  let e1 := JDict (with_status d new st) in
  check (JDict d) s
  = try_reraising_denied (sell_for e1 avg_price)
      (fun e => bind (print (ERROR_status e)) (fun _ => ret (e1, [])))
      (say (INFO_status (field d "order_id") (JStr new))
         (write out_file (whole e1 []) s1)).
Proof.
  intros (Hside & Hf & Hc & Hoid) Hget Hread Hnorm new e1.
  unfold check_entry. cbn [getitem get get_default]. rewrite Hside.
  unfold lift at 1. unfold bind at 1.
  change (is_str "buy" (JStr "buy")) with true. cbv iota. cbn [negb].
  unfold lift at 1. unfold bind at 1. fold (field d "status").
  rewrite Hf, Hc. cbn [orb].
  unfold lift at 1. unfold bind at 1. fold (field d "order_id").
  rewrite Hoid. cbn [negb].
  pose proof (update_status_ok (fun e => whole e []) d st status avg_price
                filled_amount norm s s1 Hget Hread Hnorm) as Hu.
  cbv zeta in Hu. fold new in Hu. fold e1 in Hu.
  erewrite bind_ok;
    [| apply try_denied_ok; erewrite bind_ok; [| exact Hu]; reflexivity].
  reflexivity.
Qed.


(** The sell step for a filled, unlinked record whose fill price and
    quantity are known. *)
Lemma sell_placed d avg_price a q (s : St) :
  lookup "status" d = Some (JStr "FILLED") ->
  truthy (field d "linked_sell_order") = false ->
  (if truthy avg_price then float_of avg_price
   else rbind (getitem (JDict d) "price") float_of) = Ok a ->
  rbind (getitem (JDict d) "quantity") float_of = Ok q ->
  sell_for (JDict d) avg_price s
  = match place_order api_key pair "sell" (a * (102 # 100)) q srec s with
    | (Ok sell_resp, s2) =>
        let sell_id := extract_order_id sell_resp in
        let sell := sell_entry (a * (102 # 100)) q pair sell_id sell_resp
                      (field d "order_id") (now (net s2)) in
        let e2 := JDict (assign "linked_sell_order" sell_id d) in
        (Ok (e2, [sell]), say (OK_sell sell_id) (write out_file (whole e2 [sell]) s2))
    | (Raise err, s2) => (Ok (JDict d, []), say (ERROR_sell err) s2)
    end.
Proof.
  intros Hst Hl Ha Hq. unfold make_sell.
  assert (Hgs : getitem (JDict d) "status" = Ok (JStr "FILLED"))
    by (cbn; now rewrite Hst).
  rewrite (bind_ok _ _ _ _ _ (lift_ok _ _ _ Hgs)).
  assert (Hgl : get (JDict d) "linked_sell_order" = Ok (field d "linked_sell_order"))
    by reflexivity.
  rewrite (bind_ok _ _ _ _ _ (lift_ok _ _ _ Hgl)).
  rewrite Hl. change (is_str "FILLED" (JStr "FILLED")) with true. cbn [andb negb].
  rewrite (bind_ok _ _ _ _ _ (lift_ok _ _ _ Ha)).
  rewrite (bind_ok _ _ _ _ _ (lift_ok _ _ _ Hq)).
  unfold try_except, bind at 1.
  destruct (place_order api_key pair "sell" (a * (102 # 100)) q srec s)
    as [[sell_resp | err] s2]; [| reflexivity].
  reflexivity.
Qed.




Ltac break_match :=
  match goal with
  | |- context [match ?x with _ => _ end] =>
      lazymatch x with
      | context [match _ with _ => _ end] => fail
      | _ => destruct x eqn:?
      end
  end.

Lemma update_status_inv w d oid e1 avg_price (s s1 : St) :
  update_status api_key out_file w (JDict d) oid s = (Ok (e1, avg_price), s1) ->
  exists new st, e1 = JDict (with_status d new st).
Proof.
  unfold update_status, bind, lift, ret, print, save_saved.
  destruct (get_order_status api_key (py_str oid) s) as [[st | e] s0];
    [| discriminate].
  destruct (read_status st) as [[status avg] filled].
  destruct (normalize status) as [norm | e]; [| discriminate].
  intros H. injection H as <- _ _. do 2 eexists. reflexivity.
Qed.

Lemma sell_inv d avg_price e2 sells (s s2 : St) :
  sell_for (JDict d) avg_price s = (Ok (e2, sells), s2) ->
  (e2 = JDict d /\ sells = [])
  \/ (lookup "status" d = Some (JStr "FILLED")
      /\ exists sell_id sell,
           e2 = JDict (assign "linked_sell_order" sell_id d)
           /\ sells = [sell] /\ is_sell sell).
Proof.
  unfold make_sell, try_except, bind, lift, ret, print, save_saved, clock.
  cbn [getitem get get_default].
  destruct (lookup "status" d) as [status |] eqn:Est; [| discriminate].
  destruct (andb (is_str "FILLED" status)
              (negb (truthy (match lookup "linked_sell_order" d with
                             | Some x => x | None => JNull end)))) eqn:Ec.
  - apply andb_prop in Ec. destruct Ec as [Ef _].
    apply is_str_true in Ef. subst status.
    repeat break_match; try discriminate;
      intros H; injection H as <- <- _;
      first [ left; split; reflexivity
            | right; split; [reflexivity |];
              do 2 eexists; repeat split; eexists; split; reflexivity ].
  - intros H. injection H as <- <- _. left. split; reflexivity.
Qed.

(** What one check can do to a record: either no sell is made and the
    record keeps its side and its link, or exactly one sell record is made
    and the record is left settled. *)
Lemma check_outcome entry entry' sells (s s' : St) :
  check entry s = (Ok (entry', sells), s') ->
  (sells = []
   /\ forall d, entry = JDict d ->
        exists d', entry' = JDict d'
                   /\ lookup "side" d' = lookup "side" d
                   /\ field d' "linked_sell_order" = field d "linked_sell_order")
  \/ (exists sell, sells = [sell] /\ is_sell sell /\ settled entry').
Proof.
  destruct entry as [| | | | | | d]; try discriminate.
  assert (Hsame : forall new st k, k <> "status" -> k <> "status_raw_response" ->
            lookup k (with_status d new st) = lookup k d)
    by (intros; now apply with_status_other).
  assert (Hkeep : forall d', (lookup "side" d' = lookup "side" d
             /\ field d' "linked_sell_order" = field d "linked_sell_order") ->
            forall d0, JDict d = JDict d0 ->
              exists d'', JDict d' = JDict d''
                /\ lookup "side" d'' = lookup "side" d0
                /\ field d'' "linked_sell_order" = field d0 "linked_sell_order").
  { intros d' [H1 H2] d0 Hd. injection Hd as <-. eauto. }
  unfold check_entry, bind, lift, ret, print, try_reraising_denied.
  cbn [getitem get get_default].
  destruct (lookup "side" d) as [side |] eqn:Eside; [| discriminate].
  destruct (is_str "buy" side) eqn:Ebuy; cbn [negb];
    [| intros H; injection H as <- <- _; left; split; [reflexivity |];
       apply Hkeep; split; [exact Eside | reflexivity] ].
  apply is_str_true in Ebuy. subst side.
  destruct (orb _ _);
    [intros H; injection H as <- <- _; left; split; [reflexivity |];
       apply Hkeep; split; [exact Eside | reflexivity] |].
  destruct (truthy _); cbn [negb];
    [| intros H; injection H as <- <- _; left; split; [reflexivity |];
       apply Hkeep; split; [exact Eside | reflexivity] ].
  destruct (update_status _ _ _ _ _ s) as [[[e1 avg] | err] s1] eqn:Eu.
  - apply update_status_inv in Eu. destruct Eu as (new & st & ->).
    destruct (sell_for (JDict (with_status d new st)) avg s1)
      as [[[e2 sells2] | err] s2] eqn:Es.
    + intros H. injection H as <- <- _.
      apply sell_inv in Es.
      destruct Es as [[-> ->] | (Hfilled & sell_id & sell & -> & -> & Hsell)].
      * left. split; [reflexivity |]. apply Hkeep.
        unfold field. rewrite !Hsame by discriminate.
        split; [exact Eside | reflexivity].
      * right. exists sell. repeat split; try assumption.
        eexists. split; [reflexivity |].
        rewrite lookup_assign_other by discriminate.
        rewrite Hsame by discriminate. split; [exact Eside |].
        left. unfold field. rewrite lookup_assign_other by discriminate.
        now rewrite Hfilled.
    + destruct err; try discriminate;
        intros H; injection H as <- <- _; left; (split; [reflexivity |]);
        apply Hkeep; unfold field; rewrite !Hsame by discriminate;
        (split; [exact Eside | reflexivity]).
  - destruct err; try discriminate;
      intros H; injection H as <- <- _; left; (split; [reflexivity |]);
      apply Hkeep; (split; [exact Eside | reflexivity]).
Qed.

Lemma sell_never_denied e avg_price (s s' : St) :
  sell_for e avg_price s <> (Raise PermissionError, s').
Proof.
  unfold make_sell, try_except, bind, lift, ret, print, save_saved, clock.
  destruct (getitem e "status") as [status | err] eqn:Es;
    [| intros H; injection H as -> _; exact (getitem_not_denied _ _ Es)].
  destruct (get e "linked_sell_order") as [linked | err] eqn:El;
    [| destruct e; discriminate].
  destruct (andb _ _); [| discriminate].
  destruct (if truthy avg_price then float_of avg_price
            else rbind (getitem e "price") float_of) as [a | err] eqn:Ea.
  - destruct (rbind (getitem e "quantity") float_of) as [q | err] eqn:Eq.
    + destruct (place_order _ _ _ _ _ _ s) as [[resp | err] s2]; [| discriminate].
      destruct (get e "order_id") as [oid | err] eqn:Eo; [discriminate |].
      destruct e; discriminate.
    + intros H. injection H as -> _.
      exact (getitem_float_not_denied _ _ Eq).
  - intros H. injection H as -> _.
    destruct (truthy avg_price);
      [exact (float_of_not_denied _ Ea) | exact (getitem_float_not_denied _ _ Ea)].
Qed.

(** A check that ends in an exception has written nothing. *)
Lemma check_raise_untouched entry err (s s' : St) :
  check entry s = (Raise err, s') -> files s' = files s.
Proof.
  unfold check_entry, bind, lift, ret, print, try_reraising_denied.
  destruct (getitem entry "side") as [side |]; [| now intros H; injection H as _ <-].
  destruct (negb (is_str "buy" side)); [discriminate |].
  destruct (get entry "status") as [status |]; [| now intros H; injection H as _ <-].
  destruct (orb _ _); [discriminate |].
  destruct (get entry "order_id") as [oid |]; [| now intros H; injection H as _ <-].
  destruct (negb (truthy oid)); [discriminate |].
  destruct (update_status _ _ _ _ _ s) as [[[e1 avg] | e] s1] eqn:Eu.
  - destruct (sell_for e1 avg s1) as [[r | e] s2] eqn:Es; [discriminate |].
    destruct e; try discriminate.
    exfalso. exact (sell_never_denied _ _ _ _ Es).
  - destruct e; try discriminate. intros H. injection H as _ <-.
    revert Eu. unfold update_status, get_order_status, bind, lift.
    pose proof (status_lookup_files api_key (status_paths (py_str oid)) s) as Hf.
    destruct (status_lookup api_key (status_paths (py_str oid)) s) as [[st | e] s0].
    + destruct (read_status st) as [[status' avg'] filled'].
      destruct (normalize status'); [discriminate |].
      intros H. now injection H as _ <-.
    + intros H. now injection H as _ <-.
Qed.

End OneRecord.

(** ** The status pass, the whole store *)

Lemma check_leaves api_key pair out_file srec whole e (s : St) :
  settled e \/ is_sell e ->
  check_entry api_key pair out_file srec whole e s = (Ok (e, []), s).
Proof.
  intros [Hs | (d & -> & Hside)].
  - destruct Hs as (d & -> & Hs). apply check_skips. right.
    exists d. split; [reflexivity | exact Hs].
  - apply check_skips. left. exists (JStr "sell"). split; [exact Hside | reflexivity].
Qed.

Lemma check_entries_spec api_key pair out_file srec store todo :
  forall done app (s : St) done' app' s',
    check_entries api_key pair out_file srec store done todo app s
    = (Ok (done', app'), s') ->
    exists results sells,
      done' = (done ++ results)%list /\ app' = (app ++ sells)%list
      /\ List.length results = List.length todo
      /\ Forall is_sell sells
      /\ (forall i e, nth_error todo i = Some e -> settled e \/ is_sell e ->
                      nth_error results i = Some e)
      /\ (forall i e, nth_error todo i = Some e ->
            exists e' whole s0 made s1,
              nth_error results i = Some e'
              /\ check_entry api_key pair out_file srec whole e s0
                 = (Ok (e', made), s1)).
Proof.
  induction todo as [| entry rest IH]; intros done app s done' app' s' H.
  - cbn in H. injection H as <- <- _. exists [], [].
    rewrite !app_nil_r.
    split; [reflexivity | split; [reflexivity | split; [reflexivity |
      split; [constructor | split]]]];
      intros [| i] e Hn; discriminate Hn.
  - cbn [check_entries] in H. unfold bind at 1 in H.
    destruct (check_entry api_key pair out_file srec _ entry s)
      as [[[entry' sells] | err] s1] eqn:Ec; [| discriminate H].
    cbn [fst snd] in H.
    apply IH in H.
    destruct H as (results & sells' & -> & -> & Hlen & Hs & Hkeep & Hvisit).
    exists (entry' :: results), (sells ++ sells')%list.
    rewrite <- !app_assoc.
    split; [reflexivity | split; [reflexivity | split; [| split; [| split]]]].
    + cbn. now rewrite Hlen.
    + apply Forall_app. split; [| exact Hs].
      destruct (check_outcome _ _ _ _ _ _ _ _ _ _ Ec)
        as [[-> _] | (sell & -> & Hsell & _)]; repeat constructor; assumption.
    + intros [| i] e Hn Hset; cbn in Hn |- *; [| now apply Hkeep].
      injection Hn as ->.
      rewrite (check_leaves _ _ _ _ _ e s Hset) in Ec.
      now injection Ec as <- _ _.
    + intros [| i] e Hn; cbn in Hn |- *; [| exact (Hvisit i e Hn)].
      injection Hn as ->. do 5 eexists. split; [reflexivity | exact Ec].
Qed.

(** The records appended during the pass are reached by the iterator and
    passed over. *)
Lemma appended_skipped api_key pair out_file srec store sells :
  Forall is_sell sells ->
  forall done (s : St),
    check_entries api_key pair out_file srec store done sells [] s
    = (Ok ((done ++ sells)%list, []), s).
Proof.
  induction 1 as [| e sells He _ IH]; intros done s.
  - cbn. now rewrite app_nil_r.
  - cbn [check_entries]. unfold bind at 1.
    rewrite (check_leaves _ _ _ _ _ e s (or_intror He)). cbn [fst snd].
    rewrite IH. now rewrite <- app_assoc.
Qed.

Lemma status_pass_spec api_key pair out_file srec sd l saved' (s s' : St) :
  lookup "orders" sd = Some (JList l) ->
  status_pass api_key pair out_file srec (JDict sd) s = (Ok saved', s') ->
  exists l',
    saved' = JDict (assign "orders" (JList l') sd)
    /\ (List.length l <= List.length l')%nat
    /\ (forall i e, nth_error l i = Some e -> settled e \/ is_sell e ->
                    nth_error l' i = Some e)
    /\ (forall i e, nth_error l i = Some e ->
          exists e' whole s0 made s1,
            nth_error l' i = Some e'
            /\ check_entry api_key pair out_file srec whole e s0
               = (Ok (e', made), s1)).
Proof.
  intros Ho. unfold status_pass. cbn [getitem]. rewrite Ho.
  unfold lift at 1. unfold bind at 1. unfold bind at 1.
  destruct (check_entries api_key pair out_file srec _ [] l [] s)
    as [[[done app] | err] s1] eqn:E1; [| discriminate].
  apply check_entries_spec in E1.
  destruct E1 as (results & sells & -> & -> & Hlen & Hs & Hkeep & Hvisit).
  cbn [fst snd app]. unfold bind at 1.
  rewrite (appended_skipped _ _ _ _ _ sells Hs).
  unfold ret. cbn [fst snd]. intros H. injection H as <- _.
  exists (results ++ sells)%list. rewrite app_nil_r.
  assert (Hin : forall i e, nth_error l i = Some e ->
            nth_error (results ++ sells) i = nth_error results i).
  { intros i e Hn. apply nth_error_app1.
    rewrite Hlen. apply nth_error_Some. congruence. }
  split; [reflexivity | split; [| split]].
  - rewrite length_app. lia.
  - intros i e Hn Hset. rewrite (Hin i e Hn). now apply Hkeep.
  - intros i e Hn. rewrite (Hin i e Hn). now apply Hvisit.
Qed.

Lemma sells_over_settled entry visits :
  settled entry -> sells_over_runs entry visits = [].
Proof.
  intros Hs. induction visits as [| v rest IH]; [reflexivity |].
  cbn [sells_over_runs]. unfold check_in.
  rewrite (check_leaves _ _ _ _ _ entry _ (or_introl Hs)). exact IH.
Qed.

(** C2. A buy record marked [FILLED] or [CLOSED] is left exactly as it is
    by a status check, which sends and writes nothing for it, and so by
    a whole pass. A check changes the record's [linked_sell_order] only
    when it makes a sell record; it then makes exactly one and leaves the
    record settled; a check that ends in an exception has written
    nothing. Hence over any sequence of runs at most one sell record is
    made for a buy record. A pass that completes has put, at each position
    of the store, the outcome of one check of the record that was there. *)
Theorem sell_generated_at_most_once :
  (forall v entry, settled entry -> check_in v entry = (Ok (entry, []), v_state v))
  /\ (forall v d entry' s',
        check_in v (JDict d) = (Ok (entry', []), s') ->
        exists d', entry' = JDict d'
                   /\ field d' "linked_sell_order" = field d "linked_sell_order")
  /\ (forall v entry entry' sells s',
        check_in v entry = (Ok (entry', sells), s') -> sells <> [] ->
        settled entry' /\ exists sell, sells = [sell] /\ is_sell sell)
  /\ (forall v entry err s',
        check_in v entry = (Raise err, s') -> files s' = files (v_state v))
  /\ (forall entry visits, (List.length (sells_over_runs entry visits) <= 1)%nat)
  /\ (forall api_key pair out_file srec sd l saved' (s s' : St),
        lookup "orders" sd = Some (JList l) ->
        status_pass api_key pair out_file srec (JDict sd) s = (Ok saved', s') ->
        exists l',
          saved' = JDict (assign "orders" (JList l') sd)
          /\ (forall i e, nth_error l i = Some e -> settled e ->
                          nth_error l' i = Some e)
          /\ (forall i e, nth_error l i = Some e ->
                exists v e' made s1,
                  nth_error l' i = Some e'
                  /\ check_in v e = (Ok (e', made), s1))).
Proof.
  split; [| split; [| split; [| split; [| split]]]].
  - intros v entry Hs. unfold check_in. now apply check_leaves; left.
  - intros v d entry' s' H. unfold check_in in H.
    destruct (check_outcome _ _ _ _ _ _ _ _ _ _ H)
      as [[_ Hk] | (sell & Hd & _)]; [| discriminate Hd].
    destruct (Hk d eq_refl) as (d' & -> & _ & Hl). eauto.
  - intros v entry entry' sells s' H Hne. unfold check_in in H.
    destruct (check_outcome _ _ _ _ _ _ _ _ _ _ H)
      as [[-> _] | (sell & -> & Hsell & Hset)]; [congruence |].
    split; [exact Hset | eauto].
  - intros v entry err s' H. unfold check_in in H.
    exact (check_raise_untouched _ _ _ _ _ _ _ _ _ H).
  - intros entry visits. revert entry.
    induction visits as [| v rest IH]; intros entry; [cbn; lia |].
    cbn [sells_over_runs].
    destruct (check_in v entry) as [[[entry' sells] | err] s'] eqn:E; [| apply IH].
    unfold check_in in E.
    destruct (check_outcome _ _ _ _ _ _ _ _ _ _ E)
      as [[-> _] | (sell & -> & _ & Hset)]; [apply IH |].
    rewrite (sells_over_settled _ _ Hset). cbn. lia.
  - intros api_key pair out_file srec sd l saved' s s' Ho H.
    destruct (status_pass_spec _ _ _ _ _ _ _ _ _ Ho H)
      as (l' & -> & _ & Hk & Hv).
    exists l'. split; [reflexivity | split].
    + intros i e Hn Hs. apply Hk; auto.
    + intros i e Hn. destruct (Hv i e Hn) as (e' & whole & s0 & made & s1 & Hn' & Hc).
      exists {| v_key := api_key; v_pair := pair; v_file := out_file;
                v_srec := srec; v_whole := whole; v_state := s0 |}, e', made, s1.
      split; [exact Hn' | exact Hc].
Qed.

(** ** Placing the buy orders *)

Lemma assign_assign k v w d : assign k v (assign k w d) = assign k v d.
Proof.
  induction d as [| [k' v'] d IH]; cbn.
  - now rewrite String.eqb_refl.
  - destruct (String.eqb k k') eqn:E; cbn.
    + now rewrite String.eqb_refl.
    + now rewrite E, IH.
Qed.

Lemma assign_same k v d : lookup k d = Some v -> assign k v d = d.
Proof.
  induction d as [| [k' v'] d IH]; cbn; [discriminate |].
  destruct (String.eqb k k') eqn:E.
  - intros H. injection H as ->. apply String.eqb_eq in E. now subst.
  - intros H. now rewrite IH.
Qed.

Lemma exn_denied_dec (e : exn) : {e = PermissionError} + {e <> PermissionError}.
Proof. destruct e; (now left) || (right; discriminate). Qed.

Section Placement.

Variable api_key : option string.
Variable pair out_file : string.
Variable srec : json.

Local Abbreviation place := (place_order api_key pair "buy").
Local Abbreviation buys := (place_buys api_key pair out_file srec).

Lemma place_order_files symbol side price qty (s : St) :
  files (snd (place_order api_key symbol side price qty srec s)) = files s.
Proof.
  unfold place_order, bind, lift.
  destruct (order_request symbol side price qty srec) as [body | e]; [| reflexivity].
  pose proof (try_request_files POST "/api/orders" api_key (Some body) s) as Hf.
  destruct (try_request_total POST "/api/orders" api_key (Some body) s)
    as (r & s1 & E).
  rewrite E in Hf |- *. cbn [snd] in Hf.
  destruct r as [resp |]; [| exact Hf].
  destruct (denied resp); [exact Hf |].
  destruct (negb (resp_ok resp)); exact Hf.
Qed.

Lemma buys_denied price qty rest saved (s s1 : St) :
  place price qty srec s = (Raise PermissionError, s1) ->
  buys ((price, qty) :: rest) saved s = (Raise PermissionError, s1).
Proof.
  intros H. cbn [place_buys].
  apply bind_raise. apply try_denied_denied. now apply bind_raise.
Qed.

Lemma buys_failed price qty rest saved e (s s1 : St) :
  place price qty srec s = (Raise e, s1) -> e <> PermissionError ->
  buys ((price, qty) :: rest) saved s = buys rest saved (say (ERROR_buy e) s1).
Proof.
  intros H Hne. cbn [place_buys].
  erewrite bind_ok; [reflexivity |].
  erewrite try_denied_other; [| apply bind_raise; exact H | exact Hne].
  reflexivity.
Qed.

Lemma buys_placed price qty rest d l resp (s s1 : St) :
  lookup "orders" d = Some (JList l) ->
  place price qty srec s = (Ok resp, s1) ->
  let order_id := extract_order_id resp in
  let entry := buy_entry price qty pair order_id resp (now (net s1)) in
  let saved' := put_orders d (l ++ [entry]) in
  buys ((price, qty) :: rest) (JDict d) s
  = buys rest saved' (say (OK_buy order_id) (write out_file saved' s1)).
Proof.
  intros Ho H order_id entry saved'. cbn [place_buys].
  erewrite bind_ok; [reflexivity |].
  apply try_denied_ok. rewrite (bind_ok _ _ _ _ _ H).
  unfold clock at 1. unfold bind at 1.
  fold order_id. fold entry.
  assert (Ha : append_order (JDict d) entry = Ok saved')
    by (unfold append_order; cbn [getitem]; rewrite Ho; reflexivity).
  rewrite (bind_ok _ _ _ _ _ (lift_ok _ _ _ Ha)).
  rewrite (bind_ok _ _ _ _ _ (save_write _ _ _)).
  rewrite (bind_ok _ _ _ _ _ (print_say _ _)).
  reflexivity.
Qed.

Lemma buy_entry_new price qty order_id resp t :
  new_buy (buy_entry price qty pair order_id resp t).
Proof. eexists. repeat split. Qed.

(** However the loop ends, the store file holds the records of the
    placements that succeeded, and the loop ends early only on denial. *)
Lemma buys_persisted cands :
  forall d l r (s s' : St),
    lookup "orders" d = Some (JList l) ->
    buys cands (JDict d) s = (r, s') ->
    exists new,
      Forall new_buy new
      /\ (new = [] -> files s' = files s)
      /\ (new <> [] -> files s' out_file = Holds (put_orders d (l ++ new)))
      /\ (forall saved', r = Ok saved' -> saved' = put_orders d (l ++ new))
      /\ (forall e, r = Raise e -> e = PermissionError).
Proof.
  induction cands as [| [price qty] rest IH]; intros d l r s s' Ho H.
  - cbn in H. injection H as <- <-. exists [].
    split; [constructor | split; [reflexivity | split; [congruence | split]]].
    + intros saved' H. injection H as <-. unfold put_orders.
      now rewrite app_nil_r, (assign_same _ _ _ Ho).
    + discriminate.
  - pose proof (place_order_files pair "buy" price qty s) as Hf.
    destruct (place price qty srec s) as [[resp | e] s1] eqn:Ep; cbn [snd] in Hf.
    + rewrite (buys_placed _ _ _ _ _ _ _ _ Ho Ep) in H.
      set (entry := buy_entry price qty pair (extract_order_id resp) resp
                      (now (net s1))) in *.
      apply (IH _ (l ++ [entry])%list) in H;
        [| unfold put_orders; apply lookup_assign_same].
      destruct H as (new & Hnew & Hnil & Hcons & Hok & Hraise).
      assert (Hput : put_orders (assign "orders" (JList (l ++ [entry])) d)
                       ((l ++ [entry]) ++ new)
                     = put_orders d (l ++ entry :: new)).
      { unfold put_orders. now rewrite assign_assign, <- app_assoc. }
      exists (entry :: new).
      split; [| split; [| split; [| split]]].
      * constructor; [apply buy_entry_new | exact Hnew].
      * discriminate.
      * intros _. destruct new as [| e0 new0].
        -- rewrite (Hnil eq_refl). cbn. now rewrite String.eqb_refl.
        -- rewrite Hcons by discriminate. now rewrite Hput.
      * intros saved' Hr. rewrite (Hok _ Hr). exact Hput.
      * exact Hraise.
    + destruct (exn_denied_dec e) as [-> | Hne].
      * rewrite (buys_denied _ _ _ _ _ _ Ep) in H. injection H as <- <-.
        exists [].
        split; [constructor | split; [intros _; exact Hf | split; [congruence | split]]].
        -- discriminate.
        -- intros e H. now injection H as <-.
      * rewrite (buys_failed _ _ _ _ _ _ _ Ep Hne) in H.
        apply (IH _ _ _ _ _ Ho) in H.
        destruct H as (new & Hnew & Hnil & Hcons & Hok & Hraise).
        exists new.
        split; [exact Hnew | split; [| split; [exact Hcons | split; assumption]]].
        intros Hn. rewrite (Hnil Hn). exact Hf.
Qed.

(** C4. A buy placement answered with 401 or 403 raises
    [PermissionError], which ends the placing loop and the run at once:
    the candidates after it are not attempted and no status pass follows.
    Nothing is written by the failed placement, so the store file still
    holds the records of the earlier successful placements, each with
    status [NEW]. Any other placement failure is printed and the loop goes
    on with the remaining candidates. *)
Theorem denied_placement_aborts_run :
  (forall price qty body resp (s s1 : St),
     order_request pair "buy" price qty srec = Ok body ->
     try_request POST "/api/orders" api_key (Some body) s = (Ok (Some resp), s1) ->
     denied resp = true ->
     place price qty srec s = (Raise PermissionError, s1))
  /\ (forall price qty rest saved (s s1 : St),
        place price qty srec s = (Raise PermissionError, s1) ->
        buys ((price, qty) :: rest) saved s = (Raise PermissionError, s1)
        /\ files s1 = files s)
  /\ (forall price qty rest saved e (s s1 : St),
        place price qty srec s = (Raise e, s1) -> e <> PermissionError ->
        buys ((price, qty) :: rest) saved s
        = buys rest saved (say (ERROR_buy e) s1))
  /\ (forall price qty rest d l resp (s s1 : St),
        lookup "orders" d = Some (JList l) ->
        place price qty srec s = (Ok resp, s1) ->
        let order_id := extract_order_id resp in
        let entry := buy_entry price qty pair order_id resp (now (net s1)) in
        let saved' := put_orders d (l ++ [entry]) in
        new_buy entry
        /\ buys ((price, qty) :: rest) (JDict d) s
           = buys rest saved' (say (OK_buy order_id) (write out_file saved' s1)))
  /\ (forall cands d l r (s s' : St),
        lookup "orders" d = Some (JList l) ->
        buys cands (JDict d) s = (r, s') ->
        exists new,
          Forall new_buy new
          /\ (new = [] -> files s' = files s)
          /\ (new <> [] -> files s' out_file = Holds (put_orders d (l ++ new)))
          /\ (forall saved', r = Ok saved' -> saved' = put_orders d (l ++ new))
          /\ (forall e, r = Raise e -> e = PermissionError))
  /\ (forall cands saved e (s s' : St),
        buys cands saved (say (INFO "placing buys") s) = (Raise e, s') ->
        place_and_check api_key pair out_file srec cands saved s = (Raise e, s')).
Proof.
  split; [| split; [| split; [| split; [| split]]]].
  - intros price qty body resp s s1 Hb Hr Hd. unfold place_order.
    rewrite (bind_ok _ _ _ _ _ (lift_ok _ _ _ Hb)).
    rewrite (bind_ok _ _ _ _ _ Hr). rewrite Hd. reflexivity.
  - intros price qty rest saved s s1 H. split; [now apply buys_denied |].
    pose proof (place_order_files pair "buy" price qty s) as Hf.
    rewrite H in Hf. exact Hf.
  - intros. now apply buys_failed.
  - intros price qty rest d l resp s s1 Ho H. cbv zeta.
    split; [apply buy_entry_new | now apply buys_placed].
  - intros cands d l r s s' Ho H. exact (buys_persisted cands d l r s s' Ho H).
  - intros cands saved e s s' H. unfold place_and_check.
    rewrite (bind_ok _ _ _ _ _ (print_say _ _)).
    exact (bind_raise _ _ _ _ _ H).
Qed.

End Placement.

(** * Further properties of the code *)

(** ** Decimal rounding *)

Lemma round_half_even_near x :
  inject_Z (round_half_even x) - (1 # 2) <= x
  /\ x <= inject_Z (round_half_even x) + (1 # 2).
Proof.
  unfold round_half_even.
  pose proof (Qfloor_le x) as Hlo. pose proof (Qlt_floor x) as Hhi.
  rewrite inject_Z_plus in Hhi. change (inject_Z 1) with 1 in Hhi.
  destruct (Qltb (x - inject_Z (Qfloor x)) (1 # 2)) eqn:E1.
  - apply Qltb_lt in E1. split; lra.
  - apply Qltb_ge in E1.
    destruct (Qltb (1 # 2) (x - inject_Z (Qfloor x))) eqn:E2.
    + rewrite inject_Z_plus. change (inject_Z 1) with 1. split; lra.
    + apply Qltb_ge in E2. destruct (Z.even (Qfloor x)).
      * split; lra.
      * rewrite inject_Z_plus. change (inject_Z 1) with 1. split; lra.
Qed.

Lemma fmt_round_value n x :
  fmt_round n x == inject_Z (round_half_even (x * inject_Z (pow10 n)))
                   / inject_Z (pow10 n).
Proof. unfold fmt_round. apply Qred_correct. Qed.

(** [float(f"{x:.nf}")] is a whole number of units [10^-n], at most half
    a unit away from [x], and rounding again changes nothing. *)
Lemma fmt_round_half_unit (n : nat) (x : Q) :
  (exists k : Z, fmt_round n x == inject_Z k / inject_Z (pow10 n))
  /\ fmt_round n x - x <= (1 # 2) / inject_Z (pow10 n)
  /\ x - fmt_round n x <= (1 # 2) / inject_Z (pow10 n)
  /\ fmt_round n (fmt_round n x) == fmt_round n x.
Proof.
  pose proof (inject_pow10_pos n) as Hp.
  set (k := round_half_even (x * inject_Z (pow10 n))).
  assert (Hv : fmt_round n x == inject_Z k / inject_Z (pow10 n))
    by apply fmt_round_value.
  destruct (round_half_even_near (x * inject_Z (pow10 n))) as [Hlo Hhi].
  fold k in Hlo, Hhi.
  split; [exists k; exact Hv |]. split; [| split].
  - rewrite Hv.
    setoid_replace (inject_Z k / inject_Z (pow10 n) - x)
      with ((inject_Z k - x * inject_Z (pow10 n)) / inject_Z (pow10 n))
      by (field; lra).
    apply Qmult_le_compat_r; [lra |].
    apply Qlt_le_weak, Qinv_lt_0_compat, Hp.
  - rewrite Hv.
    setoid_replace (x - inject_Z k / inject_Z (pow10 n))
      with ((x * inject_Z (pow10 n) - inject_Z k) / inject_Z (pow10 n))
      by (field; lra).
    apply Qmult_le_compat_r; [lra |].
    apply Qlt_le_weak, Qinv_lt_0_compat, Hp.
  - apply (fmt_round_exact n k). exact Hv.
Qed.


(** X1. The price that [place_order] sends is the requested price rounded
    to [pricePrecision] decimals: a whole number of units of the last
    digit, at most half such a unit away from the request, and unchanged by
    a second rounding. A negative precision is an error. *)
Theorem round_price_half_unit (price : Q) (price_prec : Z) :
  ((price_prec < 0)%Z -> round_price price price_prec = Raise ValueError)
  /\ ((0 <= price_prec)%Z ->
      exists p,
        round_price price price_prec = Ok p
        /\ (exists k : Z, p == inject_Z k / inject_Z (10 ^ price_prec))
        /\ p - price <= (1 # 2) / inject_Z (10 ^ price_prec)
        /\ price - p <= (1 # 2) / inject_Z (10 ^ price_prec)
        /\ exists p', round_price p price_prec = Ok p' /\ p' == p).
Proof.
  unfold round_price. split; intros H.
  - apply Z.ltb_lt in H. now rewrite H.
  - assert (E : (price_prec <? 0)%Z = false) by (apply Z.ltb_ge; exact H).
    rewrite E.
    assert (Hp : (10 ^ price_prec)%Z = pow10 (Z.to_nat price_prec))
      by (unfold pow10; now rewrite Z2Nat.id).
    rewrite Hp.
    destruct (fmt_round_half_unit (Z.to_nat price_prec) price)
      as (Hk & Hlo & Hhi & Hid).
    eexists. split; [reflexivity |]. repeat split; try assumption.
    eexists. split; [reflexivity | exact Hid].
Qed.

(** ** Flooring to the lot size *)





(** ** The budget of a plan *)




(** ** Requests *)

Lemma try_variants_trace m path body hs :
  forall s : St,
    exists n,
      (n <= List.length hs)%nat
      /\ sent (snd (try_variants m path body hs s))
         = (sent s ++ map (request_with m path body) (firstn n hs))%list
      /\ files (snd (try_variants m path body hs s)) = files s
      /\ match fst (try_variants m path body hs s) with
         | None =>
             n = List.length hs
             /\ out (snd (try_variants m path body hs s))
                = (out s ++ repeat (WARN_network m path) n)%list
         | Some _ =>
             (1 <= n)%nat
             /\ out (snd (try_variants m path body hs s))
                = (out s ++ repeat (WARN_network m path) (n - 1))%list
         end.
Proof.
  induction hs as [| h hs IH]; intros s.
  - exists 0%nat. cbn. rewrite !app_nil_r. auto.
  - cbn [try_variants]. unfold send.
    destruct (http (net s) _) as [[resp |] w] eqn:E.
    + exists 1%nat. cbn. rewrite app_nil_r. repeat split; lia.
    + match goal with |- context [try_variants _ _ _ hs ?s1] =>
        destruct (IH s1) as (n & Hn & Hs & Hf & Hr);
        destruct (try_variants m path body hs s1) as [r s2] end.
      cbn [fst snd sent out files] in *.
      exists (S n). rewrite Hs, Hf. cbn [firstn map List.length].
      rewrite <- app_assoc.
      split; [lia |]. split; [reflexivity |]. split; [reflexivity |].
      destruct r as [resp |]; destruct Hr as [Hn' Ho]; rewrite Ho;
        rewrite <- app_assoc; (split; [lia |]).
      * destruct n as [| n']; [lia |]. cbn. now rewrite Nat.sub_0_r.
      * reflexivity.
Qed.

(** X5. [try_request] raises nothing and writes nothing. It tries the
    header variants in their fixed order (four with the key, then none;
    only the unauthenticated one when there is no key), one request each,
    stops at the first response whatever its status, prints one warning
    per transport failure, and returns no response only when every variant
    failed. *)
Theorem try_request_first_response m path api_key body (s : St) :
  let hs := headers_variants api_key in
  (match api_key with
   | Some k => if String.eqb k EmptyString then hs = [NoAuth]
               else hs = [XApiKey k; Bearer k; ApiKeyLower k; ApiKeyDash k; NoAuth]
   | None => hs = [NoAuth]
   end)
  /\ exists r s' n,
       try_request m path api_key body s = (Ok r, s')
       /\ (n <= List.length hs)%nat
       /\ sent s' = (sent s ++ map (request_with m path body) (firstn n hs))%list
       /\ files s' = files s
       /\ match r with
          | None => n = List.length hs
                    /\ out s' = (out s ++ repeat (WARN_network m path) n)%list
          | Some _ => (1 <= n)%nat
                      /\ out s' = (out s ++ repeat (WARN_network m path) (n - 1))%list
          end.
Proof.
  intros hs. split.
  - unfold hs, headers_variants. destruct api_key as [k |]; [| reflexivity].
    destruct (String.eqb k EmptyString); reflexivity.
  - destruct (try_variants_trace m path body hs s) as (n & Hn & Hs & Hf & Hr).
    unfold try_request. fold hs.
    destruct (try_variants m path body hs s) as [r s'].
    cbn [fst snd] in *. exists r, s', n. auto.
Qed.

Lemma try_request_methods m path key body (s : St) :
  exists reqs,
    sent (snd (try_request m path key body s)) = (sent s ++ reqs)%list
    /\ Forall (fun rq => rq_method rq = m /\ rq_path rq = path
                         /\ rq_body rq = body) reqs
    /\ reqs <> [].
Proof.
  unfold try_request.
  destruct (try_variants_sent m path body (headers_variants key) s)
    as (reqs & Hs & Hall & Hne & _).
  destruct (try_variants m path body (headers_variants key) s).
  exists reqs. repeat split; try assumption.
  apply Hne, headers_variants_nonempty.
Qed.

Lemma status_lookup_outcome api_key paths :
  forall (s : St) r s',
    status_lookup api_key paths s = (r, s') ->
    files s' = files s
    /\ (forall e, r = Raise e -> e = PermissionError \/ e = RuntimeError)
    /\ exists reqs,
         sent s' = (sent s ++ reqs)%list
         /\ Forall (fun rq => rq_method rq = GET /\ In (rq_path rq) paths
                              /\ rq_body rq = None) reqs.
Proof.
  induction paths as [| p ps IH]; intros s r s' H.
  - cbn in H. injection H as <- <-. split; [reflexivity |]. split.
    + intros e He. injection He as <-. now right.
    + exists []. rewrite app_nil_r. split; [reflexivity | constructor].
  - cbn [status_lookup] in H. unfold bind in H.
    pose proof (try_request_files GET p api_key None s) as Hf.
    destruct (try_request_methods GET p api_key None s) as (reqs & Hs & Hall & _).
    destruct (try_request_total GET p api_key None s) as (r0 & s1 & E).
    rewrite E in H, Hf, Hs. cbn [snd] in Hf, Hs.
    assert (Hall' : Forall (fun rq => rq_method rq = GET /\ In (rq_path rq) (p :: ps)
                                      /\ rq_body rq = None) reqs).
    { eapply Forall_impl; [| exact Hall]. intros rq (Hm & Hp & Hb).
      repeat split; try assumption. left. now symmetry. }
    assert (Hnext : status_lookup api_key ps s1 = (r, s') ->
              files s' = files s
              /\ (forall e, r = Raise e -> e = PermissionError \/ e = RuntimeError)
              /\ exists reqs0,
                   sent s' = (sent s ++ reqs0)%list
                   /\ Forall (fun rq => rq_method rq = GET
                                        /\ In (rq_path rq) (p :: ps)
                                        /\ rq_body rq = None) reqs0).
    { intros Hn. destruct (IH _ _ _ Hn) as (Hf' & He & reqs' & Hs' & Hall'').
      split; [congruence |]. split; [exact He |].
      exists (reqs ++ reqs')%list. rewrite Hs', Hs, app_assoc.
      split; [reflexivity |]. apply Forall_app. split; [exact Hall' |].
      eapply Forall_impl; [| exact Hall'']. intros rq (Hm & Hp & Hb).
      repeat split; try assumption. now right. }
    assert (Hhere : forall x, (r, s') = (x, s1) ->
              (forall e, x = Raise e -> e = PermissionError \/ e = RuntimeError) ->
              files s' = files s
              /\ (forall e, r = Raise e -> e = PermissionError \/ e = RuntimeError)
              /\ exists reqs0,
                   sent s' = (sent s ++ reqs0)%list
                   /\ Forall (fun rq => rq_method rq = GET
                                        /\ In (rq_path rq) (p :: ps)
                                        /\ rq_body rq = None) reqs0).
    { intros x Hx Hex. injection Hx as -> ->.
      split; [exact Hf |]. split; [exact Hex |]. exists reqs. auto. }
    destruct r0 as [resp |]; [| now apply Hnext].
    destruct (denied resp).
    + apply (Hhere (Raise PermissionError)); [now symmetry |].
      intros e He. injection He as <-. now left.
    + destruct (resp_ok resp); [| now apply Hnext].
      apply (Hhere (Ok (json_or_raw resp))); [now symmetry | discriminate].
Qed.

(** X6. A status lookup writes nothing, sends only [GET] requests without
    a body to the three status paths of the order, and can fail in two
    ways only: [PermissionError] (a 401 or 403 on the path being tried) or
    [RuntimeError] (no path answered with a success). *)
Theorem get_order_status_outcome api_key order_id (s : St) r s' :
  get_order_status api_key order_id s = (r, s') ->
  files s' = files s
  /\ (forall e, r = Raise e -> e = PermissionError \/ e = RuntimeError)
  /\ exists reqs,
       sent s' = (sent s ++ reqs)%list
       /\ Forall (fun rq => rq_method rq = GET
                            /\ In (rq_path rq)
                                 ["/api/orders/" ++ order_id;
                                  "/api/user/orders/" ++ order_id;
                                  "/api/orders?id=" ++ order_id]
                            /\ rq_body rq = None) reqs.
Proof.
  intros H. unfold get_order_status in H.
  destruct (status_lookup_outcome _ _ _ _ _ H) as (Hf & He & reqs & Hs & Hall).
  split; [exact Hf |]. split; [exact He |].
  exists reqs. split; [exact Hs | exact Hall].
Qed.


(** ** Cancellation *)

Lemma cancel_lookup_outcome api_key paths :
  forall (s : St) r s',
    cancel_lookup api_key paths s = (r, s') ->
    files s' = files s
    /\ (forall e, r = Raise e -> e = RuntimeError)
    /\ exists reqs,
         sent s' = (sent s ++ reqs)%list
         /\ Forall (fun rq => rq_method rq = DELETE /\ In (rq_path rq) paths
                              /\ rq_body rq = None) reqs.
Proof.
  induction paths as [| p ps IH]; intros s r s' H.
  - cbn in H. injection H as <- <-. split; [reflexivity |]. split.
    + intros e He. now injection He as <-.
    + exists []. rewrite app_nil_r. split; [reflexivity | constructor].
  - cbn [cancel_lookup] in H. unfold bind in H.
    pose proof (try_request_files DELETE p api_key None s) as Hf.
    destruct (try_request_methods DELETE p api_key None s) as (reqs & Hs & Hall & _).
    destruct (try_request_total DELETE p api_key None s) as (r0 & s1 & E).
    rewrite E in H, Hf, Hs. cbn [snd] in Hf, Hs.
    assert (Hall' : Forall (fun rq => rq_method rq = DELETE
                                      /\ In (rq_path rq) (p :: ps)
                                      /\ rq_body rq = None) reqs).
    { eapply Forall_impl; [| exact Hall]. intros rq (Hm & Hp & Hb).
      repeat split; try assumption. left. now symmetry. }
    assert (Hnext : cancel_lookup api_key ps s1 = (r, s') ->
              files s' = files s
              /\ (forall e, r = Raise e -> e = RuntimeError)
              /\ exists reqs0,
                   sent s' = (sent s ++ reqs0)%list
                   /\ Forall (fun rq => rq_method rq = DELETE
                                        /\ In (rq_path rq) (p :: ps)
                                        /\ rq_body rq = None) reqs0).
    { intros Hn. destruct (IH _ _ _ Hn) as (Hf' & He & reqs' & Hs' & Hall'').
      split; [congruence |]. split; [exact He |].
      exists (reqs ++ reqs')%list. rewrite Hs', Hs, app_assoc.
      split; [reflexivity |]. apply Forall_app. split; [exact Hall' |].
      eapply Forall_impl; [| exact Hall'']. intros rq (Hm & Hp & Hb).
      repeat split; try assumption. now right. }
    destruct r0 as [resp |]; [| now apply Hnext].
    destruct (resp_ok resp); [| now apply Hnext].
    unfold ret in H. injection H as <- <-.
    split; [exact Hf |]. split; [discriminate |]. exists reqs. auto.
Qed.

(** X7. Cancelling an order writes nothing and sends only [DELETE]
    requests, without a body, to the two cancellation paths of the order.
    Its only error is [RuntimeError]: a 401 or 403 is an answer like any
    other failure here, and the next path is tried. *)
Theorem cancel_order_outcome api_key order_id (s : St) r s' :
  cancel_order api_key order_id s = (r, s') ->
  files s' = files s
  /\ (forall e, r = Raise e -> e = RuntimeError)
  /\ exists reqs,
       sent s' = (sent s ++ reqs)%list
       /\ Forall (fun rq => rq_method rq = DELETE
                            /\ In (rq_path rq) (cancel_paths order_id)
                            /\ rq_body rq = None) reqs.
Proof.
  intros H. unfold cancel_order in H.
  destruct (cancel_lookup_outcome _ _ _ _ _ H) as (Hf & He & reqs & Hs & Hall).
  split; [exact Hf |]. split; [exact He |].
  exists reqs. split; [exact Hs | exact Hall].
Qed.

Lemma cancel_order_outcome_aux api_key order_id (s : St) r s' :
  cancel_order api_key order_id s = (r, s') ->
  files s' = files s
  /\ exists reqs,
       sent s' = (sent s ++ reqs)%list
       /\ Forall (fun rq => rq_method rq = DELETE
                            /\ In (rq_path rq) (cancel_paths order_id)
                            /\ rq_body rq = None) reqs.
Proof.
  intros H. unfold cancel_order in H.
  destruct (cancel_lookup_outcome _ _ _ _ _ H) as (Hf & _ & reqs & Hs & Hall).
  split; [exact Hf |]. exists reqs. split; [exact Hs | exact Hall].
Qed.

Lemma cancellable_open d : cancellable (JDict d) = Ok true -> open_buy d.
Proof.
  unfold cancellable, open_buy. cbn [get get_default rbind].
  fold (field d "side") (field d "status") (field d "order_id").
  destruct (is_str "buy" (field d "side")) eqn:Es; cbn [negb]; [| discriminate].
  apply is_str_true in Es. unfold field in Es.
  destruct (lookup "side" d) as [v |] eqn:El; [| discriminate Es]. subst v.
  destruct (is_none (field d "status")) eqn:En.
  - cbn [orb negb]. intros H. injection H as H.
    split; [reflexivity |]. split; [| exact H].
    left. destruct (field d "status"); try discriminate En. reflexivity.
  - destruct (is_str "NEW" (field d "status")) eqn:E1.
    + cbn [orb negb]. intros H. injection H as H.
      split; [reflexivity |]. split; [| exact H].
      right. left. now apply is_str_true.
    + destruct (is_str "OPEN" (field d "status")) eqn:E2;
        cbn [orb negb]; [| discriminate].
      intros H. injection H as H.
      split; [reflexivity |]. split; [| exact H].
      right. right. now apply is_str_true.
Qed.

Lemma cancel_each_safe api_key items :
  Forall (fun o => is_dict o = true) items ->
  forall s : St,
    exists s',
      cancel_each api_key items s = (Ok tt, s')
      /\ files s' = files s
      /\ exists reqs,
           sent s' = (sent s ++ reqs)%list
           /\ Forall (fun rq =>
                        rq_method rq = DELETE /\ rq_body rq = None
                        /\ exists d, In (JDict d) items /\ open_buy d
                             /\ In (rq_path rq)
                                  (cancel_paths (py_str (field d "order_id"))))
                reqs.
Proof.
  induction 1 as [| o rest Ho _ IH]; intros s.
  - exists s. cbn. split; [reflexivity |]. split; [reflexivity |].
    exists []. rewrite app_nil_r. split; [reflexivity | constructor].
  - destruct o as [| | | | | | d]; try discriminate Ho.
    assert (Hweak : forall s1 s' reqs0 reqs1,
              files s1 = files s -> sent s1 = (sent s ++ reqs0)%list ->
              Forall (fun rq =>
                        rq_method rq = DELETE /\ rq_body rq = None
                        /\ exists d0, In (JDict d0) (JDict d :: rest) /\ open_buy d0
                             /\ In (rq_path rq)
                                  (cancel_paths (py_str (field d0 "order_id"))))
                reqs0 ->
              cancel_each api_key rest s1 = (Ok tt, s') ->
              files s' = files s1 ->
              sent s' = (sent s1 ++ reqs1)%list ->
              Forall (fun rq =>
                        rq_method rq = DELETE /\ rq_body rq = None
                        /\ exists d0, In (JDict d0) rest /\ open_buy d0
                             /\ In (rq_path rq)
                                  (cancel_paths (py_str (field d0 "order_id"))))
                reqs1 ->
              exists s'',
                cancel_each api_key rest s1 = (Ok tt, s'')
                /\ files s'' = files s
                /\ exists reqs,
                     sent s'' = (sent s ++ reqs)%list
                     /\ Forall (fun rq =>
                          rq_method rq = DELETE /\ rq_body rq = None
                          /\ exists d0, In (JDict d0) (JDict d :: rest) /\ open_buy d0
                               /\ In (rq_path rq)
                                    (cancel_paths (py_str (field d0 "order_id"))))
                          reqs).
    { intros s1 s' reqs0 reqs1 Hf1 Hs1 Ha0 Hc Hf' Hs' Ha1.
      exists s'. split; [exact Hc |]. split; [congruence |].
      exists (reqs0 ++ reqs1)%list. rewrite Hs', Hs1, app_assoc.
      split; [reflexivity |]. apply Forall_app. split; [exact Ha0 |].
      eapply Forall_impl; [| exact Ha1].
      intros rq (Hm & Hb & d0 & Hin & Hob & Hp).
      split; [exact Hm | split; [exact Hb |]]. exists d0.
      split; [now right | split; assumption]. }
    cbn [cancel_each]. unfold bind at 1. unfold lift at 1.
    destruct (cancellable (JDict d)) as [go | e] eqn:Ec;
      [| unfold cancellable in Ec; cbn [get get_default rbind] in Ec;
         repeat (destruct (negb _) in Ec; try discriminate Ec)].
    destruct go.
    + apply cancellable_open in Ec.
      cbn [get get_default or_else]. fold (field d "order_id").
      unfold bind at 1. unfold try_except, bind at 1.
      destruct (cancel_order api_key (py_str (field d "order_id")) s)
        as [r s1] eqn:Eo.
      destruct (cancel_order_outcome_aux api_key _ _ _ _ Eo)
        as (Hf1 & reqs0 & Hs1 & Ha0).
      assert (Ha0' : Forall (fun rq =>
                        rq_method rq = DELETE /\ rq_body rq = None
                        /\ exists d0, In (JDict d0) (JDict d :: rest) /\ open_buy d0
                             /\ In (rq_path rq)
                                  (cancel_paths (py_str (field d0 "order_id"))))
                reqs0).
      { eapply Forall_impl; [| exact Ha0]. intros rq (Hm & Hp & Hb).
        split; [exact Hm | split; [exact Hb |]]. exists d.
        split; [now left | split; assumption]. }
      destruct r as [j | e]; rewrite print_say;
        match goal with |- context [cancel_each api_key rest ?s1'] =>
          destruct (IH s1') as (s' & Hc & Hf' & reqs1 & Hs' & Ha1);
          apply (Hweak s1' s' reqs0 reqs1); auto end.
    + unfold ret at 1.
      destruct (IH s) as (s' & Hc & Hf' & reqs1 & Hs' & Ha1).
      apply (Hweak s s' [] reqs1); auto.
      now rewrite app_nil_r.
Qed.


(** X8. For a store whose [orders] is a list of objects,
    [cancel_all_new_buys] raises nothing, whatever the exchange answers,
    and writes nothing; every request it sends is a body-less [DELETE] on
    a cancellation path of a buy record of the store that has an order id
    and status absent, [NEW] or [OPEN]. A store without [orders] is left
    alone. *)
Theorem cancel_all_new_buys_safe api_key sd (s : St) :
  (lookup "orders" sd = None ->
   cancel_all_new_buys api_key (JDict sd) s = (Ok tt, s))
  /\ (forall l,
        lookup "orders" sd = Some (JList l) ->
        Forall (fun o => is_dict o = true) l ->
        exists s',
          cancel_all_new_buys api_key (JDict sd) s = (Ok tt, s')
          /\ files s' = files s
          /\ exists reqs,
               sent s' = (sent s ++ reqs)%list
               /\ Forall (fun rq =>
                            rq_method rq = DELETE /\ rq_body rq = None
                            /\ exists d, In (JDict d) l /\ open_buy d
                                 /\ In (rq_path rq)
                                      (cancel_paths (py_str (field d "order_id"))))
                    reqs).
Proof.
  unfold cancel_all_new_buys. cbn [get_default]. split.
  - intros ->. reflexivity.
  - intros l -> Hl. unfold lift, bind. cbn [iter_items].
    exact (cancel_each_safe api_key l Hl s).
Qed.

(** ** Catalog and limits *)

Lemma lists_pair_test pair e :
  andb (is_dict e) (is_str pair (or_else (get e "symbol") JNull)) = true
  <-> lists_pair pair e.
Proof.
  split.
  - intros H. apply andb_prop in H. destruct H as [Hd Hs].
    destruct e as [| | | | | | d]; try discriminate Hd.
    apply is_str_true in Hs. cbn in Hs.
    exists d. split; [reflexivity |].
    destruct (lookup "symbol" d); [now subst | discriminate Hs].
  - intros (d & -> & Hs). cbn. rewrite Hs. cbn. apply String.eqb_refl.
Qed.

Lemma find_entry_spec pair entries :
  match find_entry entries pair with
  | Ok r => exists before after,
              entries = (before ++ r :: after)%list /\ lists_pair pair r
              /\ Forall (fun e => ~ lists_pair pair e) before
  | Raise e => e = RuntimeError /\ Forall (fun e => ~ lists_pair pair e) entries
  end.
Proof.
  induction entries as [| e es IH]; cbn [find_entry].
  - split; [reflexivity | constructor].
  - destruct (andb (is_dict e) (is_str pair (or_else (get e "symbol") JNull)))
      eqn:E.
    + apply lists_pair_test in E. exists [], es. repeat split; [exact E | constructor].
    + assert (Hno : ~ lists_pair pair e).
      { intros H. apply lists_pair_test in H. congruence. }
      destruct (find_entry es pair) as [r | err].
      * destruct IH as (before & after & -> & Hr & Hb).
        exists (e :: before), after. repeat split; [exact Hr |].
        constructor; assumption.
      * destruct IH as [-> Hall]. split; [reflexivity |]. constructor; assumption.
Qed.

(** X9. [find_symbol_record] returns the first entry of the catalog's
    [result] list that is an object whose [symbol] is the pair, exactly as
    it is listed; when no entry is, or when the catalog is not an object
    with a list under [result], it raises [RuntimeError] and nothing
    else. *)
Theorem find_symbol_record_first symbols pair :
  (forall r, find_symbol_record symbols pair = Ok r ->
     exists d before after,
       symbols = JDict d
       /\ lookup "result" d = Some (JList (before ++ r :: after))
       /\ lists_pair pair r
       /\ Forall (fun e => ~ lists_pair pair e) before)
  /\ (forall e, find_symbol_record symbols pair = Raise e -> e = RuntimeError)
  /\ (forall d entries,
        symbols = JDict d -> lookup "result" d = Some (JList entries) ->
        Exists (lists_pair pair) entries ->
        exists r, find_symbol_record symbols pair = Ok r).
Proof.
  unfold find_symbol_record. split; [| split].
  - intros r H.
    destruct symbols as [| | | | | | d]; try discriminate H.
    cbn [is_dict get get_default or_else] in H.
    destruct (lookup "result" d) as [v |] eqn:El; [| discriminate H].
    destruct v as [| | | | | entries |]; try discriminate H.
    pose proof (find_entry_spec pair entries) as Hs. rewrite H in Hs.
    destruct Hs as (before & after & -> & Hr & Hb).
    exists d, before, after. auto.
  - intros e H.
    destruct symbols as [| | | | | | d]; cbn [is_dict] in H;
      try (now injection H as <-).
    cbn [get get_default or_else] in H.
    destruct (lookup "result" d) as [v |]; [| now injection H as <-].
    destruct v as [| | | | | entries |]; try (now injection H as <-).
    pose proof (find_entry_spec pair entries) as Hs. rewrite H in Hs.
    apply Hs.
  - intros d entries -> Hl Hex. cbn [is_dict get get_default or_else].
    rewrite Hl.
    pose proof (find_entry_spec pair entries) as Hs.
    destruct (find_entry entries pair) as [r | e]; [eauto |].
    destruct Hs as [_ Hall]. exfalso.
    apply Exists_exists in Hex. destruct Hex as (x & Hin & Hx).
    rewrite Forall_forall in Hall. exact (Hall x Hin Hx).
Qed.

(** X10. The limits of an instrument record: a missing [lotSize] is
    [1e-6], a missing [minNotional] is [0.5], and a missing [minQty] is the
    lot size the record gives, not the default one. A field that is present
    is converted with [float]; if it does not convert (null, text that is no
    number, a list) the limits are not defaulted: the error is raised. *)
Theorem get_symbol_limits_defaults d :
  (forall lim, get_symbol_limits (JDict d) = Ok lim ->
     float_of (match lookup "lotSize" d with
               | Some v => v | None => JFloat (1 # 1000000) end) = Ok (lotSize lim)
     /\ float_of (match lookup "minQty" d with
                  | Some v => v | None => JFloat (lotSize lim) end) = Ok (minQty lim)
     /\ float_of (match lookup "minNotional" d with
                  | Some v => v | None => JFloat (1 # 2) end) = Ok (minNotional lim))
  /\ (forall k v e,
        In k ["lotSize"; "minQty"; "minNotional"] ->
        lookup k d = Some v -> float_of v = Raise e ->
        exists e', get_symbol_limits (JDict d) = Raise e')
  /\ (lookup "lotSize" d = None -> lookup "minQty" d = None ->
      lookup "minNotional" d = None ->
      get_symbol_limits (JDict d)
      = Ok {| lotSize := 1 # 1000000; minQty := 1 # 1000000; minNotional := 1 # 2 |}).
Proof.
  unfold get_symbol_limits. cbn [get_default rbind]. split; [| split].
  - intros lim H.
    destruct (float_of (match lookup "lotSize" d with
                        | Some x => x | None => JFloat (1 # 1000000) end))
      as [lot | e]; [| discriminate H].
    cbn [rbind] in H.
    destruct (float_of (match lookup "minQty" d with
                        | Some x => x | None => JFloat lot end))
      as [mq | e] eqn:Eq; [| discriminate H].
    cbn [rbind] in H.
    destruct (float_of (match lookup "minNotional" d with
                        | Some x => x | None => JFloat (1 # 2) end))
      as [mn | e] eqn:En; [| discriminate H].
    cbn [rbind] in H. injection H as <-. cbn [lotSize minQty minNotional].
    auto.
  - intros k v e Hk Hv He.
    destruct (float_of (match lookup "lotSize" d with
                        | Some x => x | None => JFloat (1 # 1000000) end))
      as [lot | e1] eqn:El; [| eexists; reflexivity].
    cbn [rbind].
    destruct (float_of (match lookup "minQty" d with
                        | Some x => x | None => JFloat lot end))
      as [mq | e2] eqn:Eq; [| eexists; reflexivity].
    cbn [rbind].
    destruct (float_of (match lookup "minNotional" d with
                        | Some x => x | None => JFloat (1 # 2) end))
      as [mn | e3] eqn:En; [| eexists; reflexivity].
    exfalso.
    destruct Hk as [<- | [<- | [<- | []]]];
      [rewrite Hv in El | rewrite Hv in Eq | rewrite Hv in En]; congruence.
  - intros -> -> ->. reflexivity.
Qed.


(** ** Reading the balance and the order id *)

Lemma first_float_hit r before k after v q :
  lookup k r = Some v -> float_of v = Ok q ->
  Forall (unreadable r) before ->
  first_float (JDict r) (before ++ k :: after) = Ok (Some q).
Proof.
  intros Hv Hq Hb. induction Hb as [| b bs Hb _ IH].
  - cbn [app first_float contains getitem rbind]. rewrite Hv. cbn [rbind].
    now rewrite Hq.
  - change ((b :: bs) ++ k :: after)%list with (b :: (bs ++ k :: after))%list.
    cbn [first_float contains getitem rbind]. unfold unreadable in Hb.
    destruct (lookup b r) as [w |]; cbn [rbind]; [| exact IH].
    destruct (float_of w); [discriminate | exact IH].
Qed.

(** X11. The available amount is read from the [result] object of the
    balance response under [available], else [free], else [total]: the
    first of these that is present and converts to a number is returned,
    without a warning and whatever the later ones hold; the caller's ceiling
    is not consulted. *)
Theorem extract_available_first_readable d r before k after v q fallback (s : St) :
  lookup "result" d = Some (JDict r) ->
  ["available"; "free"; "total"] = (before ++ k :: after)%list ->
  lookup k r = Some v -> float_of v = Ok q ->
  Forall (unreadable r) before ->
  extract_available_usdt (JDict d) fallback s = (Ok q, s).
Proof.
  intros Hr Hk Hv Hq Hb.
  unfold extract_available_usdt. cbn [is_dict get get_default rbind].
  rewrite Hr.
  assert (Ht : py_or (JDict r) (JDict []) = JDict r).
  { unfold py_or. destruct r; [discriminate Hv | reflexivity]. }
  rewrite Ht, Hk, (first_float_hit r before k after v q Hv Hq Hb).
  reflexivity.
Qed.

Lemma first_truthy_spec d keys :
  match first_truthy d keys with
  | Some v => exists before k after,
                keys = (before ++ k :: after)%list /\ lookup k d = Some v
                /\ truthy v = true /\ Forall (no_id d) before
  | None => Forall (no_id d) keys
  end.
Proof.
  induction keys as [| k ks IH]; cbn [first_truthy]; [constructor |].
  destruct (lookup k d) as [v |] eqn:El.
  - destruct (truthy v) eqn:Et.
    + exists [], k, ks. repeat split; [exact El | exact Et | constructor].
    + assert (Hk : no_id d k) by (unfold no_id, field; now rewrite El).
      destruct (first_truthy d ks) as [w |].
      * destruct IH as (before & k' & after & -> & Hl & Hw & Hb).
        exists (k :: before), k', after. repeat split; try assumption.
        constructor; assumption.
      * constructor; assumption.
  - assert (Hk : no_id d k) by (unfold no_id, field; now rewrite El).
    destruct (first_truthy d ks) as [w |].
    + destruct IH as (before & k' & after & -> & Hl & Hw & Hb).
      exists (k :: before), k', after. repeat split; try assumption.
      constructor; assumption.
    + constructor; assumption.
Qed.

Lemma first_truthy_hit d before k after v :
  lookup k d = Some v -> truthy v = true -> Forall (no_id d) before ->
  first_truthy d (before ++ k :: after) = Some v.
Proof.
  intros Hl Ht Hb. induction Hb as [| b bs Hb _ IH].
  - cbn. now rewrite Hl, Ht.
  - change ((b :: bs) ++ k :: after)%list with (b :: (bs ++ k :: after))%list.
    cbn [first_truthy]. unfold no_id, field in Hb.
    destruct (lookup b d) as [w |]; [| exact IH].
    now rewrite Hb.
Qed.

Lemma first_truthy_none d keys :
  Forall (no_id d) keys -> first_truthy d keys = None.
Proof.
  induction 1 as [| k ks Hk _ IH]; [reflexivity |].
  cbn [first_truthy]. unfold no_id, field in Hk.
  destruct (lookup k d) as [w |]; [| exact IH]. now rewrite Hk.
Qed.

(** X12. The order id taken from a response is absent or a string. An
    identifier at the top level wins over anything under [result]: it is
    the text of the first of [orderID], [orderId], [id], [clientOrderId],
    [dataId] that holds a truthy value. Only when the top level holds none
    is the same search made in the [result] object; a response that is not
    an object has no id. *)
Theorem extract_order_id_priority resp :
  (extract_order_id resp = JNull \/ exists s, extract_order_id resp = JStr s)
  /\ (is_dict resp = false -> extract_order_id resp = JNull)
  /\ (forall d before k after v,
        resp = JDict d -> id_keys = (before ++ k :: after)%list ->
        lookup k d = Some v -> truthy v = true -> Forall (no_id d) before ->
        extract_order_id resp = JStr (py_str v))
  /\ (forall d r before k after v,
        resp = JDict d -> Forall (no_id d) id_keys ->
        lookup "result" d = Some (JDict r) ->
        id_keys = (before ++ k :: after)%list ->
        lookup k r = Some v -> truthy v = true -> Forall (no_id r) before ->
        extract_order_id resp = JStr (py_str v))
  /\ (forall d, resp = JDict d -> Forall (no_id d) id_keys ->
        (forall r, lookup "result" d = Some (JDict r) -> Forall (no_id r) id_keys) ->
        extract_order_id resp = JNull).
Proof.
  split; [| split; [| split; [| split]]].
  - destruct resp as [| | | | | | d]; try (now left). cbn [extract_order_id].
    destruct (first_truthy d id_keys); [right; eauto |].
    destruct (lookup "result" d) as [[| | | | | | r] |]; try (now left).
    destruct (first_truthy r id_keys); [right; eauto | now left].
  - destruct resp; try reflexivity. discriminate.
  - intros d before k after v -> Hk Hl Ht Hb. cbn [extract_order_id].
    now rewrite Hk, (first_truthy_hit d before k after v Hl Ht Hb).
  - intros d r before k after v -> Hd Hr Hk Hl Ht Hb. cbn [extract_order_id].
    rewrite (first_truthy_none d _ Hd), Hr.
    now rewrite Hk, (first_truthy_hit r before k after v Hl Ht Hb).
  - intros d -> Hd Hr. cbn [extract_order_id].
    rewrite (first_truthy_none d _ Hd).
    destruct (lookup "result" d) as [[| | | | | | r] |]; try reflexivity.
    now rewrite (first_truthy_none r _ (Hr r eq_refl)).
Qed.


(** ** What the status pass stores *)

Lemma str_in_In s l : str_in s l = true -> In s l.
Proof.
  unfold str_in. intros H. apply existsb_exists in H.
  destruct H as (x & Hin & Hx). apply String.eqb_eq in Hx. now subst.
Qed.

Lemma lower_lower s : lower (lower s) = lower s.
Proof.
  unfold lower. induction s as [| c s IH]; [reflexivity |].
  cbn [map_string]. rewrite IH. f_equal.
  unfold lower_ascii at 1.
  destruct (andb (Nat.leb 65 (nat_of_ascii (lower_ascii c)))
                 (Nat.leb (nat_of_ascii (lower_ascii c)) 90)) eqn:E;
    [| reflexivity].
  exfalso. apply andb_prop in E. destruct E as [E1 E2].
  apply Nat.leb_le in E1. apply Nat.leb_le in E2.
  unfold lower_ascii in E1, E2.
  destruct (andb (Nat.leb 65 (nat_of_ascii c)) (Nat.leb (nat_of_ascii c) 90)) eqn:F.
  - apply andb_prop in F. destruct F as [F1 F2].
    apply Nat.leb_le in F1. apply Nat.leb_le in F2.
    rewrite nat_ascii_embedding in E1, E2 by lia. lia.
  - apply andb_false_iff in F.
    destruct F as [F | F]; apply Nat.leb_gt in F; lia.
Qed.

(** X13. The status that the pass computes is one of [FILLED], [NEW],
    [OPEN], [PARTIALLY_FILLED], [PARTIALLYFILLED], never [CLOSED]: the
    upstream words filled, done, closed and executed, in any letter case,
    all give [FILLED], and a reported status that is not a string (a
    number, say) gives no status at all but an [AttributeError]. *)
Theorem local_status_values :
  (forall norm filled_amount entry,
     In (local_status norm filled_amount entry) stored_statuses)
  /\ (forall status norm filled_amount entry,
        normalize status = Ok norm -> In norm filled_words ->
        local_status norm filled_amount entry = "FILLED")
  /\ (forall s, normalize (JStr s) = Ok (lower s)
                /\ normalize (JStr (lower s)) = normalize (JStr s))
  /\ (forall status, truthy status = true -> (forall s, status <> JStr s) ->
        normalize status = Raise AttributeError).
Proof.
  split; [| split; [| split]].
  - intros norm filled_amount entry. unfold local_status, stored_statuses.
    destruct (str_in norm filled_words); [now left |].
    destruct (str_in norm open_words) eqn:E.
    + apply str_in_In in E. unfold open_words in E.
      destruct E as [<- | [<- | [<- | [<- | []]]]]; cbn; tauto.
    + destruct (fully_filled filled_amount entry) as [[|] | e]; cbn; tauto.
  - intros status norm filled_amount entry _ Hin. unfold local_status.
    assert (E : str_in norm filled_words = true).
    { unfold str_in. apply existsb_exists. exists norm.
      split; [exact Hin | apply String.eqb_refl]. }
    now rewrite E.
  - intros s. unfold normalize, py_or. cbn [truthy].
    destruct (String.eqb s EmptyString) eqn:E.
    + apply String.eqb_eq in E. subst s. split; reflexivity.
    + cbn [negb]. split; [reflexivity |].
      destruct (String.eqb (lower s) EmptyString) eqn:E'.
      * apply String.eqb_eq in E'. cbn [negb].
        destruct s; [discriminate E | discriminate E'].
      * cbn [negb]. now rewrite lower_lower.
  - intros status Ht Hns. unfold normalize, py_or. rewrite Ht.
    destruct status; try reflexivity. exfalso. now apply (Hns s).
Qed.


Lemma local_status_values_aux :
  (forall norm filled_amount entry,
     In (local_status norm filled_amount entry) stored_statuses).
Proof.
  intros norm filled_amount entry. unfold local_status, stored_statuses.
  destruct (str_in norm filled_words); [now left |].
  destruct (str_in norm open_words) eqn:E.
  - apply str_in_In in E. unfold open_words in E.
    destruct E as [<- | [<- | [<- | [<- | []]]]]; cbn; tauto.
  - destruct (fully_filled filled_amount entry) as [[|] | e]; cbn; tauto.
Qed.

Section PassInvariants.

Variable api_key : option string.
Variable pair out_file : string.
Variable srec : json.

Lemma with_status_touch d new st k :
  ~ In k pass_fields -> lookup k (with_status d new st) = lookup k d.
Proof.
  intros H. apply with_status_other; intros ->; apply H; cbn; tauto.
Qed.

(** A completed check writes no field of the record but [status],
    [status_raw_response] and [linked_sell_order]; if it changes the
    record at all, the status it leaves is one of those the pass stores. *)
Lemma check_touches whole d entry' sells (s s' : St) :
  check_entry api_key pair out_file srec whole (JDict d) s
  = (Ok (entry', sells), s') ->
  exists d',
    entry' = JDict d'
    /\ (forall k, ~ In k pass_fields -> lookup k d' = lookup k d)
    /\ (d' = d \/ exists st, In st stored_statuses
                             /\ lookup "status" d' = Some (JStr st)).
Proof.
  assert (Hsame : exists d', JDict d = JDict d'
            /\ (forall k, ~ In k pass_fields -> lookup k d' = lookup k d)
            /\ (d' = d \/ exists st, In st stored_statuses
                                     /\ lookup "status" d' = Some (JStr st))).
  { exists d. split; [reflexivity |]. split; [reflexivity | now left]. }
  unfold check_entry, bind, lift, ret, print, try_reraising_denied.
  cbn [getitem get get_default].
  destruct (lookup "side" d) as [side |] eqn:Eside; [| discriminate].
  destruct (is_str "buy" side) eqn:Ebuy; cbn [negb];
    [| intros H; injection H as <- _ _; exact Hsame].
  destruct (orb _ _); [intros H; injection H as <- _ _; exact Hsame |].
  destruct (truthy _); cbn [negb];
    [| intros H; injection H as <- _ _; exact Hsame].
  destruct (update_status _ _ _ _ _ s) as [[[e1 avg] | err] s1] eqn:Eu.
  - assert (Hnew : exists new st, e1 = JDict (with_status d new st)
                                  /\ In new stored_statuses).
    { revert Eu. unfold update_status, bind, lift, ret, print, save_saved.
      destruct (get_order_status _ _ s) as [[st | e] s0]; [| discriminate].
      destruct (read_status st) as [[status avg0] filled].
      destruct (normalize status) as [norm | e]; [| discriminate].
      intros H. injection H as <- _ _. do 2 eexists.
      split; [reflexivity |]. apply local_status_values_aux. }
    destruct Hnew as (new & st & -> & Hin).
    assert (Hone : exists d', JDict (with_status d new st) = JDict d'
              /\ (forall k, ~ In k pass_fields -> lookup k d' = lookup k d)
              /\ (d' = d \/ exists st0, In st0 stored_statuses
                                        /\ lookup "status" d' = Some (JStr st0))).
    { eexists. split; [reflexivity |]. split; [intros; now apply with_status_touch |].
      right. exists new. split; [exact Hin | apply with_status_status]. }
    destruct (make_sell api_key pair out_file srec whole
                (JDict (with_status d new st)) avg s1)
      as [[[e2 sells2] | err] s2] eqn:Es.
    + intros H. injection H as <- _ _.
      apply sell_inv in Es.
      destruct Es as [[-> _] | (Hfilled & sell_id & sell & -> & _ & _)];
        [exact Hone |].
      eexists. split; [reflexivity |]. split.
      * intros k Hk. rewrite lookup_assign_other
          by (intros ->; apply Hk; cbn; tauto).
        now apply with_status_touch.
      * right. exists "FILLED". split; [now left |].
        rewrite lookup_assign_other by discriminate. exact Hfilled.
    + destruct err; try discriminate;
        intros H; injection H as <- _ _; exact Hone.
  - destruct err; try discriminate;
      intros H; injection H as <- _ _; exact Hsame.
Qed.

(** X14. A completed status pass never removes, reorders or replaces
    records: the list it leaves is the list it found, position by position,
    followed by the sell records it made. In each record it found it has
    written at most [status], [status_raw_response] and
    [linked_sell_order]; side, price, quantity, pair, order id and every
    other field are as before, and so is every other entry of the store
    document. *)
Theorem status_pass_appends sd l saved' (s s' : St) :
  lookup "orders" sd = Some (JList l) ->
  status_pass api_key pair out_file srec (JDict sd) s = (Ok saved', s') ->
  exists kept_part sells,
    saved' = JDict (assign "orders" (JList (kept_part ++ sells)) sd)
    /\ List.length kept_part = List.length l
    /\ Forall is_sell sells
    /\ (forall k, k <> "orders" ->
          lookup k (assign "orders" (JList (kept_part ++ sells)) sd) = lookup k sd)
    /\ (forall i d, nth_error l i = Some (JDict d) ->
          exists d',
            nth_error kept_part i = Some (JDict d')
            /\ (forall k, ~ In k pass_fields -> lookup k d' = lookup k d)
            /\ (d' = d \/ exists st, In st stored_statuses
                                     /\ lookup "status" d' = Some (JStr st))).
Proof.
  intros Ho. unfold status_pass. cbn [getitem]. rewrite Ho.
  unfold lift at 1. unfold bind at 1. unfold bind at 1.
  destruct (check_entries api_key pair out_file srec _ [] l [] s)
    as [[[done app] | err] s1] eqn:E1; [| discriminate].
  apply check_entries_spec in E1.
  destruct E1 as (results & sells & -> & -> & Hlen & Hs & _ & Hvisit).
  cbn [fst snd app]. unfold bind at 1.
  rewrite (appended_skipped _ _ _ _ _ sells Hs).
  unfold ret. cbn [fst snd]. intros H. injection H as <- _.
  exists results, sells. rewrite app_nil_r.
  split; [reflexivity |]. split; [exact Hlen |]. split; [exact Hs |]. split.
  - intros k Hk. now apply lookup_assign_other.
  - intros i d Hn.
    destruct (Hvisit i _ Hn) as (e' & whole & s0 & made & s2 & Hn' & Hc).
    destruct (check_touches _ _ _ _ _ _ Hc) as (d' & -> & Hk & Hst).
    exists d'. auto.
Qed.


Lemma with_status_settled d st :
  lookup "side" d = Some (JStr "buy") ->
  settled (JDict (with_status d "FILLED" st)).
Proof.
  intros Hs. eexists. split; [reflexivity |]. split.
  - now rewrite with_status_other by discriminate.
  - left. unfold field. now rewrite with_status_status.
Qed.

Lemma with_status_field d new st k :
  k <> "status" -> k <> "status_raw_response" ->
  field (with_status d new st) k = field d k.
Proof. intros H1 H2. unfold field. now rewrite with_status_other. Qed.

(** X15. A sell that cannot be placed is never placed later. When the
    placement of the sell for a fill fails, whatever the failure (a 401 or
    403 included: it does not end the run here), the check reports it and
    completes; the buy record is stored as [FILLED] with its link as it
    was, and in no later run is a sell made for it. *)
Theorem failed_sell_not_retried whole d st status avg_price filled_amount norm a q
    err (s s1 s2 : St) :
  pollable d ->
  get_order_status api_key (py_str (field d "order_id")) s = (Ok st, s1) ->
  read_status st = (status, avg_price, filled_amount) ->
  normalize status = Ok norm ->
  local_status norm filled_amount (JDict d) = "FILLED" ->
  truthy (field d "linked_sell_order") = false ->
  (if truthy avg_price then float_of avg_price
   else rbind (getitem (JDict d) "price") float_of) = Ok a ->
  rbind (getitem (JDict d) "quantity") float_of = Ok q ->
  let d1 := with_status d "FILLED" st in
  place_order api_key pair "sell" (a * (102 # 100)) q srec
    (say (INFO_status (field d "order_id") (JStr "FILLED"))
       (write out_file (whole (JDict d1) []) s1))
  = (Raise err, s2) ->
  check_entry api_key pair out_file srec whole (JDict d) s
  = (Ok (JDict d1, []), say (ERROR_sell err) s2)
  /\ settled (JDict d1)
  /\ field d1 "linked_sell_order" = field d "linked_sell_order"
  /\ files s2 out_file = Holds (whole (JDict d1) [])
  /\ forall visits, sells_over_runs (JDict d1) visits = [].
Proof.
  intros Hp Hget Hread Hnorm Hnew Hl Ha Hq d1 Hplace.
  assert (Hset : settled (JDict d1)) by (apply with_status_settled, Hp).
  split; [| split; [exact Hset | split; [| split]]].
  - rewrite (check_updates api_key pair out_file srec whole d st status avg_price
               filled_amount norm s s1 Hp Hget Hread Hnorm).
    rewrite Hnew. fold d1.
    pose proof (sell_placed api_key pair out_file srec whole d1 avg_price a q
                  (say (INFO_status (field d "order_id") (JStr "FILLED"))
                     (write out_file (whole (JDict d1) []) s1))) as Hs.
    unfold d1 in Hs at 2 3 4.
    rewrite (with_status_field d "FILLED" st "linked_sell_order") in Hs
      by discriminate.
    assert (Hg : forall k, k <> "status" -> k <> "status_raw_response" ->
                   getitem (JDict (with_status d "FILLED" st)) k = getitem (JDict d) k)
      by (intros k H1 H2; unfold getitem; now rewrite with_status_other).
    rewrite (Hg "price"), (Hg "quantity") in Hs by discriminate.
    specialize (Hs (with_status_status d "FILLED" st) Hl Ha Hq).
    rewrite Hplace in Hs.
    erewrite try_denied_ok; [reflexivity | exact Hs].
  - apply with_status_field; discriminate.
  - pose proof (place_order_files api_key srec pair "sell" (a * (102 # 100)) q
                  (say (INFO_status (field d "order_id") (JStr "FILLED"))
                     (write out_file (whole (JDict d1) []) s1))) as Hf.
    rewrite Hplace in Hf. cbn [snd] in Hf. rewrite Hf. cbn.
    now rewrite String.eqb_refl.
  - intros visits. now apply sells_over_settled.
Qed.

Lemma sell_unreadable_price whole d avg_price e (s : St) :
  lookup "status" d = Some (JStr "FILLED") ->
  truthy (field d "linked_sell_order") = false ->
  (if truthy avg_price then float_of avg_price
   else rbind (getitem (JDict d) "price") float_of) = Raise e ->
  make_sell api_key pair out_file srec whole (JDict d) avg_price s = (Raise e, s).
Proof.
  intros Hst Hl Ha. unfold make_sell.
  assert (Hgs : getitem (JDict d) "status" = Ok (JStr "FILLED"))
    by (cbn; now rewrite Hst).
  rewrite (bind_ok _ _ _ _ _ (lift_ok _ _ _ Hgs)).
  assert (Hgl : get (JDict d) "linked_sell_order" = Ok (field d "linked_sell_order"))
    by reflexivity.
  rewrite (bind_ok _ _ _ _ _ (lift_ok _ _ _ Hgl)).
  rewrite Hl. change (is_str "FILLED" (JStr "FILLED")) with true. cbn [andb negb].
  now rewrite (bind_raise _ _ _ _ _ (lift_raise _ _ _ Ha)).
Qed.


(** X16. A fill whose price cannot be read is recorded and never sold.
    When the record is found filled but the reported average price is
    truthy and does not convert to a number (or none is reported and the
    record's own price does not convert), the record has already been
    stored as [FILLED]; the check prints the error, sends no order, and in
    no later run is a sell made for the record. *)
Theorem fill_with_unreadable_price whole d st status avg_price filled_amount norm e
    (s s1 : St) :
  pollable d ->
  get_order_status api_key (py_str (field d "order_id")) s = (Ok st, s1) ->
  read_status st = (status, avg_price, filled_amount) ->
  normalize status = Ok norm ->
  local_status norm filled_amount (JDict d) = "FILLED" ->
  truthy (field d "linked_sell_order") = false ->
  (if truthy avg_price then float_of avg_price
   else rbind (getitem (JDict d) "price") float_of) = Raise e ->
  let d1 := with_status d "FILLED" st in
  let s1' := say (INFO_status (field d "order_id") (JStr "FILLED"))
               (write out_file (whole (JDict d1) []) s1) in
  check_entry api_key pair out_file srec whole (JDict d) s
  = (Ok (JDict d1, []), say (ERROR_status e) s1')
  /\ settled (JDict d1)
  /\ sent (say (ERROR_status e) s1') = sent s1
  /\ files (say (ERROR_status e) s1') out_file = Holds (whole (JDict d1) [])
  /\ forall visits, sells_over_runs (JDict d1) visits = [].
Proof.
  intros Hp Hget Hread Hnorm Hnew Hl Ha d1 s1'.
  assert (Hset : settled (JDict d1)) by (apply with_status_settled, Hp).
  split; [| split; [exact Hset | split; [reflexivity | split]]].
  - rewrite (check_updates api_key pair out_file srec whole d st status avg_price
               filled_amount norm s s1 Hp Hget Hread Hnorm).
    rewrite Hnew. fold d1. fold s1'.
    assert (Ha1 : (if truthy avg_price then float_of avg_price
                   else rbind (getitem (JDict d1) "price") float_of) = Raise e).
    { assert (Hg : getitem (JDict d1) "price" = getitem (JDict d) "price")
        by (unfold getitem, d1; now rewrite with_status_other by discriminate).
      now rewrite Hg. }
    assert (Hl1 : truthy (field d1 "linked_sell_order") = false)
      by (unfold d1; now rewrite with_status_field by discriminate).
    assert (Hne : e <> PermissionError).
    { intros ->. destruct (truthy avg_price).
      - exact (float_of_not_denied _ Ha).
      - exact (getitem_float_not_denied _ _ Ha). }
    erewrite try_denied_other;
      [| exact (sell_unreadable_price whole d1 avg_price e s1'
                  (with_status_status d "FILLED" st) Hl1 Ha1)
       | exact Hne].
    reflexivity.
  - cbn. now rewrite String.eqb_refl.
  - intros visits. now apply sells_over_settled.
Qed.

(** A check of an object that has a [side] can only fail by denial. *)
Lemma check_raise_denied whole d err (s s' : St) :
  lookup "side" d <> None ->
  check_entry api_key pair out_file srec whole (JDict d) s = (Raise err, s') ->
  err = PermissionError.
Proof.
  intros Hside.
  unfold check_entry, bind, lift, ret, print, try_reraising_denied.
  cbn [getitem get get_default].
  destruct (lookup "side" d) as [side |]; [| congruence].
  destruct (negb (is_str "buy" side)); [discriminate |].
  destruct (orb _ _); [discriminate |].
  destruct (negb (truthy _)); [discriminate |].
  destruct (update_status _ _ _ _ _ s) as [[[e1 avg] | e] s1] eqn:Eu.
  - destruct (make_sell api_key pair out_file srec whole e1 avg s1)
      as [[r | e] s2] eqn:Es; [discriminate |].
    destruct e; try discriminate. intros H. now injection H as <-.
  - destruct e; try discriminate. intros H. now injection H as <-.
Qed.

Lemma check_entries_raise store todo :
  Forall (fun e => exists d, e = JDict d /\ lookup "side" d <> None) todo ->
  forall done app err (s s' : St),
    check_entries api_key pair out_file srec store done todo app s
    = (Raise err, s') ->
    err = PermissionError.
Proof.
  induction 1 as [| e rest (d & -> & Hside) _ IH]; intros done app err s s' H.
  - discriminate H.
  - cbn [check_entries] in H. unfold bind at 1 in H.
    destruct (check_entry api_key pair out_file srec _ (JDict d) s)
      as [[r | e] s1] eqn:Ec.
    + exact (IH _ _ _ _ _ H).
    + injection H as <- _. exact (check_raise_denied _ _ _ _ _ Hside Ec).
Qed.

(** X17. On a store whose records are objects with a [side], the status
    pass fails only by denial: lookups that fail otherwise, statuses that
    are not text, prices that do not convert and sells that are refused are
    printed and passed over, and the only exception that leaves the pass is
    [PermissionError]. *)
Theorem status_pass_fails_only_by_denial sd l err (s s' : St) :
  lookup "orders" sd = Some (JList l) ->
  Forall (fun e => exists d, e = JDict d /\ lookup "side" d <> None) l ->
  status_pass api_key pair out_file srec (JDict sd) s = (Raise err, s') ->
  err = PermissionError.
Proof.
  intros Ho Hl. unfold status_pass. cbn [getitem]. rewrite Ho.
  unfold lift at 1. unfold bind at 1. unfold bind at 1.
  destruct (check_entries api_key pair out_file srec _ [] l [] s)
    as [[[done app] | e] s1] eqn:E1.
  - apply check_entries_spec in E1.
    destruct E1 as (results & sells & -> & -> & _ & Hs & _).
    cbn [fst snd app]. unfold bind at 1.
    rewrite (appended_skipped _ _ _ _ _ sells Hs). discriminate.
  - intros H. injection H as <- _.
    exact (check_entries_raise _ _ Hl _ _ _ _ _ E1).
Qed.

End PassInvariants.


(** ** The repair script *)

Lemma backfill_spec o o' b :
  backfill o = Ok (o', b) ->
  repaired o o'
  /\ (b = false -> o' = o)
  /\ (b = true -> exists d v,
        o = JDict d /\ truthy (field d "order_id") = false /\ truthy v = true
        /\ o' = JDict (assign "order_id" (JStr (py_str v)) d)).
Proof.
  destruct o as [| | | | | | d]; try discriminate.
  unfold backfill. cbn [get get_default rbind].
  fold (field d "order_id").
  assert (Hsame : repaired (JDict d) (JDict d)).
  { exists d, d. repeat split; auto. }
  destruct (truthy (field d "order_id")) eqn:Et.
  - intros H. injection H as <- <-.
    split; [exact Hsame |]. split; [reflexivity | discriminate].
  - destruct (truthy (raw_order_id _)) eqn:Er.
    + intros H. injection H as <- <-. split; [| split; [discriminate |]].
      * exists d, (assign "order_id" (JStr (py_str (raw_order_id
                    match lookup "created_raw_response" d with
                    | Some x => x | None => JDict [] end))) d).
        split; [reflexivity |]. split; [reflexivity |]. split; [| split].
        -- intros k Hk. now apply lookup_assign_other.
        -- rewrite Et. discriminate.
        -- right. eexists. apply lookup_assign_same.
      * intros _. exists d. eexists. repeat split; [exact Et | exact Er].
    + intros H. injection H as <- <-.
      split; [exact Hsame |]. split; [reflexivity | discriminate].
Qed.

Lemma backfill_all_spec items :
  forall items' n,
    backfill_all items = Ok (items', n) ->
    Forall2 repaired items items' /\ (n <= List.length items)%nat.
Proof.
  induction items as [| o rest IH]; intros items' n H.
  - cbn in H. injection H as <- <-. split; [constructor | cbn; lia].
  - cbn [backfill_all] in H.
    destruct (backfill o) as [[o' b] | e] eqn:Eb; [| discriminate H].
    cbn [rbind] in H.
    destruct (backfill_all rest) as [[rest' m] | e]; [| discriminate H].
    cbn [rbind fst snd] in H. injection H as <- <-.
    destruct (IH _ _ eq_refl) as [Hall Hm].
    split.
    + constructor; [apply (backfill_spec _ _ _ Eb) | exact Hall].
    + cbn [List.length]. destruct b; lia.
Qed.

Lemma fix_orders_failed path f (s s' : St) :
  fix_orders path s = (inl f, s') -> s' = s.
Proof.
  unfold fix_orders.
  destruct (files s path) as [| | data]; try (intros H; now injection H as _ <-).
  destruct (rbind _ _) as [[items changed] | e]; [discriminate |].
  intros H. now injection H as _ <-.
Qed.

(** X18. The repair script either fails and leaves everything as it was
    (no file, an unreadable file, or a store it cannot walk: nothing is
    written or printed), or rewrites the store file and only that file,
    sending nothing. In the rewritten store the records are the same in
    number and order; a record that had an order id is untouched, and in
    the others no field but [order_id] differs. The count it reports never
    exceeds the number of records. *)
Theorem fix_orders_outcome path (s : St) :
  (forall f s', fix_orders path s = (inl f, s') -> s' = s)
  /\ (forall n s', fix_orders path s = (inr n, s') ->
        exists data items,
          files s path = Holds data
          /\ files s' path = Holds (patched_document data items)
          /\ (forall f, f <> path -> files s' f = files s f)
          /\ sent s' = sent s /\ net s' = net s
          /\ out s' = (out s ++ [INFO ("Patched orders: " ++ show_nat n)])%list
          /\ (forall sd l, data = JDict sd -> lookup "orders" sd = Some (JList l) ->
                patched_document data items = JDict (assign "orders" (JList items) sd)
                /\ Forall2 repaired l items
                /\ (n <= List.length l)%nat)).
Proof.
  split; [intros f s'; apply fix_orders_failed |].
  intros n s'. unfold fix_orders.
  destruct (files s path) as [| | data] eqn:Ef; try discriminate.
  destruct (rbind (get_default data "orders" (JList []))
              (fun orders => rbind (iter_items orders) backfill_all))
    as [[items changed] | e] eqn:Eb; [| discriminate].
  intros H. injection H as <- <-.
  exists data, items. split; [reflexivity |]. split.
  - cbn. now rewrite String.eqb_refl.
  - split; [| split; [reflexivity | split; [reflexivity | split; [reflexivity |]]]].
    + intros f Hf. cbn. apply String.eqb_neq in Hf. now rewrite Hf.
    + intros sd l -> Hl. cbn [get_default rbind] in Eb. rewrite Hl in Eb.
      cbn [iter_items rbind] in Eb.
      destruct (backfill_all_spec _ _ _ Eb) as [Hall Hn].
      split; [| split; assumption].
      unfold patched_document. now rewrite Hl.
Qed.


Lemma py_or_falsy a b : truthy a = false -> truthy b = false ->
  truthy (py_or a b) = false.
Proof. intros Ha Hb. unfold py_or. now rewrite Ha. Qed.

Lemma no_id_keys d :
  Forall (no_id d) id_keys ->
  truthy (py_or (field d "orderID") (field d "orderId")) = false.
Proof.
  intros H. unfold id_keys in H.
  inversion H as [| ? ? H1 H']; subst. inversion H' as [| ? ? H2 _]; subst.
  now apply py_or_falsy.
Qed.

(** Where [extract_order_id] finds nothing, the repair script finds
    nothing either. *)
Lemma raw_order_id_none cr :
  extract_order_id cr = JNull -> truthy (raw_order_id cr) = false.
Proof.
  destruct cr as [| | | | | | c]; try reflexivity.
  cbn [extract_order_id raw_order_id].
  pose proof (first_truthy_spec c id_keys) as Hc.
  destruct (first_truthy c id_keys) as [v |]; [discriminate |].
  pose proof (no_id_keys c Hc) as Htop.
  assert (Hres : field c "result"
                 = match lookup "result" c with Some x => x | None => JNull end)
    by reflexivity.
  rewrite Hres.
  destruct (lookup "result" c) as [res |]; [| intros _; exact Htop].
  destruct res as [| | | | | | r]; try (intros _; exact Htop).
  rewrite Htop. cbn [negb].
  pose proof (first_truthy_spec r id_keys) as Hr.
  destruct (first_truthy r id_keys) as [v |]; [discriminate |].
  intros _. exact (no_id_keys r Hr).
Qed.

Lemma extract_order_id_shape resp :
  extract_order_id resp = JNull \/ exists s, extract_order_id resp = JStr s.
Proof.
  destruct resp as [| | | | | | d]; try (now left). cbn [extract_order_id].
  destruct (first_truthy d id_keys); [right; eauto |].
  destruct (lookup "result" d) as [[| | | | | | r] |]; try (now left).
  destruct (first_truthy r id_keys); [right; eauto | now left].
Qed.

Lemma extract_order_id_found resp s :
  extract_order_id resp = JStr s ->
  exists v, truthy v = true /\ s = py_str v.
Proof.
  destruct resp as [| | | | | | d]; try discriminate. cbn [extract_order_id].
  pose proof (first_truthy_spec d id_keys) as Hd.
  destruct (first_truthy d id_keys) as [v |].
  - destruct Hd as (_ & _ & _ & _ & _ & Hv & _).
    intros H. injection H as <-. eauto.
  - destruct (lookup "result" d) as [[| | | | | | r] |]; try discriminate.
    pose proof (first_truthy_spec r id_keys) as Hr.
    destruct (first_truthy r id_keys) as [v |]; [| discriminate].
    destruct Hr as (_ & _ & _ & _ & _ & Hv & _).
    intros H. injection H as <-. eauto.
Qed.

Lemma backfill_own o : str_nonempty -> own_id o -> backfill o = Ok (o, false).
Proof.
  intros Hstr (d & -> & Hid). unfold backfill. cbn [get get_default rbind].
  fold (field d "order_id").
  destruct (truthy (field d "order_id")) eqn:Et; [reflexivity |].
  assert (Hnone : extract_order_id (field d "created_raw_response") = JNull).
  { destruct (extract_order_id_shape (field d "created_raw_response"))
      as [Hn | (s0 & Hs)]; [exact Hn |].
    exfalso. rewrite Hid in Et.
    destruct (extract_order_id_found _ _ Hs) as (v & Hv & ->).
    rewrite Hs in Et. rewrite (Hstr v Hv) in Et. discriminate. }
  assert (Hraw : truthy (raw_order_id
                   match lookup "created_raw_response" d with
                   | Some x => x | None => JDict [] end) = false).
  { unfold field in Hnone.
    destruct (lookup "created_raw_response" d) as [cr |];
      [now apply raw_order_id_none | reflexivity]. }
  now rewrite Hraw.
Qed.

Lemma backfill_all_own items :
  str_nonempty -> Forall own_id items ->
  backfill_all items = Ok (items, 0%nat).
Proof.
  intros Hstr. induction 1 as [| o rest Ho _ IH]; [reflexivity |].
  cbn [backfill_all]. rewrite (backfill_own o Hstr Ho). cbn [rbind].
  rewrite IH. reflexivity.
Qed.

(** X19. The repair script has nothing to repair in a store written by
    [run_lab]: a buy or sell record is created with the order id that
    [extract_order_id] finds in the response kept with it, and on a store
    of such records the script patches none and writes the store back as it
    was. (It looks for [orderID] and [orderId] only, at the top level and
    under [result], where [extract_order_id] has already looked.) *)
Theorem fix_orders_nothing_to_repair :
  str_nonempty ->
  (forall price qty pair resp t,
     own_id (buy_entry price qty pair (extract_order_id resp) resp t))
  /\ (forall price qty pair resp linked t,
        own_id (sell_entry price qty pair (extract_order_id resp) resp linked t))
  /\ (forall path sd l (s : St),
        files s path = Holds (JDict sd) ->
        lookup "orders" sd = Some (JList l) ->
        Forall own_id l ->
        fix_orders path s
        = (inr 0%nat,
           say (INFO ("Patched orders: " ++ show_nat 0)) (write path (JDict sd) s))).
Proof.
  intros Hstr. split; [| split].
  - intros. eexists. split; reflexivity.
  - intros. eexists. split; reflexivity.
  - intros path sd l s Hf Hl Hown. unfold fix_orders. rewrite Hf.
    cbn [get_default rbind]. rewrite Hl. cbn [iter_items rbind].
    rewrite (backfill_all_own l Hstr Hown).
    unfold patched_document. rewrite Hl, (assign_same _ _ _ Hl). reflexivity.
Qed.


Lemma backfill_again o o' b :
  str_nonempty -> backfill o = Ok (o', b) -> backfill o' = Ok (o', false).
Proof.
  intros Hstr H. destruct (backfill_spec _ _ _ H) as (_ & Hf & Ht).
  destruct b.
  - destruct (Ht eq_refl) as (d & v & -> & _ & Hv & ->).
    unfold backfill. cbn [get get_default rbind].
    rewrite lookup_assign_same. now rewrite (Hstr v Hv).
  - rewrite (Hf eq_refl) in H |- *. exact H.
Qed.

Lemma backfill_all_again items :
  str_nonempty ->
  forall items' n, backfill_all items = Ok (items', n) ->
                   backfill_all items' = Ok (items', 0%nat).
Proof.
  intros Hstr. induction items as [| o rest IH]; intros items' n H.
  - cbn in H. now injection H as <- _.
  - cbn [backfill_all] in H.
    destruct (backfill o) as [[o' b] | e] eqn:Eb; [| discriminate H].
    cbn [rbind] in H.
    destruct (backfill_all rest) as [[rest' m] | e]; [| discriminate H].
    cbn [rbind fst snd] in H. injection H as <- _.
    cbn [backfill_all]. rewrite (backfill_again _ _ _ Hstr Eb). cbn [rbind].
    rewrite (IH _ _ eq_refl). reflexivity.
Qed.

Lemma backfill_all_texts items items' n :
  Forall (fun o => is_dict o = false) items ->
  backfill_all items = Ok (items', n) -> items' = [] /\ n = 0%nat.
Proof.
  intros Hall H. destruct Hall as [| o rest Ho _].
  - cbn in H. now injection H as <- <-.
  - cbn [backfill_all] in H. destruct o; try discriminate Ho; discriminate H.
Qed.

Lemma iter_items_texts v items :
  (forall l, v <> JList l) -> iter_items v = Ok items ->
  Forall (fun o => is_dict o = false) items.
Proof.
  intros Hv H. destruct v as [| | | | str | l | od]; try discriminate H.
  - cbn in H. injection H as <-. clear Hv.
    induction str; cbn; constructor; auto.
  - exfalso. now apply (Hv l).
  - cbn in H. injection H as <-. clear Hv.
    induction od; cbn; constructor; auto.
Qed.

(** X20. Running the repair script again changes nothing: after a run
    that completed, a second run patches no record and writes the store
    back as the first run left it. *)
Theorem fix_orders_idempotent path n (s s1 : St) :
  str_nonempty ->
  fix_orders path s = (inr n, s1) ->
  exists s2,
    fix_orders path s1 = (inr 0%nat, s2)
    /\ forall f, files s2 f = files s1 f.
Proof.
  intros Hstr. unfold fix_orders at 1.
  destruct (files s path) as [| | data] eqn:Ef; try discriminate.
  destruct (rbind (get_default data "orders" (JList []))
              (fun orders => rbind (iter_items orders) backfill_all))
    as [[items changed] | e] eqn:Eb; [| discriminate].
  intros H. injection H as <- Hs1.
  set (data' := patched_document data items) in *.
  assert (Hagain :
            rbind (get_default data' "orders" (JList []))
              (fun orders => rbind (iter_items orders) backfill_all)
            = Ok (items, 0%nat)
            /\ patched_document data' items = data').
  { destruct data as [| | | | | | sd]; try discriminate Eb.
    unfold data', patched_document. cbn [get_default rbind] in Eb |- *.
    destruct (lookup "orders" sd) as [v |] eqn:El.
    - destruct v as [| | | | | l |];
        try (cbn [get_default rbind]; rewrite El; cbn [rbind];
             cbn [rbind] in Eb;
             destruct (iter_items _) as [its |] eqn:Ei in Eb;
               [| discriminate Eb];
             cbn [rbind] in Eb;
             assert (Ht : Forall (fun o => is_dict o = false) its)
               by (eapply iter_items_texts; [| exact Ei]; discriminate);
             destruct (backfill_all_texts _ _ _ Ht Eb) as [-> ->];
             rewrite Ei; cbn [rbind];
             rewrite Eb; split; reflexivity).
      cbn [iter_items rbind] in Eb.
      cbn [get_default rbind]. rewrite lookup_assign_same.
      cbn [iter_items rbind].
      rewrite (backfill_all_again l Hstr _ _ Eb).
      split; [reflexivity |]. now rewrite assign_assign.
    - cbn [get_default rbind]. rewrite El.
      cbn [iter_items rbind backfill_all] in Eb |- *.
      injection Eb as <- <-. split; reflexivity. }
  destruct Hagain as [Hrun Hdoc].
  assert (Hfile : files s1 path = Holds data')
    by (rewrite <- Hs1; cbn; now rewrite String.eqb_refl).
  eexists. unfold fix_orders. rewrite Hfile, Hrun.
  split; [reflexivity |].
  intros f. rewrite Hdoc. cbn.
  destruct (String.eqb_spec f path) as [-> |]; [now rewrite Hfile | reflexivity].
Qed.


(** ** The proof-of-work script *)

Section ProofOfWorkProperties.

Variable sha256_hex : string -> string.
Variable int_of_text : string -> option Z.

Local Abbreviation hits := (hit sha256_hex).

Lemma search_spec h p fuel : forall number attempts att n,
  search sha256_hex h p fuel number attempts = Some (att, n) ->
  (number <= n < number + fuel)%nat
  /\ hits h p n
  /\ (forall m, (number <= m < n)%nat -> ~ hits h p m)
  /\ att = (S attempts + (n - number))%nat.
Proof.
  induction fuel as [| fuel IH]; intros number attempts att n H;
    [discriminate H |].
  cbn [search] in H.
  destruct (String.prefix p (sha256_hex (pow_input h number))) eqn:Eh.
  - injection H as <- <-.
    split; [lia |]. split; [exact Eh |]. split; [intros m Hm; lia | lia].
  - destruct (IH _ _ _ _ H) as (Hr & Hn & Hmin & Hatt).
    split; [lia |]. split; [exact Hn |]. split; [| lia].
    intros m Hm. destruct (Nat.eq_dec m number) as [-> | Hne].
    + unfold hit. now rewrite Eh.
    + apply Hmin. lia.
Qed.

Lemma search_finds h p fuel : forall number attempts n,
  (number <= n < number + fuel)%nat -> hits h p n ->
  exists m, (number <= m <= n)%nat
            /\ search sha256_hex h p fuel number attempts
               = Some ((S attempts + (m - number))%nat, m).
Proof.
  induction fuel as [| fuel IH]; intros number attempts n Hr Hn; [lia |].
  cbn [search].
  destruct (String.prefix p (sha256_hex (pow_input h number))) eqn:Eh.
  - exists number. split; [lia |]. do 2 f_equal. lia.
  - assert (Hne : n <> number) by (intros ->; unfold hit in Hn; congruence).
    destruct (IH (S number) (S attempts) n ltac:(lia) Hn) as (m & Hm & Hs).
    exists m. split; [lia |]. rewrite Hs. do 2 f_equal. lia.
Qed.

Lemma read_zero_max_spec lines : forall k,
  read_zero_max int_of_text lines = inr k ->
  (1 <= k <= 5)%Z
  /\ exists skipped l rest,
       lines = (skipped ++ l :: rest)%list
       /\ Forall (out_of_range int_of_text) skipped
       /\ int_of_text l = Some k.
Proof.
  induction lines as [| l rest IH]; intros k H; [discriminate H |].
  cbn [read_zero_max] in H.
  destruct (int_of_text l) as [z |] eqn:El; [| discriminate H].
  destruct (andb (1 <=? z)%Z (z <=? 5)%Z) eqn:Ez.
  - injection H as <-. split; [lia |].
    exists [], l, rest. split; [reflexivity |]. split; [constructor | exact El].
  - destruct (IH _ H) as (Hk & skipped & l' & rest' & -> & Hall & Hl').
    split; [exact Hk |].
    exists (l :: skipped), l', rest'. split; [reflexivity |].
    split; [| exact Hl'].
    constructor; [| exact Hall]. exists z. split; [exact El | lia].
Qed.

(** X21. What the proof-of-work script prints is sound: the number of
    zeros is the first input line after the text that reads as a number
    from 1 to 5 (the lines before it read as numbers outside that range),
    the nonce is the least natural number whose digest starts with that
    many zeros, and the attempt count is the nonce plus one. *)
Theorem proof_of_work_least_nonce stdin fuel k attempts nonce :
  proof_of_work sha256_hex int_of_text stdin fuel = inr (Some (k, attempts, nonce)) ->
  exists hash_object skipped l rest,
    stdin = (hash_object :: skipped ++ l :: rest)%list
    /\ Forall (out_of_range int_of_text) skipped
    /\ int_of_text l = Some k
    /\ (1 <= k <= 5)%Z
    /\ hits hash_object (zeros (Z.to_nat k)) nonce
    /\ (forall m, (m < nonce)%nat -> ~ hits hash_object (zeros (Z.to_nat k)) m)
    /\ attempts = S nonce.
Proof.
  unfold proof_of_work. destruct stdin as [| h lines]; [discriminate |].
  destruct (read_zero_max int_of_text lines) as [e | z] eqn:Er; [discriminate |].
  destruct (search sha256_hex h (zeros (Z.to_nat z)) fuel 0 0)
    as [[att n] |] eqn:Es; [| discriminate].
  cbn [option_map fst snd]. intros H. injection H as <- <- <-.
  destruct (read_zero_max_spec _ _ Er) as (Hk & skipped & l & rest & -> & Hall & Hl).
  destruct (search_spec _ _ _ _ _ _ _ Es) as (_ & Hn & Hmin & Hatt).
  exists h, skipped, l, rest.
  split; [reflexivity |]. split; [exact Hall |]. split; [exact Hl |].
  split; [exact Hk |]. split; [exact Hn |].
  split; [intros m Hm; apply Hmin; lia | lia].
Qed.

(** X22. The search of the proof-of-work script succeeds whenever it can:
    if some nonce below the number of rounds allowed has a digest with
    the wanted zeros, the script prints a result, and its nonce is not
    above that one. With no such nonce below the bound nothing is printed
    within it. *)
Theorem proof_of_work_finds hash_object lines fuel k :
  read_zero_max int_of_text lines = inr k ->
  (forall n, (n < fuel)%nat -> hits hash_object (zeros (Z.to_nat k)) n ->
     exists m, (m <= n)%nat
       /\ proof_of_work sha256_hex int_of_text (hash_object :: lines) fuel
          = inr (Some (k, S m, m)))
  /\ ((forall n, (n < fuel)%nat -> ~ hits hash_object (zeros (Z.to_nat k)) n) ->
      proof_of_work sha256_hex int_of_text (hash_object :: lines) fuel = inr None).
Proof.
  intros Er. unfold proof_of_work. rewrite Er. split.
  - intros n Hfuel Hn.
    destruct (search_finds hash_object (zeros (Z.to_nat k)) fuel 0 0 n
                ltac:(lia) Hn) as (m & Hm & Hs).
    exists m. split; [lia |]. rewrite Hs. cbn [option_map fst snd].
    do 4 f_equal. lia.
  - intros Hnone.
    destruct (search sha256_hex hash_object (zeros (Z.to_nat k)) fuel 0 0)
      as [[att n] |] eqn:Es; [| reflexivity].
    destruct (search_spec _ _ _ _ _ _ _ Es) as (Hr & Hn & _).
    exfalso. apply (Hnone n); [lia | exact Hn].
Qed.

End ProofOfWorkProperties.


End Properties.

(** * Concrete runs *)


(** The balance endpoint fails entirely (every header variant fails at
    transport level), or answers 500: the run ends in [RuntimeError] after
    the balance requests, with no fallback warning and nothing else sent. *)
Lemma balance_fetch_failure_is_fatal :
  let dead := start (X := scripted) [] no_files in
  let down := start (X := scripted) [reply 500 JNull] no_files in
  let run := run_lab (Some "key") "TRX/USDT" 5 "orders.json" in
  fst (run dead) = Raise RuntimeError
  /\ out (snd (run dead))
     = INFO "balance" :: repeat (WARN_network GET "/api/user/balances/USDT") 5
  /\ map rq_path (sent (snd (run dead))) = repeat "/api/user/balances/USDT" 5
  /\ fst (run down) = Raise RuntimeError
  /\ out (snd (run down)) = [INFO "balance"]
  /\ map rq_path (sent (snd (run down))) = ["/api/user/balances/USDT"].
Proof. vm_compute. repeat split. Qed.

Lemma balance_failure_aborts_run_witness :
  run_lab (X := scripted) (Some "key") "TRX/USDT" 5 "orders.json"
    (start (X := scripted) [reply 200 (JDict [("result", JDict [("locked", JStr "1")])])] no_files)
  = run_with_funds (X := scripted) (Some "key") "TRX/USDT" 5 "orders.json" 5
      (say WARN_balance_fallback
         (say (INFO "balance raw")
            (@Build_St scripted []
               [{| rq_method := GET; rq_path := "/api/user/balances/USDT";
                   rq_auth := XApiKey "key"; rq_body := None |}]
               [INFO "balance"] no_files))).
Proof.
  eapply (proj2 (proj2 (proj2
           (balance_failure_aborts_run (X := scripted) (Some "key") "TRX/USDT" 5
              "orders.json" (start (X := scripted) [reply 200 (JDict [("result", JDict [("locked", JStr "1")])])] no_files))))).
  - reflexivity.
  - vm_compute. repeat split.
Defined.


Example three_tiers :
  fst (size_orders (X := scripted) 10 soft_limits 1 (start (X := scripted) [] no_files))
  = Ok [(1 * (98 # 100), 10 / 3 / (1 * (98 # 100)));
        (1 * (95 # 100), 10 / 3 / (1 * (95 # 100)));
        (1 * (92 # 100), 10 / 3 / (1 * (92 # 100)))].
Proof. reflexivity. Qed.

Example single_tier :
  usable_funds 1 10 = Ok 1
  /\ fst (size_orders (X := scripted) 1 soft_limits 1 (start (X := scripted) [] no_files))
     = Ok [(1 * (98 # 100), 1 / (1 * (98 # 100)))].
Proof. split; reflexivity. Qed.

Lemma floored_quantity_below_minimum_witness : floor_to_lot 7 10 = Ok 0.
Proof.
  apply (proj1 (proj2 (floored_quantity_below_minimum (X := scripted))));
    [vm_compute; discriminate | reflexivity].
Defined.

Lemma reference_price_resolution_witness :
  fst (find_best_bid_price (X := scripted) (Some "key") "TRX/USDT"
         (start (X := scripted) [reply 200 trx_catalog] no_files))
  = Ok (3 # 2).
Proof.
  pose (s0 := start (X := scripted) [reply 200 trx_catalog] no_files).
  destruct (reference_price_resolution (X := scripted) (Some "key") "TRX/USDT"
              trx_catalog trx_record s0
              (snd (get_symbols (X := scripted) (Some "key") s0))
              eq_refl eq_refl) as (_ & H & _).
  fold s0.
  rewrite (H ["bid"; "bestBid"] "last" ["price"] (3 # 2) eq_refl).
  - reflexivity.
  - exists (JStr "1.5"). repeat split.
  - intros k' p' [<- | [<- | []]] (v & Ev & Ef & Hp).
    + injection Ev as <-. injection Ef as <-. discriminate Hp.
    + discriminate Ev.
Defined.



(** A filled record is passed over. *)
Lemma sell_generated_at_most_once_witness :
  let v := {| v_key := key; v_pair := "TRX/USDT"; v_file := "orders.json";
              v_srec := JDict []; v_whole := lone;
              v_state := start (X := scripted) [reply 200 filled_reply] no_files |} in
  check_in v (JDict (placed_buy "FILLED")) = (Ok (JDict (placed_buy "FILLED"), []), v_state v).
Proof.
  intros v.
  apply (proj1 (sell_generated_at_most_once (X := scripted))).
  exists (placed_buy "FILLED"). repeat split. left. reflexivity.
Defined.

(** Two runs over the same record, the exchange reporting it filled both
    times: one sell record in all. *)
Example filled_twice_sold_once :
  let visit_with script :=
    {| v_key := key; v_pair := "TRX/USDT"; v_file := "orders.json";
       v_srec := JDict []; v_whole := lone;
       v_state := start (X := scripted) script no_files |} in
  List.length
    (sells_over_runs (JDict (placed_buy "NEW"))
       [visit_with [reply 200 filled_reply; reply 200 (JDict [("orderID", JStr "S1")])];
        visit_with [reply 200 filled_reply; reply 200 (JDict [("orderID", JStr "S2")])]])
  = 1%nat.
Proof. reflexivity. Qed.

(** Placement answered 403: the loop stops there. *)
Lemma denied_placement_aborts_run_witness :
  fst (place_buys (X := scripted) key "TRX/USDT" "orders.json" (JDict [])
         [(98 # 100, 3); (95 # 100, 3)] empty_store
         (start (X := scripted) [reply 403 JNull] no_files))
  = Raise PermissionError.
Proof.
  pose (s0 := start (X := scripted) [reply 403 JNull] no_files).
  destruct (denied_placement_aborts_run (X := scripted) key "TRX/USDT" "orders.json"
              (JDict [])) as (_ & H & _).
  destruct (H (98 # 100) 3 [(95 # 100, 3)] empty_store s0
              (snd (place_order (X := scripted) key "TRX/USDT" "buy" (98 # 100) 3
                      (JDict []) s0)) eq_refl) as [Hb _].
  fold s0. rewrite Hb. reflexivity.
Defined.

(** Three candidates; the first is placed, the second is answered 403.
    Two requests were sent, the third candidate was never tried, and the
    store file holds the one placed order with status [NEW]. *)
Example placed_then_denied :
  let r := place_buys (X := scripted) key "TRX/USDT" "orders.json" (JDict [])
             [(98 # 100, 3); (95 # 100, 3); (92 # 100, 3)] empty_store
             (start (X := scripted)
                [reply 200 (JDict [("orderID", JStr "B1")]); reply 403 JNull;
                 reply 200 (JDict [("orderID", JStr "B3")])] no_files) in
  fst r = Raise PermissionError
  /\ map rq_body (sent (snd r))
     = [Some {| b_symbol := "TRX/USDT"; b_side := "buy"; b_type := "limit";
                b_price := 49 # 50; b_quantity := 3 |};
        Some {| b_symbol := "TRX/USDT"; b_side := "buy"; b_type := "limit";
                b_price := 19 # 20; b_quantity := 3 |}]
  /\ net (snd r) = [reply 200 (JDict [("orderID", JStr "B3")])]
  /\ exists d, files (snd r) "orders.json" = Holds (JDict [("orders", JList [JDict d])])
               /\ field d "order_id" = JStr "B1"
               /\ field d "status" = JStr "NEW".
Proof. vm_compute. repeat split. eexists. repeat split. Qed.

Example full_run :
  let r := run_lab (X := scripted) key "TRX/USDT" 10 "orders.json"
             (start (X := scripted) full_script no_files) in
  option_map (fun saved => map summary (orders_of saved))
    (match fst r with Ok saved => Some saved | Raise _ => None end)
  = Some [(JStr "buy", JStr "B1", JStr "NEW", JNull);
          (JStr "buy", JStr "B2", JStr "OPEN", JNull);
          (JStr "buy", JStr "B3", JStr "FILLED", JStr "S3");
          (JStr "sell", JStr "S3", JStr "NEW", JStr "B3")]
  /\ net (snd r) = []
  /\ (exists saved, fst r = Ok saved
                    /\ files (snd r) "orders.json" = Holds saved).
Proof. vm_compute. repeat split. eexists. split; reflexivity. Qed.

(** A store file that parses, but not to an object, is loaded as it is;
    the run then stops at the first use of the store. *)
Example misshapen_store :
  let fs := fun f : string => if String.eqb f "orders.json" then Holds (JList [])
                              else Missing in
  fst (load_saved (X := scripted) "orders.json" (start (X := scripted) [] fs))
  = Ok (JList [])
  /\ ensure_orders (JList []) = Raise TypeError.
Proof. split; reflexivity. Qed.

(** ** Further runs *)

Lemma scripted_str_nonempty : str_nonempty (X := scripted).
Proof. intros v Hv. destruct v; solve [exact Hv | reflexivity]. Qed.

(** 1.05555 at two decimals. *)
Lemma round_price_half_unit_witness :
  round_price (-1) (-1) = Raise ValueError
  /\ exists p,
       round_price (21111 # 20000) 2 = Ok p
       /\ (exists k : Z, p == inject_Z k / inject_Z (10 ^ 2))
       /\ p - (21111 # 20000) <= (1 # 2) / inject_Z (10 ^ 2)
       /\ (21111 # 20000) - p <= (1 # 2) / inject_Z (10 ^ 2)
       /\ exists p', round_price p 2 = Ok p' /\ p' == p.
Proof.
  split.
  - apply (proj1 (round_price_half_unit (-1) (-1))). lia.
  - apply (proj2 (round_price_half_unit (21111 # 20000) 2)). lia.
Defined.




(** A lookup answered with the filled status at once. *)
Lemma get_order_status_outcome_witness :
  let s0 := start (X := scripted) [reply 200 filled_reply] no_files in
  let r := get_order_status (X := scripted) key "B1" s0 in
  files (snd r) = files s0
  /\ (forall e, fst r = Raise e -> e = PermissionError \/ e = RuntimeError)
  /\ exists reqs,
       sent (snd r) = (sent s0 ++ reqs)%list
       /\ Forall (fun rq => rq_method rq = GET
                            /\ In (rq_path rq)
                                 ["/api/orders/" ++ "B1";
                                  "/api/user/orders/" ++ "B1";
                                  "/api/orders?id=" ++ "B1"]
                            /\ rq_body rq = None) reqs.
Proof.
  intros s0 r.
  apply (get_order_status_outcome (X := scripted) key "B1" s0 (fst r) (snd r)).
  reflexivity.
Defined.

(** A cancellation denied on the first path and accepted on the second. *)
Lemma cancel_order_outcome_witness :
  let s0 := start (X := scripted) [reply 403 JNull; reply 200 JNull] no_files in
  let r := cancel_order (X := scripted) key "B1" s0 in
  files (snd r) = files s0
  /\ (forall e, fst r = Raise e -> e = RuntimeError)
  /\ exists reqs,
       sent (snd r) = (sent s0 ++ reqs)%list
       /\ Forall (fun rq => rq_method rq = DELETE
                            /\ In (rq_path rq) (cancel_paths "B1")
                            /\ rq_body rq = None) reqs.
Proof.
  intros s0 r.
  apply (cancel_order_outcome (X := scripted) key "B1" s0 (fst r) (snd r)).
  reflexivity.
Defined.

(** One open buy in the store, and an exchange that does not answer. *)
Lemma cancel_all_new_buys_safe_witness :
  let sd := [("orders", JList [JDict (placed_buy "NEW")])] in
  let s0 := start (X := scripted) [] no_files in
  exists s',
    cancel_all_new_buys (X := scripted) key (JDict sd) s0 = (Ok tt, s')
    /\ files s' = files s0
    /\ exists reqs,
         sent s' = (sent s0 ++ reqs)%list
         /\ Forall (fun rq =>
                      rq_method rq = DELETE /\ rq_body rq = None
                      /\ exists d, In (JDict d) [JDict (placed_buy "NEW")]
                           /\ open_buy d
                           /\ In (rq_path rq)
                                (cancel_paths (py_str (X := scripted) (field d "order_id"))))
              reqs.
Proof.
  intros sd s0.
  apply (proj2 (cancel_all_new_buys_safe (X := scripted) key sd s0)
           [JDict (placed_buy "NEW")]);
    [reflexivity | repeat constructor].
Defined.

Lemma find_symbol_record_first_witness :
  exists d before after,
    trx_catalog = JDict d
    /\ lookup "result" d = Some (JList (before ++ JDict trx_record :: after))
    /\ lists_pair "TRX/USDT" (JDict trx_record)
    /\ Forall (fun e => ~ lists_pair "TRX/USDT" e) before.
Proof.
  apply (proj1 (find_symbol_record_first trx_catalog "TRX/USDT")
           (JDict trx_record)).
  reflexivity.
Defined.

(** A record that gives the lot size as text and nothing else. *)
Lemma get_symbol_limits_defaults_witness :
  get_symbol_limits (X := scripted) (JDict [])
  = Ok {| lotSize := 1 # 1000000; minQty := 1 # 1000000; minNotional := 1 # 2 |}
  /\ (float_of (X := scripted) (JStr "0.01") = Ok (1 # 100)
      /\ float_of (X := scripted) (JFloat (1 # 100)) = Ok (1 # 100)
      /\ float_of (X := scripted) (JFloat (1 # 2)) = Ok (1 # 2)).
Proof.
  split.
  - apply (proj2 (proj2 (get_symbol_limits_defaults (X := scripted) [])));
      reflexivity.
  - apply (proj1 (get_symbol_limits_defaults (X := scripted)
                    [("lotSize", JStr "0.01")])
             {| lotSize := 1 # 100; minQty := 1 # 100; minNotional := 1 # 2 |}).
    reflexivity.
Defined.

(** [available] is null, [free] reads 7.5, [total] is not consulted. *)
Lemma extract_available_first_readable_witness :
  let r := [("available", JNull); ("free", JStr "7.5"); ("total", JStr "x")] in
  let s0 := start (X := scripted) [] no_files in
  extract_available_usdt (X := scripted) (JDict [("result", JDict r)]) 3 s0
  = (Ok (15 # 2), s0).
Proof.
  intros r s0.
  apply (extract_available_first_readable (X := scripted) [("result", JDict r)] r
           ["available"] "free" ["total"] (JStr "7.5") (15 # 2) 3 s0);
    [reflexivity | reflexivity | reflexivity | reflexivity |].
  constructor; [reflexivity | constructor].
Defined.

(** An [id] at the top level wins over an [orderID] under [result]. *)
Lemma extract_order_id_priority_witness :
  extract_order_id (X := scripted)
    (JDict [("id", JStr "B3"); ("result", JDict [("orderID", JStr "Z")])])
  = JStr "B3".
Proof.
  apply (proj1 (proj2 (proj2
           (extract_order_id_priority (X := scripted)
              (JDict [("id", JStr "B3"); ("result", JDict [("orderID", JStr "Z")])]))))
           [("id", JStr "B3"); ("result", JDict [("orderID", JStr "Z")])]
           ["orderID"; "orderId"] "id" ["clientOrderId"; "dataId"] (JStr "B3"));
    [reflexivity | reflexivity | reflexivity | reflexivity |].
  repeat constructor.
Defined.

Lemma local_status_values_witness :
  local_status (X := scripted) "done" JNull (JDict (placed_buy "NEW")) = "FILLED"
  /\ normalize (JInt 1) = Raise AttributeError.
Proof.
  destruct (local_status_values (X := scripted)) as (_ & Hf & _ & Hn).
  split.
  - apply (Hf (JStr "Done")); [reflexivity | cbn; tauto].
  - apply Hn; [reflexivity | discriminate].
Defined.

(** One new buy, reported filled and sold: the pass keeps the record in
    place and appends the sell. *)
Lemma status_pass_appends_witness :
  let sd := [("orders", JList [JDict (placed_buy "NEW")])] in
  let s0 := start (X := scripted)
              [reply 200 filled_reply; reply 200 (JDict [("orderID", JStr "S1")])]
              no_files in
  exists kept_part sells,
    fst (status_pass (X := scripted) key "TRX/USDT" "orders.json" (JDict []) (JDict sd) s0)
    = Ok (JDict (assign "orders" (JList (kept_part ++ sells)) sd))
    /\ List.length kept_part = 1%nat
    /\ Forall is_sell sells
    /\ exists d', nth_error kept_part 0 = Some (JDict d')
                  /\ lookup "order_id" d' = Some (JStr "B1")
                  /\ lookup "quantity" d' = Some (JFloat 100).
Proof.
  intros sd s0.
  pose (r := status_pass (X := scripted) key "TRX/USDT" "orders.json" (JDict [])
               (JDict sd) s0).
  pose (saved' := match fst r with Ok v => v | Raise _ => JNull end).
  assert (E : r = (Ok saved', snd r)) by reflexivity.
  destruct (status_pass_appends (X := scripted) key "TRX/USDT" "orders.json"
              (JDict []) sd [JDict (placed_buy "NEW")] saved' s0 (snd r) eq_refl E)
    as (kept_part & sells & Hs & Hlen & Hsells & _ & Hrec).
  exists kept_part, sells.
  split; [change (fst r = Ok (JDict (assign "orders" (JList (kept_part ++ sells)) sd)));
          rewrite E; cbn [fst]; f_equal; exact Hs |].
  split; [exact Hlen |]. split; [exact Hsells |].
  destruct (Hrec 0%nat (placed_buy "NEW") eq_refl) as (d' & Hn & Hk & _).
  exists d'. split; [exact Hn |].
  split; (rewrite Hk; [reflexivity |]); cbn; intuition discriminate.
Defined.

(** The record is reported filled at 1.05; the sell is answered 403. *)
Lemma failed_sell_not_retried_witness :
  let s0 := start (X := scripted) [reply 200 filled_reply; reply 403 JNull] no_files in
  let d1 := with_status (placed_buy "NEW") "FILLED" filled_reply in
  fst (check_entry (X := scripted) key "TRX/USDT" "orders.json" (JDict []) lone
         (JDict (placed_buy "NEW")) s0)
  = Ok (JDict d1, [])
  /\ forall visits, sells_over_runs (X := scripted) (JDict d1) visits = [].
Proof.
  intros s0 d1.
  pose (s1 := snd (get_order_status (X := scripted) key "B1" s0)).
  pose (s2 := snd (place_order (X := scripted) key "TRX/USDT" "sell"
                     ((21 # 20) * (102 # 100)) 100 (JDict [])
                     (say (INFO_status (JStr "B1") (JStr "FILLED"))
                        (write "orders.json" (lone (JDict d1) []) s1)))).
  destruct (failed_sell_not_retried (X := scripted) key "TRX/USDT" "orders.json"
              (JDict []) lone (placed_buy "NEW") filled_reply (JStr "FILLED")
              (JStr "1.05") JNull "filled" (21 # 20) 100 PermissionError s0 s1 s2)
    as (Hc & _ & _ & _ & Hlater).
  - repeat split.
  - reflexivity.
  - reflexivity.
  - reflexivity.
  - reflexivity.
  - reflexivity.
  - reflexivity.
  - reflexivity.
  - reflexivity.
  - split; [now rewrite Hc | exact Hlater].
Defined.

(** The record is reported filled at a price that is no number. *)
Lemma fill_with_unreadable_price_witness :
  let s0 := start (X := scripted) [reply 200 priceless_reply] no_files in
  let d1 := with_status (placed_buy "NEW") "FILLED" priceless_reply in
  let r := check_entry (X := scripted) key "TRX/USDT" "orders.json" (JDict []) lone
             (JDict (placed_buy "NEW")) s0 in
  fst r = Ok (JDict d1, [])
  /\ List.length (sent (snd r)) = 1%nat
  /\ files (snd r) "orders.json" = Holds (lone (JDict d1) [])
  /\ forall visits, sells_over_runs (X := scripted) (JDict d1) visits = [].
Proof.
  intros s0 d1 r.
  pose (s1 := snd (get_order_status (X := scripted) key "B1" s0)).
  destruct (fill_with_unreadable_price (X := scripted) key "TRX/USDT" "orders.json"
              (JDict []) lone (placed_buy "NEW") priceless_reply (JStr "FILLED")
              (JStr "n/a") JNull "filled" ValueError s0 s1)
    as (Hc & _ & Hsent & Hfile & Hlater).
  - repeat split.
  - reflexivity.
  - reflexivity.
  - reflexivity.
  - reflexivity.
  - reflexivity.
  - reflexivity.
  - unfold r. rewrite Hc. cbn [fst snd].
    split; [reflexivity |]. split; [rewrite Hsent; reflexivity |].
    split; [exact Hfile | exact Hlater].
Defined.

(** The lookup of the only record is answered 403. *)
Lemma status_pass_fails_only_by_denial_witness :
  fst (status_pass (X := scripted) key "TRX/USDT" "orders.json" (JDict [])
         (lone (JDict (placed_buy "NEW")) [])
         (start (X := scripted) [reply 403 JNull] no_files))
  = Raise PermissionError.
Proof.
  pose (s0 := start (X := scripted) [reply 403 JNull] no_files).
  pose (r := status_pass (X := scripted) key "TRX/USDT" "orders.json" (JDict [])
               (lone (JDict (placed_buy "NEW")) []) s0).
  assert (E : exists err, r = (Raise err, snd r))
    by (exists (match fst r with Raise e => e | Ok _ => RuntimeError end);
        reflexivity).
  destruct E as (err & E).
  change (fst r = Raise PermissionError). rewrite E. cbn [fst]. f_equal.
  apply (status_pass_fails_only_by_denial (X := scripted) key "TRX/USDT"
           "orders.json" (JDict []) [("orders", JList [JDict (placed_buy "NEW")])]
           [JDict (placed_buy "NEW")] err s0 (snd r) eq_refl).
  - constructor; [| constructor].
    exists (placed_buy "NEW"). split; [reflexivity | discriminate].
  - exact E.
Defined.

(** A store with one record that lacks its order id: the script patches
    it and leaves the rest of the world alone. *)
Lemma fix_orders_outcome_witness :
  let s0 := start (X := scripted) [] (store_with (JDict unlabelled_buy)) in
  let s' := snd (fix_orders (X := scripted) "orders.json" s0) in
  exists data items,
    files s0 "orders.json" = Holds data
    /\ files s' "orders.json" = Holds (patched_document data items)
    /\ (forall f, f <> "orders.json" -> files s' f = files s0 f)
    /\ sent s' = sent s0 /\ net s' = net s0
    /\ out s' = (out s0 ++ [INFO ("Patched orders: " ++ show_nat 1)])%list
    /\ (forall sd l, data = JDict sd -> lookup "orders" sd = Some (JList l) ->
          patched_document data items = JDict (assign "orders" (JList items) sd)
          /\ Forall2 repaired l items
          /\ (1 <= List.length l)%nat).
Proof.
  intros s0 s'.
  apply (proj2 (fix_orders_outcome (X := scripted) "orders.json" s0) 1%nat s').
  reflexivity.
Defined.

(** A store as [run_lab] writes it. *)
Lemma fix_orders_nothing_to_repair_witness :
  let s0 := start (X := scripted) [] (store_with (JDict (placed_buy "NEW"))) in
  fix_orders (X := scripted) "orders.json" s0
  = (inr 0%nat,
     say (INFO ("Patched orders: " ++ show_nat 0))
       (write "orders.json" (lone (JDict (placed_buy "NEW")) []) s0)).
Proof.
  intros s0.
  apply (proj2 (proj2 (fix_orders_nothing_to_repair (X := scripted)
                         scripted_str_nonempty))
           "orders.json" [("orders", JList [JDict (placed_buy "NEW")])]
           [JDict (placed_buy "NEW")] s0);
    [reflexivity | reflexivity |].
  constructor; [| constructor].
  exists (placed_buy "NEW"). split; reflexivity.
Defined.

(** The script run twice over a store with one record to patch. *)
Lemma fix_orders_idempotent_witness :
  let s0 := start (X := scripted) [] (store_with (JDict unlabelled_buy)) in
  let s1 := snd (fix_orders (X := scripted) "orders.json" s0) in
  fst (fix_orders (X := scripted) "orders.json" s0) = inr 1%nat
  /\ exists s2,
       fix_orders (X := scripted) "orders.json" s1 = (inr 0%nat, s2)
       /\ forall f, files s2 f = files s1 f.
Proof.
  intros s0 s1. split; [reflexivity |].
  apply (fix_orders_idempotent (X := scripted) "orders.json" 1%nat s0 s1
           scripted_str_nonempty).
  reflexivity.
Defined.

(** The text 770101, a first answer out of range, then one zero: the
    search ends at nonce 43 after 44 attempts. *)
Lemma proof_of_work_least_nonce_witness :
  exists hash_object skipped l rest,
    ["770101"; "9"; "1"] = (hash_object :: skipped ++ l :: rest)%list
    /\ Forall (out_of_range parse_int) skipped
    /\ parse_int l = Some 1%Z
    /\ (1 <= 1 <= 5)%Z
    /\ hit Sha256.sha256_hex hash_object (zeros (Z.to_nat 1)) 43
    /\ (forall m, (m < 43)%nat
                  -> ~ hit Sha256.sha256_hex hash_object (zeros (Z.to_nat 1)) m)
    /\ 44%nat = 44%nat.
Proof.
  apply (proof_of_work_least_nonce Sha256.sha256_hex parse_int
           ["770101"; "9"; "1"] 100 1%Z 44 43).
  vm_compute. reflexivity.
Defined.

Lemma proof_of_work_finds_witness :
  exists m, (m <= 43)%nat
    /\ proof_of_work Sha256.sha256_hex parse_int ["770101"; "9"; "1"] 100
       = inr (Some (1%Z, S m, m)).
Proof.
  apply (proj1 (proof_of_work_finds Sha256.sha256_hex parse_int "770101"
                  ["9"; "1"] 100 1%Z eq_refl) 43%nat);
    [lia | vm_compute; reflexivity].
Defined.

(** The scripts run on the input above print what [hashlib] gives. *)
Example proof_of_work_run :
  proof_of_work Sha256.sha256_hex parse_int ["770101"; "9"; "1"] 100
  = inr (Some (1%Z, 44%nat, 43%nat))
  /\ Sha256.sha256_hex (pow_input "770101" 43)
     = "0412367f48e5e445b231485280b6378f7ce35dcfd77105a990d9c226599606c4".
Proof. vm_compute. split; reflexivity. Qed.
